(** * account_move_csv_import: the import wizard (wizard/import_move.py)

    A shallow embedding of the file decoders, of the entry assembler
    [create_moves_from_pivot] and of the reconciliation matcher
    [reconcile_move_lines], with the properties of the specification that
    concern them.

    Conventions.
    - A Python [float] is a binary64 number: Rocq's primitive [float], whose
      [+], [-], [/] and comparisons are the IEEE operations Python uses.
    - A Python dict with string keys is a [gmap string pyval].
    - A Python [str] is a [string]: one 8-bit character per code point, as
      the ASCII and Latin-1 encodings of the wizard give.
    - A Python exception is a value of [exn]; code that may raise returns
      [exn + A].
    - A CSV decoder takes the rows its reader yields; building the reader
      is [DictReader], which may raise before any row is read.
    - What the module imports from elsewhere (the builtins [float], [int],
      [str] and [datetime.strptime], Odoo's [float_is_zero], the matching
      methods of [business.document.import], the ORM's [create], [post] and
      [reconcile]) is a [Variable] of the section that uses it; the
      theorems hold for every behaviour of these. *)

From Stdlib Require Import ZArith String Ascii List Bool Floats Lia Sorted.
From stdpp Require Import gmap strings list fin_maps.
Import ListNotations.

Set Warnings "-inexact-float".
Local Open Scope string_scope.
Local Open Scope Z_scope.

(** ** Python values *)

(** The values that occur in pivot lines.  [PDict1 k v] is the one-entry
    dict literal [{k: v}] of the reference fields ([{'code': '411000'}],
    [{'ref': '1242'}], [{'recordset': journal}]). *)
Inductive pyval : Type :=
| PNone
| PBool (b : bool)
| PInt (z : Z)
| PFloat (f : float)
| PStr (s : string)
| PDate (y m d : Z)
| PDatetime (y mo d h mi s : Z)
| PDict1 (k : string) (v : pyval).

Abbreviation pydict := (gmap string pyval).

(** Exceptions.  The messages of [UserError] keep the numbers the source
    formats into them. *)
Inductive error_msg : Type :=
| MissingLabel (line : Z)
| MissingDate (line : Z)
| BadCredit (line : Z) (value : pyval)
| BadDebit (line : Z) (value : pyval)
| NotBalancedOnLine (line : Z) (balance : float)
| NotBalancedLastLine (balance : float)
| NoMatch (error_prefix_line : Z) (what : string)
| SelectSeparator.

Inductive exn : Type :=
| UserError (msg : error_msg)
| AssertionError (msg : string)
| KeyError (key : string)
| IndexError
| TypeError
| AttributeError
| ValueError
| ExternalError (what : string).

Definition result (A : Type) : Type := (exn + A)%type.

Definition bind {A B : Type} (m : result A) (k : A -> result B) : result B :=
  match m with
  | inl e => inl e
  | inr a => k a
  end.

Notation "x <- m ;; k" := (bind m (fun x => k))
  (at level 100, m at next level, right associativity).

Definition raise {A : Type} (e : exn) : result A := inl e.
Definition ok {A : Type} (a : A) : result A := inr a.

(** [d[k]]: a missing key raises [KeyError]. *)
Definition getitem (d : pydict) (k : string) : result pyval :=
  match d !! k with
  | Some v => ok v
  | None => raise (KeyError k)
  end.

(** [d.get(k)] and [d.get(k, default)]. *)
Definition get (d : pydict) (k : string) : pyval := default PNone (d !! k).
Definition get_default (d : pydict) (k : string) (dflt : pyval) : pyval :=
  default dflt (d !! k).

(** Truth value of an object ([bool(v)]): a float is false when it compares
    equal to zero, a one-entry dict is never empty. *)
Definition truthy (v : pyval) : bool :=
  match v with
  | PNone => false
  | PBool b => b
  | PInt z => negb (z =? 0)
  | PFloat f => negb (PrimFloat.eqb f 0)
  | PStr s => negb (String.eqb s "")
  | PDate _ _ _ => true
  | PDatetime _ _ _ _ _ _ => true
  | PDict1 _ _ => true
  end.

(** [int] to [float], rounding to nearest even as CPython does. *)
Definition float_of_Z (z : Z) : float :=
  SF2Prim (binary_normalize prec emax z 0 false).

(** The exact integer value of a float, when it has one. *)
Definition Z_of_float (f : float) : option Z :=
  match Prim2SF f with
  | S754_zero _ => Some 0
  | S754_finite s m e =>
      let sgn := if s then (-1) else 1 in
      if 0 <=? e then Some (sgn * (Z.pos m * 2 ^ e))
      else if (Z.pos m mod 2 ^ (- e)) =? 0
           then Some (sgn * (Z.pos m / 2 ^ (- e))) else None
  | _ => None
  end.

Definition Z_of_bool (b : bool) : Z := if b then 1 else 0.

(** [a == b].  Numbers ([bool], [int], [float]) compare by value, whatever
    their type; values of different kinds are unequal; a [datetime] never
    equals a [date]. *)
Fixpoint py_eq (a b : pyval) : bool :=
  match a, b with
  | PNone, PNone => true
  | PBool x, PBool y => Bool.eqb x y
  | PBool x, PInt y => Z_of_bool x =? y
  | PInt x, PBool y => x =? Z_of_bool y
  | PInt x, PInt y => x =? y
  | PFloat x, PFloat y => PrimFloat.eqb x y
  | PFloat x, PInt y => match Z_of_float x with Some z => z =? y | None => false end
  | PInt x, PFloat y => match Z_of_float y with Some z => x =? z | None => false end
  | PFloat x, PBool y => PrimFloat.eqb x (float_of_Z (Z_of_bool y))
  | PBool x, PFloat y => PrimFloat.eqb y (float_of_Z (Z_of_bool x))
  | PStr x, PStr y => String.eqb x y
  | PDate y1 m1 d1, PDate y2 m2 d2 => (y1 =? y2) && (m1 =? m2) && (d1 =? d2)
  | PDatetime y1 o1 d1 h1 i1 s1, PDatetime y2 o2 d2 h2 i2 s2 =>
      (y1 =? y2) && (o1 =? o2) && (d1 =? d2) && (h1 =? h2) && (i1 =? i2) && (s1 =? s2)
  | PDict1 k1 v1, PDict1 k2 v2 => String.eqb k1 k2 && py_eq v1 v2
  | _, _ => false
  end.


(** [a and b or c] on values, as the decoders write their conditional
    amounts: [c] unless [a] holds and [b] is true. *)
Definition and_or (a : bool) (b c : pyval) : pyval :=
  if a then (if truthy b then b else c) else c.

(** [isinstance(v, int)]: [bool] is a subclass of [int]. *)
Definition isinstance_int (v : pyval) : bool :=
  match v with PInt _ | PBool _ => true | _ => false end.

Definition isinstance_float (v : pyval) : bool :=
  match v with PFloat _ => true | _ => false end.

(** The integer a [%d] conversion prints, and that [- 1] works on. *)
Definition int_value (v : pyval) : result Z :=
  match v with
  | PInt z => ok z
  | PBool b => ok (Z_of_bool b)
  | _ => raise TypeError
  end.

(** ** Strings *)

(** [l[n]] for [n] within the string. *)
Definition char_at (n : nat) (s : string) : option ascii := String.get n s.

(** [l[a:b]]: a slice stops at the end of the string. *)
Definition slice (a b : nat) (s : string) : string := String.substring a (b - a) s.

Definition str_len (s : string) : Z := Z.of_nat (String.length s).

(** [s.replace(',', '.')]. *)
Fixpoint replace_comma (s : string) : string :=
  match s with
  | EmptyString => EmptyString
  | String c s' => String (if Ascii.eqb c "," then "."%char else c) (replace_comma s')
  end.

(** [s.split('\n')]: never empty, the last piece is what follows the last
    newline. *)
Fixpoint split_newline (s : string) : list string :=
  match s with
  | EmptyString => [EmptyString]
  | String c s' =>
      match split_newline s' with
      | [] => [String c EmptyString]
      | h :: t => if Ascii.eqb c "010" then EmptyString :: h :: t else String c h :: t
      end
  end.

(** ['.' in s] and [s.split('.')[0]]. *)
Fixpoint contains_dot (s : string) : bool :=
  match s with
  | EmptyString => false
  | String c s' => Ascii.eqb c "." || contains_dot s'
  end.

Fixpoint before_dot (s : string) : string :=
  match s with
  | EmptyString => EmptyString
  | String c s' => if Ascii.eqb c "." then EmptyString else String c (before_dot s')
  end.

(** [c.isdigit()] of a character of the model, a code point below 256:
    the ASCII digits and the superscripts [U+00B2], [U+00B3] and
    [U+00B9], which Python holds for digits too. *)
Definition isdigit (c : ascii) : bool :=
  let n := N_of_ascii c in
  (((48 <=? n) && (n <=? 57)) || (n =? 178) || (n =? 179) || (n =? 185))%N.

(** ** Reference builtins

    The decoders are defined over arbitrary [float], [int], [str] and
    [strptime]; these instances evaluate the examples.  They accept plain
    decimal notation only ([-12.5], [000000001242], [15022017]), on which
    they agree with Python: they answer [None] (the [ValueError] case) on
    the other notations Python reads, which no example uses. *)

Fixpoint digits_value (s : string) (acc : Z) : option Z :=
  match s with
  | EmptyString => Some acc
  | String c s' =>
      if isdigit c then digits_value s' (10 * acc + (Z.of_N (N_of_ascii c) - 48))
      else None
  end.

Definition unsigned_int (s : string) : option Z :=
  match s with
  | EmptyString => None
  | _ => digits_value s 0
  end.

Definition split_sign (s : string) : bool * string :=
  match s with
  | String "-" s' => (true, s')
  | String "+" s' => (false, s')
  | _ => (false, s)
  end.

Definition ref_int (s : string) : option Z :=
  let '(neg, body) := split_sign s in
  match unsigned_int body with
  | Some n => Some (if neg then - n else n)
  | None => None
  end.

(** Text after the first ['.'], when there is one. *)
Fixpoint after_dot (s : string) : string :=
  match s with
  | EmptyString => EmptyString
  | String c s' => if Ascii.eqb c "." then s' else after_dot s'
  end.

(** Decimal text to the nearest float: one division of two exactly
    represented integers, which rounds once (mantissas below 2^53, at most
    22 decimals). *)
Definition ref_float (s : string) : option float :=
  let '(neg, body) := split_sign s in
  let ip := before_dot body in
  let fp := after_dot body in
  match unsigned_int (ip ++ fp) with
  | Some m =>
      let k := Z.of_nat (String.length fp) in
      let v := (float_of_Z m / float_of_Z (10 ^ k))%float in
      Some (if neg then (- v)%float else v)
  | None => None
  end.

Definition two_digits (s : string) : option (Z * string) :=
  match s with
  | String a (String b rest) =>
      match unsigned_int (String a (String b EmptyString)) with
      | Some n => Some (n, rest)
      | None => None
      end
  | _ => None
  end.

(** [strptime] for the directives the decoders use, each read at its full
    width; [%y] maps 69..99 to 19xx and 00..68 to 20xx. *)
Fixpoint ref_strptime_go (s fmt : string) (y m d : Z) (fuel : nat) : option pyval :=
  match fuel with
  | O => None
  | S fuel' =>
      match fmt with
      | EmptyString =>
          match s with
          | EmptyString =>
              if (1 <=? m) && (m <=? 12) && (1 <=? d) && (d <=? 31)
              then Some (PDatetime y m d 0 0 0) else None
          | _ => None
          end
      | String "%" (String k fmt') =>
          match two_digits s with
          | None => None
          | Some (n, rest) =>
              if Ascii.eqb k "d" then ref_strptime_go rest fmt' y m n fuel'
              else if Ascii.eqb k "m" then ref_strptime_go rest fmt' y n d fuel'
              else if Ascii.eqb k "y"
                   then ref_strptime_go rest fmt' (if n <? 69 then 2000 + n else 1900 + n) m d fuel'
              else if Ascii.eqb k "Y"
                   then match two_digits rest with
                        | Some (n2, rest2) => ref_strptime_go rest2 fmt' (100 * n + n2) m d fuel'
                        | None => None
                        end
              else None
          end
      | String c fmt' =>
          match s with
          | String c' s' => if Ascii.eqb c c' then ref_strptime_go s' fmt' y m d fuel' else None
          | EmptyString => None
          end
      end
  end.

Definition ref_strptime (s fmt : string) : option pyval :=
  ref_strptime_go s fmt 0 0 0 (S (String.length fmt)).

(** [str] of the values that are not strings; the examples hold none. *)
Definition ref_repr (v : pyval) : string :=
  match v with
  | PNone => "None"
  | PBool true => "True"
  | PBool false => "False"
  | _ => "?"
  end.

(** ** The wizard *)

Section Wizard.

(** *** Builtins *)

(** [float(s)] and [int(s)] of a string; [None] is [ValueError]. *)
Variable py_float : string -> option float.
Variable py_int : string -> option Z.
(** [datetime.strptime(s, fmt)]; [None] is [ValueError]. *)
Variable strptime : string -> string -> option pyval.
(** [str(v)] of a value that is not a string. *)
Variable py_repr : pyval -> string.

Definition as_str (on_other : exn) (v : pyval) : result string :=
  match v with
  | PStr s => ok s
  | _ => raise on_other
  end.

Definition parse_float (s : string) : result float :=
  match py_float s with
  | Some f => ok f
  | None => raise ValueError
  end.

(** [float(v)]. *)
Definition float_of (v : pyval) : result float :=
  match v with
  | PFloat f => ok f
  | PInt z => ok (float_of_Z z)
  | PBool b => ok (float_of_Z (Z_of_bool b))
  | PStr s => parse_float s
  | _ => raise TypeError
  end.

(** [float(v.replace(',', '.'))]. *)
Definition float_of_comma (v : pyval) : result float :=
  s <- as_str AttributeError v ;;
  parse_float (replace_comma s).

(** [datetime.strptime(v, fmt)]. *)
Definition parse_date (v : pyval) (fmt : string) : result pyval :=
  s <- as_str TypeError v ;;
  match strptime s fmt with
  | Some d => ok d
  | None => raise ValueError
  end.

Definition py_str (v : pyval) : string :=
  match v with
  | PStr s => s
  | _ => py_repr v
  end.

(** [a or b]. *)
Definition py_or (a b : pyval) : pyval := if truthy a then a else b.

(** *** Reading rows *)

(** [unicodecsv.QUOTE_MINIMAL], the default [quoting]. *)
Definition QUOTE_MINIMAL : pyval := PInt 0.

(** [unicodecsv.DictReader(fileobj, .., quoting=quoting)].  The object
    builds its [csv] reader at once, and the [csv] module takes for
    [quoting] one of its constants [0] to [3] and nothing else: an object
    that is not exactly an [int] ([False] is a [bool]) or an [int] out of
    range is a [TypeError], raised before any row is read.  [rows] are the
    rows the reader yields otherwise. *)
Definition DictReader (quoting : pyval) (rows : list (list string))
    : result (list (list string)) :=
  match quoting with
  | PInt q => if (0 <=? q) && (q <=? 3) then ok rows else raise TypeError
  | _ => raise TypeError
  end.

(** The dict a [DictReader] makes of a row: the fields under their names
    in order (a later name overwrites an earlier equal one), then [None]
    under every name the row is too short for.  A [False] field name is
    [None] here; its dict entry is never read. *)
Fixpoint dictreader (fieldnames : list (option string)) (row : list string)
    (d : pydict) : pydict :=
  match fieldnames with
  | [] => d
  | n :: names =>
      match row with
      | v :: row' =>
          dictreader names row' (match n with Some k => <[k := PStr v]> d | None => d end)
      | [] =>
          dictreader names [] (match n with Some k => <[k := PNone]> d | None => d end)
      end
  end.

(** The loop every decoder runs: [i] counts the rows read, a row either
    raises, is skipped ([continue]) or appends its [vals] to [res]. *)
Fixpoint for_rows {Row : Type} (body : Z -> Row -> result (option pydict))
    (i : Z) (rows : list Row) (res : list pydict) : result (list pydict) :=
  match rows with
  | [] => ok res
  | l :: rows' =>
      let i := i + 1 in
      match body i l with
      | inl e => raise e
      | inr None => for_rows body i rows' res
      | inr (Some vals) => for_rows body i rows' (res ++ [vals])
      end
  end.

Definition code (v : pyval) : pyval := PDict1 "code" v.

(** *** In Extenso *)

Definition extenso_fieldnames : list (option string) :=
  [Some "journal"; Some "date"; None; Some "account"; None; None; None; None;
   Some "debit"; Some "credit"].

Definition extenso_row (i : Z) (row : list string) : result (option pydict) :=
  let l := dictreader extenso_fieldnames row ∅ in
  c0 <- getitem l "credit" ;;
  let l := <["credit" := py_or c0 (PStr "0")]> l in
  d0 <- getitem l "debit" ;;
  let l := <["debit" := py_or d0 (PStr "0")]> l in
  journal <- getitem l "journal" ;;
  account <- getitem l "account" ;;
  c <- getitem l "credit" ;;
  credit <- float_of_comma c ;;
  d <- getitem l "debit" ;;
  debit <- float_of_comma d ;;
  dt <- getitem l "date" ;;
  date <- parse_date dt "%d%m%Y" ;;
  ok (Some (<["journal" := code journal]> (<["account" := code account]>
           (<["credit" := PFloat credit]> (<["debit" := PFloat debit]>
           (<["date" := date]> (<["line" := PInt i]> ∅))))))).

(** The reader is built with [quoting=False]. *)
Definition extenso2pivot (reader : list (list string)) : result (list pydict) :=
  reader <- DictReader (PBool false) reader ;;
  for_rows extenso_row 0 reader [].

(** *** Ciel Paye *)

Definition cielpaye_fieldnames : list (option string) :=
  [None; Some "journal"; Some "date"; Some "account"; None; Some "amount";
   Some "sign"; None; Some "name"; None].

Definition cielpaye_row (i : Z) (row : list string) : result (option pydict) :=
  let l := dictreader cielpaye_fieldnames row ∅ in
  if truthy (get l "date") && truthy (get l "name") && truthy (get l "amount") then
    a <- getitem l "amount" ;;
    amount <- float_of_comma a ;;
    journal <- getitem l "journal" ;;
    account <- getitem l "account" ;;
    sign <- getitem l "sign" ;;
    dt <- getitem l "date" ;;
    date <- parse_date dt "%d/%m/%Y" ;;
    name <- getitem l "name" ;;
    ok (Some (<["journal" := code journal]> (<["account" := code account]>
             (<["credit" := and_or (py_eq sign (PStr "C")) (PFloat amount) (PInt 0)]>
             (<["debit" := and_or (py_eq sign (PStr "D")) (PFloat amount) (PInt 0)]>
             (<["date" := date]> (<["name" := name]> (<["line" := PInt i]> ∅))))))))
  else ok None.

Definition cielpaye2pivot (reader : list (list string)) : result (list pydict) :=
  reader <- DictReader QUOTE_MINIMAL reader ;;
  for_rows cielpaye_row 0 reader [].

(** *** FEC (text) *)

Definition fectxt_fieldnames : list (option string) :=
  [Some "journal"; None; None; Some "date"; Some "account"; Some "name";
   None; None; Some "ref"; None; Some "name"; Some "debit"; Some "credit";
   Some "reconcile_ref"; None; None; None; None].

Definition fectxt_row (i : Z) (row : list string) : result (option pydict) :=
  let l := dictreader fectxt_fieldnames row ∅ in
  if i =? 1 then ok None else
  c0 <- getitem l "credit" ;;
  let l := <["credit" := py_or c0 (PStr "0")]> l in
  d0 <- getitem l "debit" ;;
  let l := <["debit" := py_or d0 (PStr "0")]> l in
  journal <- getitem l "journal" ;;
  account <- getitem l "account" ;;
  c <- getitem l "credit" ;;
  credit <- float_of_comma c ;;
  d <- getitem l "debit" ;;
  debit <- float_of_comma d ;;
  dt <- getitem l "date" ;;
  date <- parse_date dt "%Y%m%d" ;;
  name <- getitem l "name" ;;
  rec <- getitem l "reconcile_ref" ;;
  ok (Some (<["journal" := code journal]> (<["account" := code account]>
           (<["credit" := PFloat credit]> (<["debit" := PFloat debit]>
           (<["date" := date]> (<["name" := name]>
           (<["reconcile_ref" := rec]> (<["line" := PInt i]> ∅))))))))).

(** The separator comes from the wizard's [fec_txt_field_separator]. *)
Definition fectxt2pivot (fec_txt_field_separator : pyval)
    (reader : list (list string)) : result (list pydict) :=
  if py_eq fec_txt_field_separator (PStr "pipe")
     || py_eq fec_txt_field_separator (PStr "tab")
  then reader <- DictReader QUOTE_MINIMAL reader ;;
       for_rows fectxt_row 0 reader []
  else raise (UserError SelectSeparator).

(** *** Generic CSV *)

Definition genericcsv_fieldnames : list (option string) :=
  [Some "date"; Some "journal"; Some "account"; Some "partner";
   Some "analytic"; Some "name"; Some "debit"; Some "credit"].

Definition genericcsv_row (i : Z) (row : list string) : result (option pydict) :=
  let l := dictreader genericcsv_fieldnames row ∅ in
  journal <- getitem l "journal" ;;
  account <- getitem l "account" ;;
  c <- getitem l "credit" ;;
  credit <- float_of (py_or c (PInt 0)) ;;
  d <- getitem l "debit" ;;
  debit <- float_of (py_or d (PInt 0)) ;;
  dt <- getitem l "date" ;;
  date <- parse_date dt "%d/%m/%Y" ;;
  name <- getitem l "name" ;;
  let vals : pydict :=
    <["journal" := code journal]> (<["account" := code account]>
    (<["credit" := PFloat credit]> (<["debit" := PFloat debit]>
    (<["date" := date]> (<["name" := name]> (<["line" := PInt i]> ∅)))))) in
  ana <- getitem l "analytic" ;;
  let vals := if truthy ana then <["analytic" := code ana]> vals else vals in
  par <- getitem l "partner" ;;
  let vals := if truthy par then <["partner" := PDict1 "ref" par]> vals else vals in
  ok (Some vals).

Definition genericcsv2pivot (reader : list (list string)) : result (list pydict) :=
  reader <- DictReader QUOTE_MINIMAL reader ;;
  for_rows genericcsv_row 0 reader [].

(** *** Nibelis *)

Definition nibelis_fieldnames : list (option string) :=
  map Some
    ["trasha"; "trashb"; "journal"; "trashd"; "trashe";
     "trashf"; "trashg"; "date"; "trashi"; "trashj"; "trashk";
     "trashl"; "trashm"; "trashn"; "account"; "trashp";
     "trashq"; "amount"; "trashs"; "sign"; "trashu";
     "trashv"; "name";
     "trashx"; "trashy"; "trashz"; "trashaa"; "trashab";
     "trashac"; "trashad"; "trashae"; "analytic"].

Definition nibelis_row (i : Z) (row : list string) : result (option pydict) :=
  let l := dictreader nibelis_fieldnames row ∅ in
  if i =? 1 then ok None else
  a <- getitem l "amount" ;;
  amount <- float_of_comma a ;;
  sign <- getitem l "sign" ;;
  let credit := and_or (py_eq sign (PStr "C")) (PFloat amount) (PBool false) in
  let debit := and_or (py_eq sign (PStr "D")) (PFloat amount) (PBool false) in
  let ana := if truthy (get l "analytic") then code (get l "analytic") else PBool false in
  journal <- getitem l "journal" ;;
  account <- getitem l "account" ;;
  dt <- getitem l "date" ;;
  date <- parse_date dt "%y%m%d" ;;
  name <- getitem l "name" ;;
  ok (Some (<["journal" := code journal]> (<["account" := code account]>
           (<["analytic" := ana]>
           (<["credit" := credit]> (<["debit" := debit]>
           (<["date" := date]> (<["name" := name]> (<["line" := PInt i]> ∅))))))))).

(** The reader is built with [quoting=False]. *)
Definition nibelis2pivot (reader : list (list string)) : result (list pydict) :=
  reader <- DictReader (PBool false) reader ;;
  for_rows nibelis_row 0 reader [].

(** *** Quadra *)

Definition char_is (n : nat) (c : ascii) (l : string) : bool :=
  match char_at n l with
  | Some c' => Ascii.eqb c' c
  | None => false
  end.

Definition quadra_row (i : Z) (l : string) : result (option pydict) :=
  if str_len l <? 54 then ok None else
  if char_is 0 "M" l && (char_is 41 "C" l || char_is 41 "D" l) then
    amount_cents <- match py_int (slice 42 55 l) with
                    | Some n => ok n
                    | None => raise ValueError
                    end ;;
    let amount := (float_of_Z amount_cents / 100)%float in
    date <- parse_date (PStr (slice 14 20 l)) "%d%m%y" ;;
    ok (Some (<["journal" := code (PStr (slice 9 11 l))]>
             (<["account" := code (PStr (slice 1 9 l))]>
             (<["credit" := and_or (char_is 41 "C" l) (PFloat amount) (PBool false)]>
             (<["debit" := and_or (char_is 41 "D" l) (PFloat amount) (PBool false)]>
             (<["date" := date]> (<["name" := PStr (slice 21 41 l)]>
             (<["line" := PInt i]> ∅))))))))
  else ok None.

(** [file_str] is the file decoded with the wizard's [file_encoding]. *)
Definition quadra2pivot (file_str : string) : result (list pydict) :=
  for_rows quadra_row 0 (split_newline file_str) [].

(** *** Payfit *)

Definition index {A : Type} (row : list A) (n : nat) : result A :=
  match nth_error row n with
  | Some v => ok v
  | None => raise IndexError
  end.

(** [rows] are the [row_values] of the workbook's sheet 1. *)
Definition payfit_row (i : Z) (row : list pyval) : result (option pydict) :=
  if i =? 1 then ok None else
  r0 <- index row 0 ;;
  if negb (truthy r0) then ok None else
  let account := py_str r0 in
  let account := if contains_dot account then before_dot account else account in
  match char_at 0 account with
  | None => raise IndexError
  | Some c0 =>
      if negb (isdigit c0) then ok None else
      r3 <- index row 3 ;;
      let analytic := py_str r3 in
      r5 <- index row 5 ;;
      debit <- float_of (py_or r5 (PFloat 0)) ;;
      r6 <- index row 6 ;;
      credit <- float_of (py_or r6 (PFloat 0)) ;;
      let vals : pydict :=
        <["account" := code (PStr account)]> (<["name" := PStr "Paye"]>
        (<["debit" := PFloat debit]> (<["credit" := PFloat credit]>
        (<["line" := PInt i]> ∅)))) in
      ok (Some (if truthy (PStr analytic)
                then <["analytic" := code (PStr analytic)]> vals else vals))
  end.

Definition payfit2pivot (rows : list (list pyval)) : result (list pydict) :=
  for_rows payfit_row 0 rows [].

(** *** The entry assembler: [create_moves_from_pivot] *)

(** The matching methods of [business.document.import], called under the
    [error_prefix] of the line; [None] is the [UserError] they raise when
    nothing matches, otherwise the [id] of the record found (for a
    partner, of its commercial partner). *)
Variable match_account : pyval -> option Z.
Variable match_partner : pyval -> option Z.
Variable match_analytic_account : pyval -> option Z.
Variable match_journal : pyval -> option Z.

(** Odoo's [float_is_zero(value, precision_digits=..)] or
    [float_is_zero(value, precision_rounding=..)]. *)
Inductive precision : Type :=
| precision_digits (d : float)
| precision_rounding (r : float).

Variable float_is_zero : float -> precision -> bool.

(** [self.env.user.company_id.currency_id.rounding]. *)
Variable prec : float.

(** The values of one [account.move.line] and of one [account.move]. *)
Record move_line : Type := {
  ml_credit : pyval;
  ml_debit : pyval;
  ml_name : pyval;
  ml_partner_id : pyval;
  ml_account_id : pyval;
  ml_analytic_account_id : pyval;
  ml_import_reconcile : pyval
}.

Record move : Type := {
  mv_journal_id : pyval;
  mv_ref : pyval;
  mv_date : pyval;
  line_ids : list move_line
}.

(** [amo.create(move)] and [rmoves.post()]. *)
Variable amo_create : move -> result Z.
Variable amo_post : list Z -> result unit.

Definition _prepare_move (pivot_line : pydict) : result move :=
  journal_id <- getitem pivot_line "journal_id" ;;
  date <- getitem pivot_line "date" ;;
  ok {| mv_journal_id := journal_id;
        mv_ref := get pivot_line "ref";
        mv_date := date;
        line_ids := [] |}.

Definition _prepare_move_line (pivot_line : pydict) : result move_line :=
  credit <- getitem pivot_line "credit" ;;
  debit <- getitem pivot_line "debit" ;;
  name <- getitem pivot_line "name" ;;
  account_id <- getitem pivot_line "account_id" ;;
  ok {| ml_credit := credit;
        ml_debit := debit;
        ml_name := name;
        ml_partner_id := get pivot_line "partner_id";
        ml_account_id := account_id;
        ml_analytic_account_id := get pivot_line "analytic_account_id";
        ml_import_reconcile := get pivot_line "reconcile_ref" |}.

Definition resolve (m : pyval -> option Z) (what : string) (line : Z)
    (v : pyval) : result pyval :=
  match m v with
  | Some id => ok (PInt id)
  | None => raise (UserError (NoMatch line what))
  end.

(** The body of the first loop, "MATCH what needs to be matched... +
    CHECKS": the line as the loop leaves it, with the ids it wrote. *)
Definition check_line (l : pydict) : result pydict :=
  if negb (truthy (get l "line") && isinstance_int (get l "line"))
  then raise (AssertionError "missing line number") else
  line <- int_value (get l "line") ;;
  acc <- getitem l "account" ;;
  account_id <- resolve match_account "account" line acc ;;
  let l := <["account_id" := account_id]> l in
  l <- (if truthy (get l "partner") then
          partner_id <- resolve match_partner "partner" line (get l "partner") ;;
          ok (<["partner_id" := partner_id]> l)
        else ok l) ;;
  l <- (if truthy (get l "analytic") then
          analytic_id <- resolve match_analytic_account "analytic" line (get l "analytic") ;;
          ok (<["analytic_account_id" := analytic_id]> l)
        else ok l) ;;
  jrn <- getitem l "journal" ;;
  journal_id <- resolve match_journal "journal" line jrn ;;
  let l := <["journal_id" := journal_id]> l in
  if negb (truthy (get l "name")) then raise (UserError (MissingLabel line)) else
  if negb (truthy (get l "date")) then raise (UserError (MissingDate line)) else
  if negb (isinstance_float (get l "credit")) then
    c <- getitem l "credit" ;; raise (UserError (BadCredit line c))
  else
  if negb (isinstance_float (get l "debit")) then
    d <- getitem l "debit" ;; raise (UserError (BadDebit line d))
  else ok l.

(** The first loop over the pivot: it stops at the first line that
    raises. *)
Fixpoint check_lines (pivot : list pydict) : result (list pydict) :=
  match pivot with
  | [] => ok []
  | l :: rest =>
      l' <- check_line l ;;
      rest' <- check_lines rest ;;
      ok (l' :: rest')
  end.

(** The variables of the second loop, "EXTRACT MOVES".  [cur_move] is
    [None] while it is the empty dict. *)
Record scan_state : Type := {
  moves : list move;
  cur_journal_id : pyval;
  cur_ref : pyval;
  cur_date : pyval;
  cur_balance : float;
  cur_move : option move
}.

Definition scan_init : scan_state :=
  {| moves := [];
     cur_journal_id := PBool false;
     cur_ref := PBool false;
     cur_date := PBool false;
     cur_balance := 0;
     cur_move := None |}.

Definition append_line (m : move) (ml : move_line) : move :=
  {| mv_journal_id := mv_journal_id m;
     mv_ref := mv_ref m;
     mv_date := mv_date m;
     line_ids := (line_ids m ++ [ml])%list |}.

(** The test of the [if]: the [and] stops at its first false operand. *)
Definition extends_current (st : scan_state) (l : pydict) : result bool :=
  let ref := get_default l "ref" (PBool false) in
  if negb (py_eq (cur_ref st) ref) then ok false else
  journal_id <- getitem l "journal_id" ;;
  if negb (py_eq (cur_journal_id st) journal_id) then ok false else
  date <- getitem l "date" ;;
  if negb (py_eq (cur_date st) date) then ok false else
  ok (negb (float_is_zero (cur_balance st) (precision_rounding prec))).

(** [l['credit'] - l['debit']]; the first loop has let floats only
    through. *)
Definition line_amount (l : pydict) : result float :=
  c <- getitem l "credit" ;;
  d <- getitem l "debit" ;;
  match c, d with
  | PFloat c, PFloat d => ok (c - d)%float
  | _, _ => raise TypeError
  end.

(** One turn of the second loop. *)
Definition scan_step (st : scan_state) (l : pydict) : result scan_state :=
  let ref := get_default l "ref" (PBool false) in
  ext <- extends_current st l ;;
  st <- (if ext then
           (* append to current move *)
           match cur_move st with
           | None => raise (KeyError "line_ids")
           | Some m =>
               ml <- _prepare_move_line l ;;
               ok {| moves := moves st;
                     cur_journal_id := cur_journal_id st;
                     cur_ref := cur_ref st;
                     cur_date := cur_date st;
                     cur_balance := cur_balance st;
                     cur_move := Some (append_line m ml) |}
           end
         else
           (* new move *)
           _ <- (match moves st with
                 | [] => ok tt
                 | _ :: _ =>
                     if negb (float_is_zero (cur_balance st) (precision_rounding prec))
                     then
                       ln <- getitem l "line" ;;
                       n <- int_value ln ;;
                       raise (UserError (NotBalancedOnLine (n - 1) (cur_balance st)))
                     else ok tt
                 end) ;;
           moves' <- (match cur_move st with
                      | None => ok (moves st)
                      | Some m =>
                          if negb (1 <? Z.of_nat (length (line_ids m)))
                          then raise (AssertionError "move should have more than 1 line")
                          else ok (moves st ++ [m])%list
                      end) ;;
           m <- _prepare_move l ;;
           ml <- _prepare_move_line l ;;
           date <- getitem l "date" ;;
           journal_id <- getitem l "journal_id" ;;
           ok {| moves := moves';
                 cur_journal_id := journal_id;
                 cur_ref := ref;
                 cur_date := date;
                 cur_balance := cur_balance st;
                 cur_move := Some (append_line m ml) |}) ;;
  amount <- line_amount l ;;
  ok {| moves := moves st;
        cur_journal_id := cur_journal_id st;
        cur_ref := cur_ref st;
        cur_date := cur_date st;
        cur_balance := (cur_balance st + amount)%float;
        cur_move := cur_move st |}.

Fixpoint scan (st : scan_state) (pivot : list pydict) : result scan_state :=
  match pivot with
  | [] => ok st
  | l :: rest => st' <- scan_step st l ;; scan st' rest
  end.

(** What follows the second loop: the open move joins [moves], then the
    balance of the whole scan is tested. *)
Definition finish (st : scan_state) : result (list move) :=
  let moves := match cur_move st with
               | Some m => (moves st ++ [m])%list
               | None => moves st
               end in
  if negb (float_is_zero (cur_balance st) (precision_rounding prec))
  then raise (UserError (NotBalancedLastLine (cur_balance st)))
  else ok moves.

(** The calls that leave the module, in the order they are made. *)
Inductive event : Type :=
| EvCreate (m : move)
| EvPost (ids : list Z).

Definition traced (A : Type) : Type := (list event * result A)%type.

Definition tret {A : Type} (a : A) : traced A := ([], ok a).

Definition tbind {A B : Type} (m : traced A) (k : A -> traced B) : traced B :=
  match m with
  | (tr, inl e) => (tr, inl e)
  | (tr, inr a) => let '(tr', r) := k a in ((tr ++ tr')%list, r)
  end.

Definition lift {A : Type} (r : result A) : traced A := ([], r).

Definition call_create (m : move) : traced Z := ([EvCreate m], amo_create m).
Definition call_post (ids : list Z) : traced unit := ([EvPost ids], amo_post ids).

(** [for move in moves: rmoves += amo.create(move)]. *)
Fixpoint create_all (ms : list move) (rmoves : list Z) : traced (list Z) :=
  match ms with
  | [] => tret rmoves
  | m :: ms' => tbind (call_create m) (fun id => create_all ms' (rmoves ++ [id])%list)
  end.

Definition create_moves_from_pivot (pivot : list pydict) (post : bool)
    : traced (list Z) :=
  tbind (lift (check_lines pivot)) (fun pivot =>
  tbind (lift (scan scan_init pivot)) (fun st =>
  tbind (lift (finish st)) (fun moves =>
  tbind (create_all moves []) (fun rmoves =>
  tbind (if post then call_post rmoves else tret tt) (fun _ =>
  tret rmoves))))).

(** *** The reconciliation matcher: [reconcile_move_lines] *)

Record account : Type := {
  acc_id : Z;
  acc_code : string;
  acc_reconcile : bool;
  acc_display_name : string
}.

(** A created [account.move.line] that the search returns: its
    [import_reconcile] is set.  [partner_id] is [None] for the empty
    recordset. *)
Record aml : Type := {
  aml_id : Z;
  import_reconcile : string;
  credit : float;
  debit : float;
  account_id : account;
  partner_id : option Z
}.

(** [lines_to_rec.reconcile()]. *)
Variable aml_reconcile : list aml -> result unit.

Inductive skip_reason : Type :=
| OnlyOneLine
| NotBalanced (total : float)
| DifferentAccounts (codes : string)
| NotAllowReconciliation (display_name : string)
| DifferentPartners (ids : string).

Inductive mevent : Type :=
| EvWarning (rec_ref : string) (why : skip_reason)
| EvReconcile (lines_to_rec : list aml).

(** [torec[line.import_reconcile] += line], or a new entry at the end:
    the dict keeps the order in which the marks first appear. *)
Fixpoint torec_add (torec : list (string * list aml)) (line : aml)
    : list (string * list aml) :=
  match torec with
  | [] => [(import_reconcile line, [line])]
  | (k, ls) :: rest =>
      if String.eqb k (import_reconcile line)
      then (k, (ls ++ [line])%list) :: rest
      else (k, ls) :: torec_add rest line
  end.

Definition group_lines (lines : list aml) : list (string * list aml) :=
  fold_left torec_add lines [].

(** [total += line.credit; total -= line.debit] over the group. *)
Definition group_total (lines_to_rec : list aml) : float :=
  fold_left (fun total line => (total + credit line - debit line)%float) lines_to_rec 0%float.

(** The keys of [accounts] in insertion order; records are equal when
    their ids are. *)
Definition add_account (accounts : list account) (a : account) : list account :=
  if existsb (fun b => acc_id b =? acc_id a) accounts then accounts
  else (accounts ++ [a])%list.

Definition group_accounts (lines_to_rec : list aml) : list account :=
  fold_left (fun accounts line => add_account accounts (account_id line)) lines_to_rec [].

(** [line.partner_id.id or False]. *)
Definition partner_key (line : aml) : pyval :=
  match partner_id line with
  | Some id => py_or (PInt id) (PBool false)
  | None => PBool false
  end.

(** The keys of [partners] in insertion order; keys are the same when
    they compare equal. *)
Definition add_partner (partners : list pyval) (p : pyval) : list pyval :=
  if existsb (py_eq p) partners then partners else (partners ++ [p])%list.

Definition group_partners (lines_to_rec : list aml) : list pyval :=
  fold_left (fun partners line => add_partner partners (partner_key line)) lines_to_rec [].

(** [sep.join(items)]: [TypeError] on the first item that is not a
    [str]. *)
Fixpoint py_join (sep : string) (items : list pyval) : result string :=
  match items with
  | [] => ok ""
  | v :: rest =>
      s <- as_str TypeError v ;;
      r <- py_join sep rest ;;
      ok (match rest with [] => s | _ :: _ => s ++ sep ++ r end)
  end.

(** [logger.warning(..)] of a skipped mark, once its arguments are
    evaluated. *)
Definition warn (rec_ref : string) (why : result skip_reason) : list mevent * result unit :=
  match why with
  | inl e => ([], raise e)
  | inr w => ([EvWarning rec_ref w], ok tt)
  end.

(** One turn of the loop over [torec.items()]: the calls made, and
    whether the turn ends normally ([continue] included) or raises. *)
Definition reconcile_group (rec_ref : string) (lines_to_rec : list aml)
    : list mevent * result unit :=
  if Z.of_nat (length lines_to_rec) <? 2 then
    warn rec_ref (ok OnlyOneLine)
  else
  let total := group_total lines_to_rec in
  let accounts := group_accounts lines_to_rec in
  let partners := group_partners lines_to_rec in
  if negb (float_is_zero total (precision_digits prec)) then
    warn rec_ref (ok (NotBalanced total))
  else if 1 <? Z.of_nat (length accounts) then
    warn rec_ref (codes <- py_join ", " (map (fun acc => PStr (acc_code acc)) accounts) ;;
                  ok (DifferentAccounts codes))
  else
  match accounts with
  | [] => ([], raise IndexError)
  | first :: _ =>
      if negb (acc_reconcile first) then
        warn rec_ref (ok (NotAllowReconciliation (acc_display_name first)))
      else if 1 <? Z.of_nat (length partners) then
        warn rec_ref (ids <- py_join ", " partners ;; ok (DifferentPartners ids))
      else ([EvReconcile lines_to_rec], aml_reconcile lines_to_rec)
  end.

Fixpoint reconcile_groups (torec : list (string * list aml)) : list mevent * result unit :=
  match torec with
  | [] => ([], ok tt)
  | (rec_ref, lines_to_rec) :: rest =>
      match reconcile_group rec_ref lines_to_rec with
      | (evs, inl e) => (evs, inl e)
      | (evs, inr _) =>
          let '(evs', r) := reconcile_groups rest in ((evs ++ evs')%list, r)
      end
  end.

(** [lines] is what the search returns for the imported moves. *)
Definition reconcile_move_lines (lines : list aml) : list mevent * result unit :=
  reconcile_groups (group_lines lines).



(** *** The overrides of the wizard: [update_pivot] *)

(** The fields of the wizard that [update_pivot] reads.  A [Date] or
    [Char] field holds its value or [False]; [force_journal_id] is [None]
    for the empty recordset, or the journal's handle. *)
Record overrides : Type := {
  force_move_date : pyval;
  force_move_ref : pyval;
  force_move_line_name : pyval;
  force_journal_id : option Z
}.

(** [fields.Date.to_string] of a [datetime]: its [strftime] with Odoo's
    date format, which reads the year, the month and the day. *)
Variable date_to_string : Z -> Z -> Z -> string.

(** [if b: l[k] = v]. *)
Definition set_if (b : bool) (k : string) (v : pyval) (l : pydict) : pydict :=
  if b then <[k := v]> l else l.

(** [if isinstance(l.get('date'), datetime): l['date'] = to_string(..)]. *)
Definition date_only (l : pydict) : pydict :=
  match get l "date" with
  | PDatetime y mo d _ _ _ => <["date" := PStr (date_to_string y mo d)]> l
  | _ => l
  end.

(** The body of the loop of [update_pivot]. *)
Definition update_line (w : overrides) (l : pydict) : result pydict :=
  let l := set_if (truthy (force_move_date w)) "date" (force_move_date w) l in
  let l := set_if (truthy (force_move_line_name w)) "name" (force_move_line_name w) l in
  let l := set_if (truthy (force_move_ref w)) "ref" (force_move_ref w) l in
  let l := match force_journal_id w with
           | Some journal => <["journal" := PDict1 "recordset" (PInt journal)]> l
           | None => l
           end in
  let l := date_only l in
  c <- getitem l "credit" ;;
  let l := set_if (negb (truthy c)) "credit" (PFloat 0) l in
  d <- getitem l "debit" ;;
  let l := set_if (negb (truthy d)) "debit" (PFloat 0) l in
  ok l.

Fixpoint update_pivot (w : overrides) (pivot : list pydict) : result (list pydict) :=
  match pivot with
  | [] => ok []
  | l :: rest =>
      l' <- update_line w l ;;
      rest' <- update_pivot w rest ;;
      ok (l' :: rest')
  end.
(** *** Reference instances and sample data *)

(** Modelled from the spec: [float_is_zero], which the module imports from
    [odoo.tools].  Section 4.3 words it: a value is zero within a
    precision when its magnitude is below half the rounding unit.  With
    [precision_rounding] the unit is the argument; with
    [precision_digits] Odoo takes [10 ** -digits], computed here by the
    power [pow] of the platform. *)
Definition ref_float_is_zero (pow : float -> float -> float)
    (value : float) (p : precision) : bool :=
  let epsilon := match p with
                 | precision_digits d => pow 10%float (- d)%float
                 | precision_rounding r => r
                 end in
  PrimFloat.ltb (PrimFloat.abs value) (epsilon / 2)%float.

(** [10 ** -0.01] in binary64; the examples raise no other power. *)
Definition pow_sample (x y : float) : float := 0.9772372209558107%float.

(** A resolver that knows every code and answers a fixed id for it. *)
Definition ref_match (v : pyval) : option Z :=
  match v with
  | PDict1 "code" (PStr "VT") => Some 1
  | PDict1 "code" (PStr "BQ") => Some 2
  | PDict1 "code" (PStr "411000") => Some 41
  | PDict1 "code" (PStr "707000") => Some 70
  | PDict1 "ref" (PStr _) => Some 7
  | PDict1 "code" (PStr _) => Some 9
  | _ => None
  end.

Definition ref_create (m : move) : result Z := ok (Z.of_nat (length (line_ids m))).
Definition ref_post (ids : list Z) : result unit := ok tt.
Definition ref_reconcile (ls : list aml) : result unit := ok tt.

(** A pivot line as [update_pivot] leaves it. *)
Definition pivot_line (line : Z) (journal : string) (date : string)
    (ref : option string) (debit credit : float) : pydict :=
  let l : pydict :=
    <["line" := PInt line]> (<["journal" := code (PStr journal)]>
    (<["account" := code (PStr "411000")]> (<["name" := PStr "label"]>
    (<["date" := PStr date]> (<["debit" := PFloat debit]>
    (<["credit" := PFloat credit]> ∅)))))) in
  match ref with
  | Some r => <["ref" := PStr r]> l
  | None => l
  end.

(** *** Notions the statements use *)

Definition has_key (l : pydict) (k : string) : bool :=
  match l !! k with
  | Some _ => true
  | None => false
  end.

(** A pivot line as the first loop leaves it when it does not raise. *)
Definition validated (l : pydict) : bool :=
  isinstance_float (get l "credit") && isinstance_float (get l "debit") &&
  has_key l "name" && has_key l "date" &&
  has_key l "journal_id" && has_key l "account_id" &&
  isinstance_int (get l "line").

(** The group key of a line is the current one. *)
Definition same_key (st : scan_state) (l : pydict) : bool :=
  py_eq (cur_ref st) (get_default l "ref" (PBool false)) &&
  py_eq (cur_journal_id st) (get l "journal_id") &&
  py_eq (cur_date st) (get l "date").

(** [credit - debit] of a validated line. *)
Definition amount_of (l : pydict) : float :=
  match get l "credit", get l "debit" with
  | PFloat c, PFloat d => (c - d)%float
  | _, _ => 0%float
  end.

(** The sum, in scan order, of [credit - debit] over lines, from [b]. *)
Definition running_total (b : float) (pivot : list pydict) : float :=
  fold_left (fun b l => (b + amount_of l)%float) pivot b.

(** The values of the move line [ml] are those of the pivot line [l]. *)
Definition line_values (l : pydict) (ml : move_line) : Prop :=
  l !! "credit" = Some (ml_credit ml) /\ l !! "debit" = Some (ml_debit ml) /\
  l !! "name" = Some (ml_name ml) /\ l !! "account_id" = Some (ml_account_id ml) /\
  ml_partner_id ml = get l "partner_id" /\
  ml_analytic_account_id ml = get l "analytic_account_id" /\
  ml_import_reconcile ml = get l "reconcile_ref".

(** The line joined the open move: the move has one line more, at its
    end, with the values of [l]; its header, the sealed moves and the
    current key are as they were; the balance took [credit - debit]. *)
Definition joined (st : scan_state) (l : pydict) (st' : scan_state) : Prop :=
  exists m m' ml,
    cur_move st = Some m /\ cur_move st' = Some m' /\ line_values l ml /\
    line_ids m' = (line_ids m ++ [ml])%list /\
    mv_journal_id m' = mv_journal_id m /\ mv_ref m' = mv_ref m /\
    mv_date m' = mv_date m /\
    moves st' = moves st /\
    cur_ref st' = cur_ref st /\ cur_journal_id st' = cur_journal_id st /\
    cur_date st' = cur_date st /\
    cur_balance st' = (cur_balance st + amount_of l)%float.

(** The line opened a new move: the open move holds this one line, with
    the journal, the reference and the date of [l]; the move that was
    open, if any, went to the end of the sealed moves; the current key is
    that of [l]; the balance took [credit - debit]. *)
Definition opened (st : scan_state) (l : pydict) (st' : scan_state) : Prop :=
  exists m' ml,
    cur_move st' = Some m' /\ line_values l ml /\ line_ids m' = [ml] /\
    l !! "journal_id" = Some (mv_journal_id m') /\ mv_ref m' = get l "ref" /\
    l !! "date" = Some (mv_date m') /\
    moves st' = (moves st ++ match cur_move st with
                             | Some m => [m]
                             | None => []
                             end)%list /\
    cur_ref st' = get_default l "ref" (PBool false) /\
    l !! "journal_id" = Some (cur_journal_id st') /\
    l !! "date" = Some (cur_date st') /\
    cur_balance st' = (cur_balance st + amount_of l)%float.

(** The open move, if any, was sealed and the line opened a new one. *)
Definition started (st : scan_state) (l : pydict) (st' : scan_state) : Prop :=
  exists m0 ml, _prepare_move l = inr m0 /\ _prepare_move_line l = inr ml /\
                cur_move st' = Some (append_line m0 ml) /\
                moves st' = (moves st ++ match cur_move st with
                                         | Some m => [m]
                                         | None => []
                                         end)%list.

(** Everything [create_moves_from_pivot] does before its first call to
    [create]: both loops and the test of the final balance. *)
Definition assemble (pivot : list pydict) : result (list move) :=
  checked <- check_lines pivot ;;
  st <- scan scan_init checked ;;
  finish st.

(** The value a [DictReader] gives the field in column [j]: its text, or
    [None] when the row is too short. *)
Definition cell (row : list string) (j : nat) : pyval :=
  match nth_error row j with
  | Some s => PStr s
  | None => PNone
  end.

(** The last column that carries the name [k]. *)
Fixpoint last_index (names : list (option string)) (k : string) : option nat :=
  match names with
  | [] => None
  | n :: names' =>
      match last_index names' k with
      | Some j => Some (S j)
      | None => if decide (n = Some k) then Some 0%nat else None
      end
  end.

(** [v] holds [amount], or [False] in place of an amount equal to zero. *)
Definition amount_or_false (amount : float) (v : option pyval) : Prop :=
  v = Some (PFloat amount) \/
  (v = Some (PBool false) /\ py_eq (PBool false) (PFloat amount) = true).

(** The amounts of a pivot line of a Quadra row [l] whose amount is
    [amount]: on the side the sign names, the other side being [False]. *)
Definition quadra_amounts (l : string) (amount : float) (vals : pydict) : Prop :=
  (char_is 41 "C" l = true ->
     amount_or_false amount (vals !! "credit") /\ vals !! "debit" = Some (PBool false)) /\
  (char_is 41 "D" l = true ->
     amount_or_false amount (vals !! "debit") /\ vals !! "credit" = Some (PBool false)).

(** A pivot line that comes from a Quadra row of [rows]: a row of 54
    characters or more, signed [C] or [D], whose slice [l[42:55]] reads as
    the integer [n]; the line carries [n / 100.0] as [quadra_amounts]
    says. *)
Definition from_quadra_row (rows : list string) (vals : pydict) : Prop :=
  exists l n,
    In l rows /\
    54 <= str_len l /\
    py_int (slice 42 55 l) = Some n /\
    (char_is 41 "C" l = true \/ char_is 41 "D" l = true) /\
    quadra_amounts l (float_of_Z n / 100)%float vals.

(** [row] is the row of [rows] that the line [vals] was made of: the one
    whose rank, from 1, is the number the line carries. *)
Definition own_row {Row : Type} (rows : list Row) (vals : pydict) (row : Row) : Prop :=
  exists i, 1 <= i /\ vals !! "line" = Some (PInt i) /\
            nth_error rows (Z.to_nat (i - 1)) = Some row.


(** *** Sample files and lines *)

Definition sample_ml (debit credit : float) : move_line :=
  {| ml_credit := PFloat credit;
     ml_debit := PFloat debit;
     ml_name := PStr "label";
     ml_partner_id := PNone;
     ml_account_id := PInt 41;
     ml_analytic_account_id := PNone;
     ml_import_reconcile := PNone |}.

Definition sample_mv (journal_id : Z) (lines : list move_line) : move :=
  {| mv_journal_id := PInt journal_id;
     mv_ref := PNone;
     mv_date := PStr "2017-02-15";
     line_ids := lines |}.

(** Scenario 1 of the specification: one balanced entry of two lines. *)
Definition pivot_balanced : list pydict :=
  [pivot_line 1 "VT" "2017-02-15" None 100 0;
   pivot_line 2 "VT" "2017-02-15" None 0 100].

(** Scenario 2: the second line credits 99.99. *)
Definition pivot_unbalanced : list pydict :=
  [pivot_line 1 "VT" "2017-02-15" None 100 0;
   pivot_line 2 "VT" "2017-02-15" None 0 99.99].

(** Scenario 4: two balanced entries with different references. *)
Definition pivot_two_entries : list pydict :=
  [pivot_line 1 "VT" "2017-02-15" (Some "A") 100 0;
   pivot_line 2 "VT" "2017-02-15" (Some "A") 0 100;
   pivot_line 3 "VT" "2017-02-15" (Some "B") 20 0;
   pivot_line 4 "VT" "2017-02-15" (Some "B") 0 20].

(** A first entry (journal VT) that lacks 50 of credit, followed by a line
    of another journal that credits 50. *)
Definition pivot_first_unbalanced : list pydict :=
  [pivot_line 1 "VT" "2017-02-15" None 100 0;
   pivot_line 2 "VT" "2017-02-15" None 0 50;
   pivot_line 3 "BQ" "2017-02-15" None 0 50].

(** A balanced entry followed by one line without amounts. *)
Definition pivot_single_last : list pydict :=
  [pivot_line 1 "VT" "2017-02-15" None 100 0;
   pivot_line 2 "VT" "2017-02-15" None 0 100;
   pivot_line 3 "VT" "2017-02-15" None 0 0].

(** An entry 0.10 + 0.20 - 0.30, whose float sum is 5.55e-17, followed by
    a line of another journal that credits 0.30. *)
Definition pivot_residue_entry : list pydict :=
  [pivot_line 1 "VT" "2017-02-15" None 0 0.1;
   pivot_line 2 "VT" "2017-02-15" None 0 0.2;
   pivot_line 3 "VT" "2017-02-15" None 0.3 0].

Definition pivot_residue_next : pydict :=
  pivot_line 4 "BQ" "2017-02-15" None 0 0.3.

(** A validated line: [pivot_line] with the ids the first loop writes. *)
Definition checked_line (line : Z) (journal : string) (journal_id : Z)
    (debit credit : float) : pydict :=
  <["journal_id" := PInt journal_id]>
    (<["account_id" := PInt 41]> (pivot_line line journal "2017-02-15" None debit credit)).

(** The state of the scan after line 1 of [pivot_balanced]. *)
Definition state_after_debit : scan_state :=
  {| moves := [];
     cur_journal_id := PInt 1;
     cur_ref := PBool false;
     cur_date := PStr "2017-02-15";
     cur_balance := (-100)%float;
     cur_move := Some (sample_mv 1 [sample_ml 100 0]) |}.

(** Quadra: a row that is too short, then a debit of 123.45. *)
Definition quadra_short_row : string := "M41100000VT000150217 too short".

Definition quadra_debit_row : string :=
  "M41100000VT000150217 Facture 0001        D0000000012345".

Definition quadra_file : string :=
  quadra_short_row ++ String "010" quadra_debit_row.


(** Generic CSV: a row without partner nor analytic. *)
Definition genericcsv_blank_row : list string :=
  ["15/02/2017"; "VT"; "411000"; ""; ""; "label"; "100.00"; ""].

(** Created lines that carry a reconcile mark. *)
Definition acc_411 : account :=
  {| acc_id := 41; acc_code := "411000"; acc_reconcile := true;
     acc_display_name := "411000 Customers" |}.

Definition acc_707 : account :=
  {| acc_id := 70; acc_code := "707000"; acc_reconcile := false;
     acc_display_name := "707000 Sales" |}.

Definition rec_line (id : Z) (mark : string) (debit credit : float)
    (acc : account) (partner : option Z) : aml :=
  {| aml_id := id; import_reconcile := mark; credit := credit; debit := debit;
     account_id := acc; partner_id := partner |}.

(** Balanced, one reconcilable account, two partners. *)
Definition lines_two_partners : list aml :=
  [rec_line 1 "A1" 100 0 acc_411 (Some 7); rec_line 2 "A1" 0 100 acc_411 (Some 8)].

(** One reconcilable account, one partner, 0.30 short of balance. *)
Definition lines_off_by_30_cents : list aml :=
  [rec_line 1 "A1" 100 0 acc_411 (Some 7); rec_line 2 "A1" 0 99.7 acc_411 (Some 7)].

(** Scenario 5: three lines, balanced, on an account that does not allow
    reconciliation. *)
Definition lines_not_reconcilable : list aml :=
  [rec_line 1 "A1" 100 0 acc_707 (Some 7); rec_line 2 "A1" 0 60 acc_707 (Some 7);
   rec_line 3 "A1" 0 40 acc_707 (Some 7)].

(** The state of the scan after the two lines of the first entry of
    [pivot_first_unbalanced]: the entry is open and lacks 50 of credit. *)
Definition state_first_open : scan_state :=
  {| moves := [];
     cur_journal_id := PInt 1;
     cur_ref := PBool false;
     cur_date := PStr "2017-02-15";
     cur_balance := (-50)%float;
     cur_move := Some (sample_mv 1 [sample_ml 100 0; sample_ml 0 50]) |}.

(** The state of the scan after [pivot_residue_entry]. *)
Definition state_residue : scan_state :=
  {| moves := [];
     cur_journal_id := PInt 1;
     cur_ref := PBool false;
     cur_date := PStr "2017-02-15";
     cur_balance := (0.1 + 0.2 - 0.3)%float;
     cur_move := Some (sample_mv 1 [sample_ml 0 0.1; sample_ml 0 0.2; sample_ml 0.3 0]) |}.

Definition checked_residue_entry : list pydict :=
  [checked_line 1 "VT" 1 0 0.1; checked_line 2 "VT" 1 0 0.2; checked_line 3 "VT" 1 0.3 0].

(** The pivot lines of the sample rows. *)
Definition quadra_vals : pydict :=
  <["journal" := code (PStr "VT")]> (<["account" := code (PStr "41100000")]>
  (<["credit" := PBool false]> (<["debit" := PFloat 123.45]>
  (<["date" := PDatetime 2017 2 15 0 0 0]> (<["name" := PStr "Facture 0001        "]>
  (<["line" := PInt 2]> ∅)))))).


(** A pivot line that has a [datetime] for its date and no label. *)
Definition pivot_datetime_line : pydict :=
  <["journal" := code (PStr "VT")]> (<["account" := code (PStr "411000")]>
  (<["credit" := PFloat 0]> (<["debit" := PFloat (-5)]>
  (<["date" := PDatetime 2017 2 15 0 0 0]> (<["line" := PInt 1]> ∅))))).

Definition genericcsv_blank_vals : pydict :=
  <["journal" := code (PStr "VT")]> (<["account" := code (PStr "411000")]>
  (<["credit" := PFloat 0]> (<["debit" := PFloat 100]>
  (<["date" := PDatetime 2017 2 15 0 0 0]> (<["name" := PStr "label"]>
  (<["line" := PInt 1]> ∅)))))).

(** The state of the scan once a first entry is sealed and a second one,
    of journal VT, is open with a debit of 20. *)
Definition state_second_open : scan_state :=
  {| moves := [sample_mv 1 [sample_ml 100 0; sample_ml 0 100]];
     cur_journal_id := PInt 1;
     cur_ref := PBool false;
     cur_date := PStr "2017-02-15";
     cur_balance := (-20)%float;
     cur_move := Some (sample_mv 1 [sample_ml 20 0]) |}.

(** Two entries, of journals VT and BQ, as the first loop leaves them. *)
Definition checked_two_entries : list pydict :=
  [checked_line 1 "VT" 1 100 0; checked_line 2 "VT" 1 0 100;
   checked_line 3 "BQ" 2 20 0; checked_line 4 "BQ" 2 0 20].

(** One reconcilable account, one partner, 1.00 short of balance. *)
Definition lines_off_by_one : list aml :=
  [rec_line 1 "A1" 100 0 acc_411 (Some 7); rec_line 2 "A1" 0 99 acc_411 (Some 7)].

(** *** Notions for [update_pivot] *)

(** The forced value when there is one, else what the line holds. *)
Definition forced_or (forced : pyval) (held : option pyval) : option pyval :=
  if truthy forced then Some forced else held.

(** A [datetime] as the date string, anything else as it is. *)
Definition to_date_only (held : option pyval) : option pyval :=
  match held with
  | Some (PDatetime y mo d _ _ _) => Some (PStr (date_to_string y mo d))
  | _ => held
  end.

(** An amount that is true, else [0.0]. *)
Definition float_or_zero (v : pyval) : pyval := if truthy v then v else PFloat 0.

Definition isinstance_datetime (v : pyval) : bool :=
  match v with
  | PDatetime _ _ _ _ _ _ => true
  | _ => false
  end.

(** The keys that [update_pivot] may write. *)
Definition update_keys : list string :=
  ["date"; "name"; "ref"; "journal"; "credit"; "debit"].

(** No override is configured. *)
Definition no_overrides : overrides :=
  {| force_move_date := PBool false;
     force_move_ref := PBool false;
     force_move_line_name := PBool false;
     force_journal_id := None |}.

(** A value the decoders give as an amount: a float, or a false value
    ([False], [0]) in its place. *)
Definition amount_like (v : option pyval) : Prop :=
  exists a, v = Some a /\ (isinstance_float a = true \/ truthy a = false).

(** Both amounts of a line are floats. *)
Definition float_amounts (l : pydict) : Prop :=
  isinstance_float (get l "credit") = true /\ isinstance_float (get l "debit") = true.

(** [out] is what one of the seven decoders returns for some file. *)
Definition decoder_output (out : list pydict) : Prop :=
  (exists reader, extenso2pivot reader = inr out) \/
  (exists reader, cielpaye2pivot reader = inr out) \/
  (exists sep reader, fectxt2pivot sep reader = inr out) \/
  (exists reader, genericcsv2pivot reader = inr out) \/
  (exists reader, nibelis2pivot reader = inr out) \/
  (exists file_str, quadra2pivot file_str = inr out) \/
  (exists rows, payfit2pivot rows = inr out).

(** *** Notions for the first loop of [create_moves_from_pivot] *)

(** The keys that the first loop writes. *)
Definition id_keys : list string :=
  ["account_id"; "partner_id"; "analytic_account_id"; "journal_id"].

(** The number a line carries, as the error messages print it. *)
Definition line_no (l : pydict) : Z :=
  match get l "line" with
  | PInt z => z
  | PBool b => Z_of_bool b
  | _ => 0
  end.

(** What the first loop asks of a line: a line number, an account and a
    journal that match, a partner and an analytic reference that match
    when they are given, a label, a date and float amounts. *)
Definition acceptable (l : pydict) : Prop :=
  truthy (get l "line") && isinstance_int (get l "line") = true /\
  (exists acc, l !! "account" = Some acc /\ is_Some (match_account acc)) /\
  (truthy (get l "partner") = true -> is_Some (match_partner (get l "partner"))) /\
  (truthy (get l "analytic") = true ->
     is_Some (match_analytic_account (get l "analytic"))) /\
  (exists jrn, l !! "journal" = Some jrn /\ is_Some (match_journal jrn)) /\
  truthy (get l "name") = true /\
  truthy (get l "date") = true /\
  isinstance_float (get l "credit") = true /\
  isinstance_float (get l "debit") = true.

(** What the first loop found on the line when it raised [msg]. *)
Definition raised_for (l : pydict) (msg : error_msg) : Prop :=
  match msg with
  | MissingLabel _ => truthy (get l "name") = false
  | MissingDate _ => truthy (get l "date") = false
  | BadCredit _ value =>
      isinstance_float (get l "credit") = false /\ l !! "credit" = Some value
  | BadDebit _ value =>
      isinstance_float (get l "debit") = false /\ l !! "debit" = Some value
  | NoMatch _ what =>
      (what = "account" /\ match_account (get l "account") = None) \/
      (what = "partner" /\ truthy (get l "partner") = true /\
       match_partner (get l "partner") = None) \/
      (what = "analytic" /\ truthy (get l "analytic") = true /\
       match_analytic_account (get l "analytic") = None) \/
      (what = "journal" /\ match_journal (get l "journal") = None)
  | NotBalancedOnLine _ _ | NotBalancedLastLine _ | SelectSeparator => False
  end.

(** The line number that a [UserError] of the first loop cites. *)
Definition cited_line (msg : error_msg) : option Z :=
  match msg with
  | MissingLabel n | MissingDate n | BadCredit n _ | BadDebit n _ | NoMatch n _ => Some n
  | NotBalancedOnLine _ _ | NotBalancedLastLine _ | SelectSeparator => None
  end.

(** *** Notions for the line numbers of the decoders *)

(** The lines of [out] carry, in order, strictly increasing integer
    numbers between [lo] and the number of rows read. *)
Definition numbered (lo : Z) (rows : nat) (out : list pydict) : Prop :=
  exists ns : list Z,
    map (fun vals : pydict => vals !! "line") out = map (fun n => Some (PInt n)) ns /\
    StronglySorted Z.lt ns /\
    Forall (fun n => lo <= n <= Z.of_nat rows) ns.

(** *** Notions for the moves the second loop builds *)

(** The group key of [l] equals that of [l0] under Python's [==]. *)
Definition key_eq (l0 l : pydict) : bool :=
  py_eq (get_default l0 "ref" (PBool false)) (get_default l "ref" (PBool false)) &&
  py_eq (get l0 "journal_id") (get l "journal_id") &&
  py_eq (get l0 "date") (get l "date").

(** The move [m] was built from the run of lines [g]: its journal, its
    reference and its date are those of the first line of the run, its
    lines are the lines of the run, prepared, in order, and every line of
    the run has the key of the first. *)
Definition group_of (g : list pydict) (m : move) : Prop :=
  exists l0 tl,
    g = l0 :: tl /\
    mv_journal_id m = get l0 "journal_id" /\
    mv_ref m = get l0 "ref" /\
    mv_date m = get l0 "date" /\
    Forall2 (fun l ml => _prepare_move_line l = inr ml) g (line_ids m) /\
    Forall (fun l => key_eq l0 l = true) tl.

(** The open move and the sealed moves, in terms of the lines read. *)
Definition scan_inv (st : scan_state) (done : list pydict) : Prop :=
  exists groups open,
    done = (concat groups ++ open)%list /\
    Forall2 group_of groups (moves st) /\
    match cur_move st with
    | None => open = []
    | Some m =>
        group_of open m /\
        exists l0, head open = Some l0 /\
                   cur_ref st = get_default l0 "ref" (PBool false) /\
                   cur_journal_id st = get l0 "journal_id" /\
                   cur_date st = get l0 "date"
    end.

(** *** Notions for the matcher's groups *)

(** The lines that carry the mark [k], in the order of the search. *)
Definition marked (k : string) (lines : list aml) : list aml :=
  List.filter (fun l => String.eqb (import_reconcile l) k) lines.

(** [torec[k]], when [k in torec]. *)
Fixpoint assoc (k : string) (torec : list (string * list aml)) : option (list aml) :=
  match torec with
  | [] => None
  | (k', ls) :: rest => if String.eqb k' k then Some ls else assoc k rest
  end.

(** [torec] is what the grouping has built once it has read [seen]. *)
Definition torec_of (seen : list aml) (torec : list (string * list aml)) : Prop :=
  List.NoDup (map fst torec) /\
  forall k, assoc k torec = match marked k seen with
                            | [] => None
                            | ls => Some ls
                            end.

(** *** Notions for what the matcher does with a group *)

(** The rule that a logged reason stands for holds of the group, the
    rules before it having let the group through. *)
Definition justified (ls : list aml) (why : skip_reason) : Prop :=
  match why with
  | OnlyOneLine => (length ls < 2)%nat
  | NotBalanced total =>
      (2 <= length ls)%nat /\ total = group_total ls /\
      float_is_zero total (precision_digits prec) = false
  | DifferentAccounts _ =>
      (2 <= length ls)%nat /\
      float_is_zero (group_total ls) (precision_digits prec) = true /\
      (1 < length (group_accounts ls))%nat
  | NotAllowReconciliation display_name =>
      (2 <= length ls)%nat /\
      float_is_zero (group_total ls) (precision_digits prec) = true /\
      exists first, group_accounts ls = [first] /\ acc_reconcile first = false /\
                    display_name = acc_display_name first
  | DifferentPartners _ => False
  end.

(** The group passes the five rules: two lines or more, a total that is
    zero for the matcher's test, one account, which allows
    reconciliation, and one partner key. *)
Definition reconcilable (ls : list aml) : Prop :=
  (2 <= length ls)%nat /\
  float_is_zero (group_total ls) (precision_digits prec) = true /\
  (exists a, In a (map account_id ls) /\ acc_reconcile a = true /\
             forall l, In l ls -> acc_id (account_id l) = acc_id a) /\
  (exists p, forall l, In l ls -> py_eq (partner_key l) p = true).

(** The one call the matcher makes for a group. *)
Definition handled (g : string * list aml) (ev : mevent) : Prop :=
  match ev with
  | EvWarning rec_ref why => rec_ref = fst g /\ justified (snd g) why
  | EvReconcile ls => ls = snd g /\ reconcilable ls
  end.

(** *** Samples for the overrides, the pipeline and the matcher *)

(** Modelled on Odoo's [fields.Date.to_string], the [strftime] of a date
    with the format [%Y-%m-%d]. *)
Definition two_digit_text (n : Z) : string :=
  String (ascii_of_nat (48 + Z.to_nat (n / 10 mod 10)))
    (String (ascii_of_nat (48 + Z.to_nat (n mod 10))) "").

Definition ref_date_to_string (y mo d : Z) : string :=
  two_digit_text (y / 100) ++ two_digit_text y ++ "-" ++ two_digit_text mo ++ "-" ++
  two_digit_text d.

(** A wizard that forces a label, a reference and a journal, no date. *)
Definition forced_label_journal : overrides :=
  {| force_move_date := PBool false;
     force_move_ref := PStr "PAYE-02";
     force_move_line_name := PStr "Paye 02";
     force_journal_id := Some 5 |}.

(** [pivot_datetime_line] as [update_pivot] leaves it under
    [forced_label_journal]. *)
Definition pivot_forced_line : pydict :=
  <["journal" := PDict1 "recordset" (PInt 5)]> (<["ref" := PStr "PAYE-02"]>
  (<["name" := PStr "Paye 02"]> (<["date" := PStr "2017-02-15"]> pivot_datetime_line))).


(** Payfit: the header, then a row that debits 1500 on account 641100. *)
Definition payfit_rows : list (list pyval) :=
  [[PStr "Compte"; PStr "Libelle"; PStr ""; PStr "Analytique"; PStr ""; PStr "Debit";
    PStr "Credit"];
   [PStr "641100"; PStr "Salaires"; PStr ""; PStr ""; PStr ""; PFloat 1500; PStr ""]].

Definition payfit_vals : pydict :=
  <["account" := code (PStr "641100")]> (<["name" := PStr "Paye"]>
  (<["debit" := PFloat 1500]> (<["credit" := PFloat 0]> (<["line" := PInt 2]> ∅)))).

(** A pivot whose second line has no label. *)
Definition pivot_missing_label : list pydict :=
  [pivot_line 1 "VT" "2017-02-15" None 100 0;
   delete "name" (pivot_line 2 "VT" "2017-02-15" None 0 100)].

(** A balanced entry, then an entry of journal BQ that lacks 20 when
    line 4, of journal VT, is reached. *)
Definition pivot_second_unbalanced : list pydict :=
  [pivot_line 1 "VT" "2017-02-15" None 100 0;
   pivot_line 2 "VT" "2017-02-15" None 0 100;
   pivot_line 3 "BQ" "2017-02-15" None 20 0;
   pivot_line 4 "VT" "2017-02-15" None 0 20].

Definition checked_second_unbalanced : list pydict :=
  [checked_line 1 "VT" 1 100 0; checked_line 2 "VT" 1 0 100;
   checked_line 3 "BQ" 2 20 0; checked_line 4 "VT" 1 0 20].

Definition checked_balanced : list pydict :=
  [checked_line 1 "VT" 1 100 0; checked_line 2 "VT" 1 0 100].

(** Balanced, one reconcilable account, one partner. *)
Definition lines_reconcilable : list aml :=
  [rec_line 1 "A1" 100 0 acc_411 (Some 7); rec_line 2 "A1" 0 100 acc_411 (Some 7)].

(** *** Notions for the import of a decoded file *)

(** A line as every decoder gives it: numbered from 1, with an account
    and two amounts. *)
Definition decoded_line (vals : pydict) : Prop :=
  (exists i, 1 <= i /\ vals !! "line" = Some (PInt i)) /\
  is_Some (vals !! "account") /\
  amount_like (vals !! "credit") /\ amount_like (vals !! "debit").

(** The messages that the import of a decoded file can show before any
    move is created: a reference that does not match, a label or a date
    that is missing, an entry that is not balanced. *)
Definition import_message (msg : error_msg) : bool :=
  match msg with
  | MissingLabel _ | MissingDate _ | NoMatch _ _
  | NotBalancedOnLine _ _ | NotBalancedLastLine _ => true
  | BadCredit _ _ | BadDebit _ _ | SelectSeparator => false
  end.

(** FEC: the header, then one row; the 6th column is the label of the
    account, the 11th that of the entry. *)
Definition fectxt_rows : list (list string) :=
  [["JournalCode"; "JournalLib"; "EcritureNum"; "EcritureDate"; "CompteNum";
    "CompteLib"; "CompAuxNum"; "CompAuxLib"; "PieceRef"; "PieceDate"; "EcritureLib";
    "Debit"; "Credit"; "EcritureLet"; "DateLet"; "ValidDate"; "Montantdevise";
    "Idevise"];
   ["VT"; "Ventes"; "1"; "20170215"; "411000"; "Clients"; ""; ""; "FA001"; "20170215";
    "Facture 1"; "100,00"; ""; "A1"; ""; ""; ""; ""]].

Definition fectxt_vals : pydict :=
  <["journal" := code (PStr "VT")]> (<["account" := code (PStr "411000")]>
  (<["credit" := PFloat 0]> (<["debit" := PFloat 100]>
  (<["date" := PDatetime 2017 2 15 0 0 0]> (<["name" := PStr "Facture 1"]>
  (<["reconcile_ref" := PStr "A1"]> (<["line" := PInt 2]> ∅))))))).

(** [fectxt_vals] as [update_pivot] leaves it without overrides. *)
Definition fectxt_dated_vals : pydict :=
  <["date" := PStr "2017-02-15"]> fectxt_vals.

(** The state of the scan after the two lines of [pivot_balanced]: the
    entry is open and its balance is zero. *)
Definition state_entry_balanced : scan_state :=
  {| moves := [];
     cur_journal_id := PInt 1;
     cur_ref := PBool false;
     cur_date := PStr "2017-02-15";
     cur_balance := (0 + (0 - 100) + (100 - 0))%float;
     cur_move := Some (sample_mv 1 [sample_ml 100 0; sample_ml 0 100]) |}.

(** ** Properties of the entry assembler *)

Lemma bind_inr {A B : Type} (m : result A) (k : A -> result B) (b : B) :
  bind m k = inr b -> exists a, m = inr a /\ k a = inr b.
Proof. destruct m as [e|a]; simpl; [discriminate | eauto]. Qed.

Ltac inv_ok H := unfold ok, raise in H; first [discriminate H | injection H as H].

(** What a turn of the second loop that does not raise has done. *)
Lemma scan_step_inv (st : scan_state) (l : pydict) (st' : scan_state) :
  scan_step st l = inr st' ->
  exists ext a ml,
    extends_current st l = inr ext /\
    line_amount l = inr a /\
    _prepare_move_line l = inr ml /\
    cur_balance st' = (cur_balance st + a)%float /\
    if ext then
      exists m, cur_move st = Some m /\
                moves st' = moves st /\
                cur_move st' = Some (append_line m ml) /\
                cur_ref st' = cur_ref st /\
                cur_journal_id st' = cur_journal_id st /\
                cur_date st' = cur_date st
    else
      exists m0, _prepare_move l = inr m0 /\
                 cur_move st' = Some (append_line m0 ml) /\
                 moves st' = (moves st ++ match cur_move st with
                                          | Some m => [m]
                                          | None => []
                                          end)%list /\
                 (moves st = [] \/
                  float_is_zero (cur_balance st) (precision_rounding prec) = true) /\
                 (forall m, cur_move st = Some m -> (1 < length (line_ids m))%nat) /\
                 cur_ref st' = get_default l "ref" (PBool false) /\
                 getitem l "journal_id" = inr (cur_journal_id st') /\
                 getitem l "date" = inr (cur_date st').
Proof.
  intros H. unfold scan_step in H.
  apply bind_inr in H as (ext & Hext & H).
  apply bind_inr in H as (st1 & Hbr & H).
  apply bind_inr in H as (a & Ha & H).
  inv_ok H. subst st'. cbn [cur_balance moves cur_move cur_ref cur_journal_id cur_date].
  destruct ext.
  - destruct (cur_move st) as [m|] eqn:Hm; [|inv_ok Hbr].
    apply bind_inr in Hbr as (ml & Hml & Hbr). inv_ok Hbr. subst st1.
    exists true, a, ml. cbn. repeat split; auto. exists m. repeat split; auto.
  - apply bind_inr in Hbr as ([] & Hchk & Hbr).
    apply bind_inr in Hbr as (moves' & Hmv & Hbr).
    apply bind_inr in Hbr as (m0 & Hm0 & Hbr).
    apply bind_inr in Hbr as (ml & Hml & Hbr).
    apply bind_inr in Hbr as (date & Hdate & Hbr).
    apply bind_inr in Hbr as (jid & Hjid & Hbr).
    inv_ok Hbr. subst st1.
    exists false, a, ml. cbn. repeat split; auto.
    exists m0. repeat split; auto.
    + destruct (cur_move st) as [m|].
      * destruct (negb (1 <? Z.of_nat (length (line_ids m)))); inv_ok Hmv. auto.
      * inv_ok Hmv. rewrite app_nil_r. auto.
    + destruct (moves st) as [|m1 ms]; [left; reflexivity|right].
      destruct (float_is_zero (cur_balance st) (precision_rounding prec)); [reflexivity|].
      cbn in Hchk. apply bind_inr in Hchk as (? & _ & Hchk).
      apply bind_inr in Hchk as (? & _ & Hchk). inv_ok Hchk.
    + intros m Hm. rewrite Hm in Hmv.
      destruct (1 <? Z.of_nat (length (line_ids m))) eqn:Hlen; cbn in Hmv; [|inv_ok Hmv].
      apply Z.ltb_lt in Hlen. lia.
Qed.

Lemma has_key_getitem (l : pydict) (k : string) :
  has_key l k = true -> getitem l k = inr (get l k).
Proof.
  unfold has_key, getitem, get. destruct (l !! k); [reflexivity | discriminate].
Qed.

Lemma isinstance_float_getitem (l : pydict) (k : string) :
  isinstance_float (get l k) = true -> exists f, l !! k = Some (PFloat f).
Proof.
  unfold get. destruct (l !! k) as [[]|]; simpl; try discriminate. eauto.
Qed.

Lemma validated_keys (l : pydict) :
  validated l = true ->
  (exists c d, l !! "credit" = Some (PFloat c) /\ l !! "debit" = Some (PFloat d)) /\
  has_key l "name" = true /\ has_key l "date" = true /\
  has_key l "journal_id" = true /\ has_key l "account_id" = true /\
  isinstance_int (get l "line") = true.
Proof.
  unfold validated. rewrite !andb_true_iff.
  intros [[[[[[Hc Hd] Hn] Hda] Hj] Ha] Hl].
  apply isinstance_float_getitem in Hc as [c Hc].
  apply isinstance_float_getitem in Hd as [d Hd].
  repeat split; eauto.
Qed.

Lemma validated_line_amount (l : pydict) :
  validated l = true -> line_amount l = inr (amount_of l).
Proof.
  intros H. apply validated_keys in H as ((c & d & Hc & Hd) & _).
  unfold line_amount, amount_of, getitem, get. rewrite Hc, Hd. reflexivity.
Qed.

Lemma validated_prepare_move_line (l : pydict) :
  validated l = true -> exists ml, _prepare_move_line l = inr ml.
Proof.
  intros H. apply validated_keys in H as ((c & d & Hc & Hd) & Hn & _ & _ & Ha & _).
  unfold _prepare_move_line.
  rewrite (has_key_getitem _ _ Hn), (has_key_getitem _ _ Ha).
  unfold getitem. rewrite Hc, Hd. cbn. eauto.
Qed.

Lemma validated_prepare_move (l : pydict) :
  validated l = true -> exists m0, _prepare_move l = inr m0.
Proof.
  intros H. apply validated_keys in H as (_ & _ & Hd & Hj & _).
  unfold _prepare_move.
  rewrite (has_key_getitem _ _ Hd), (has_key_getitem _ _ Hj). cbn. eauto.
Qed.

(** On a validated line the test of the [if] is the conjunction the
    source writes: no operand raises. *)
Lemma extends_current_spec (st : scan_state) (l : pydict) :
  validated l = true ->
  extends_current st l =
    inr (same_key st l && negb (float_is_zero (cur_balance st) (precision_rounding prec))).
Proof.
  intros H. apply validated_keys in H as (_ & _ & Hd & Hj & _).
  unfold extends_current, same_key.
  rewrite (has_key_getitem _ _ Hd), (has_key_getitem _ _ Hj). cbn.
  destruct (py_eq (cur_ref st) _); cbn; [|reflexivity].
  destruct (py_eq (cur_journal_id st) _); cbn; [|reflexivity].
  destruct (py_eq (cur_date st) _); cbn; reflexivity.
Qed.

Lemma scan_step_amount (st : scan_state) (l : pydict) (st' : scan_state) :
  scan_step st l = inr st' ->
  cur_balance st' = (cur_balance st + amount_of l)%float.
Proof.
  intros H. apply scan_step_inv in H as (ext & a & ml & _ & Ha & _ & Hb & _).
  rewrite Hb. f_equal.
  unfold line_amount in Ha. unfold amount_of, get.
  unfold getitem in Ha. destruct (l !! "credit") as [c|]; [|inv_ok Ha].
  destruct (l !! "debit") as [d|]; [|inv_ok Ha]. cbn in *.
  destruct c; try inv_ok Ha. destruct d; inv_ok Ha. auto.
Qed.

Lemma scan_balance (pivot : list pydict) (st st' : scan_state) :
  scan st pivot = inr st' ->
  cur_balance st' = running_total (cur_balance st) pivot.
Proof.
  revert st. induction pivot as [|l pivot IH]; intros st H; cbn in H.
  - inv_ok H. subst. reflexivity.
  - apply bind_inr in H as (st1 & H1 & H).
    apply IH in H. rewrite H, (scan_step_amount _ _ _ H1). reflexivity.
Qed.

(** C2 (as amended): the running balance is never reset.  When the scan
    reaches a line, the balance it tests is the sum of [credit - debit]
    over all the lines read so far, whatever entries they went to; and
    after that line, whether it joined the open entry or started a new
    one, the balance is that sum plus the line's [credit - debit]. *)
Theorem balance_is_cumulative (pre : list pydict) (l : pydict) (st st' : scan_state) :
  scan scan_init pre = inr st ->
  scan_step st l = inr st' ->
  cur_balance st = running_total 0 pre /\
  cur_balance st' = (running_total 0 pre + amount_of l)%float.
Proof.
  intros Hpre Hstep.
  apply scan_balance in Hpre. cbn in Hpre.
  split; [exact Hpre|].
  rewrite (scan_step_amount _ _ _ Hstep), Hpre. reflexivity.
Qed.

Lemma app_singleton_neq {A : Type} (xs : list A) (x : A) : (xs ++ [x])%list <> xs.
Proof.
  intros H. apply (f_equal (@length A)) in H. rewrite length_app in H. cbn in H. lia.
Qed.

Lemma getitem_inr (l : pydict) (k : string) (v : pyval) :
  getitem l k = inr v <-> l !! k = Some v.
Proof.
  unfold getitem, ok, raise. destruct (l !! k) as [v'|]; split; intros H;
    first [discriminate H | injection H as ->; reflexivity].
Qed.

Lemma prepare_move_inv (l : pydict) (m0 : move) :
  _prepare_move l = inr m0 ->
  mv_journal_id m0 = get l "journal_id" /\ mv_ref m0 = get l "ref" /\
  mv_date m0 = get l "date" /\ line_ids m0 = [].
Proof.
  unfold _prepare_move. intros H.
  apply bind_inr in H as (j & Hj & H). apply bind_inr in H as (d & Hd & H).
  apply getitem_inr in Hj, Hd. inv_ok H. subst m0. cbn.
  unfold get. rewrite Hj, Hd. auto.
Qed.

Lemma prepare_move_line_values (l : pydict) (ml : move_line) :
  _prepare_move_line l = inr ml -> line_values l ml.
Proof.
  unfold _prepare_move_line. intros H.
  apply bind_inr in H as (c & Hc & H). apply bind_inr in H as (d & Hd & H).
  apply bind_inr in H as (n & Hn & H). apply bind_inr in H as (a & Ha & H).
  apply getitem_inr in Hc, Hd, Hn, Ha. inv_ok H. subst ml.
  unfold line_values. cbn. auto 10.
Qed.

(** A turn of the second loop that does not raise has joined the line to
    the open move or opened a new move with it, as the test of the [if]
    says. *)
Lemma scan_step_cases (st : scan_state) (l : pydict) (st' : scan_state) :
  validated l = true ->
  scan_step st l = inr st' ->
  (same_key st l && negb (float_is_zero (cur_balance st) (precision_rounding prec)) = true /\
   joined st l st') \/
  (same_key st l && negb (float_is_zero (cur_balance st) (precision_rounding prec)) = false /\
   opened st l st').
Proof.
  intros Hv Hstep.
  apply scan_step_inv in Hstep as (ext & a & ml & Hext & Ha & Hml & Hb & Hcase).
  rewrite (extends_current_spec st l Hv) in Hext. inv_ok Hext.
  rewrite (validated_line_amount l Hv) in Ha. inv_ok Ha. subst a.
  apply prepare_move_line_values in Hml.
  destruct ext.
  - left. split; [exact Hext|].
    destruct Hcase as (m & Hm & Hmoves & Hcur & Href & Hjid & Hdate).
    exists m, (append_line m ml), ml. cbn. auto 15.
  - right. split; [exact Hext|].
    destruct Hcase as (m0 & Hm0 & Hcur & Hmoves & _ & _ & Href & Hjid & Hdate).
    apply prepare_move_inv in Hm0 as (Hj & Hr & Hd & Hnil).
    apply getitem_inr in Hjid, Hdate.
    exists (append_line m0 ml), ml. cbn. rewrite Hnil, Hj, Hr, Hd. cbn.
    unfold get. rewrite Hjid, Hdate. cbn. auto 15.
Qed.

(** C4: a validated line joins the open entry exactly when its key equals
    the current key and the running balance is not zero within the
    rounding.  In that case the turn never raises: the open entry gets
    the line at its end and nothing else changes but the balance.
    Otherwise (the key differs, or the balance is zero, even if the key
    matches) the turn, unless it raises for an entry that is not balanced
    or has a single line, seals the open entry and opens a new one that
    holds the line alone, under the line's key. *)
Theorem line_appended_iff_same_key_and_open (st : scan_state) (l : pydict) :
  validated l = true ->
  (forall m, cur_move st = Some m ->
     same_key st l = true ->
     float_is_zero (cur_balance st) (precision_rounding prec) = false ->
     exists st', scan_step st l = inr st' /\ joined st l st') /\
  (same_key st l = false \/
   float_is_zero (cur_balance st) (precision_rounding prec) = true ->
   moves st = [] \/ float_is_zero (cur_balance st) (precision_rounding prec) = true ->
   (forall m, cur_move st = Some m -> (1 < length (line_ids m))%nat) ->
   exists st', scan_step st l = inr st' /\ opened st l st') /\
  (forall st', scan_step st l = inr st' ->
     (joined st l st' <->
        same_key st l = true /\
        float_is_zero (cur_balance st) (precision_rounding prec) = false) /\
     (same_key st l = false \/
      float_is_zero (cur_balance st) (precision_rounding prec) = true ->
        opened st l st')).
Proof.
  intros Hv.
  destruct (validated_prepare_move_line l Hv) as [ml Hml].
  destruct (validated_prepare_move l Hv) as [m0 Hm0].
  pose proof (validated_line_amount l Hv) as Ham.
  pose proof (validated_keys l Hv) as (_ & _ & Hkd & Hkj & _).
  apply has_key_getitem in Hkd, Hkj.
  split; [|split].
  - intros m Hm Hk Hz.
    assert (Hrun : exists st', scan_step st l = inr st').
    { unfold scan_step. rewrite (extends_current_spec st l Hv), Hk, Hz. cbn.
      rewrite Hm, Hml. cbn. rewrite Ham. cbn. eauto. }
    destruct Hrun as [st' Hstep]. exists st'. split; [exact Hstep|].
    destruct (scan_step_cases st l st' Hv Hstep) as [[_ Hj]|[Hno _]]; [exact Hj|].
    rewrite Hk, Hz in Hno. discriminate Hno.
  - intros Hno Hbal Hlen.
    assert (Hf : same_key st l &&
                 negb (float_is_zero (cur_balance st) (precision_rounding prec)) = false).
    { destruct Hno as [Hk|Hz]; [rewrite Hk; reflexivity|].
      rewrite Hz. apply andb_false_r. }
    assert (Hrun : exists st', scan_step st l = inr st').
    { unfold scan_step. rewrite (extends_current_spec st l Hv), Hf. cbn [bind].
      rewrite Hml, Hm0, Ham, Hkd, Hkj.
      assert (Hchk : match moves st with
                     | [] => ok tt
                     | _ :: _ =>
                         if negb (float_is_zero (cur_balance st) (precision_rounding prec))
                         then ln <- getitem l "line" ;;
                              n <- int_value ln ;;
                              raise (UserError (NotBalancedOnLine (n - 1) (cur_balance st)))
                         else ok tt
                     end = inr tt).
      { destruct (moves st) as [|m1 ms]; [reflexivity|].
        destruct Hbal as [Hnil|Hz]; [discriminate Hnil|]. rewrite Hz. reflexivity. }
      rewrite Hchk. cbn [bind].
      destruct (cur_move st) as [m|] eqn:Hm; [|cbn; eauto].
      specialize (Hlen m eq_refl).
      assert (Hl : (1 <? Z.of_nat (length (line_ids m))) = true) by (apply Z.ltb_lt; lia).
      rewrite Hl. cbn. eauto. }
    destruct Hrun as [st' Hstep]. exists st'. split; [exact Hstep|].
    destruct (scan_step_cases st l st' Hv Hstep) as [[Hyes _]|[_ Ho]]; [|exact Ho].
    rewrite Hf in Hyes. discriminate Hyes.
  - intros st' Hstep.
    destruct (scan_step_cases st l st' Hv Hstep) as [[Hyes Hj]|[Hno Ho]].
    + apply andb_true_iff in Hyes as [Hk Hz]. apply negb_true_iff in Hz.
      split; [split; [intros _; split; assumption | intros _; exact Hj]|].
      intros [Hk'|Hz']; congruence.
    + split; [|intros _; exact Ho]. split.
      * intros (m & m' & ml' & Hm & _ & _ & _ & _ & _ & _ & Hmoves & _).
        destruct Ho as (m2 & ml2 & _ & _ & _ & _ & _ & _ & Hmoves' & _).
        rewrite Hm, Hmoves in Hmoves'. symmetry in Hmoves'.
        destruct (app_singleton_neq _ _ Hmoves').
      * intros [Hk Hz]. rewrite Hk, Hz in Hno. discriminate Hno.
Qed.

(** X3: the first loop leaves validated lines. *)
Lemma check_line_validated (l l' : pydict) :
  check_line l = inr l' -> validated l' = true.
Proof.
  unfold check_line.
  destruct (negb (truthy (get l "line") && isinstance_int (get l "line"))) eqn:Hline;
    [intros H; inv_ok H|].
  apply negb_false_iff, andb_true_iff in Hline as [_ Hint].
  intros H.
  apply bind_inr in H as (line & _ & H).
  apply bind_inr in H as (acc & _ & H).
  apply bind_inr in H as (account_id & _ & H).
  apply bind_inr in H as (l1 & Hl1 & H).
  apply bind_inr in H as (l2 & Hl2 & H).
  apply bind_inr in H as (jrn & _ & H).
  apply bind_inr in H as (journal_id & _ & H).
  destruct (negb (truthy (get (<["journal_id":=journal_id]> l2) "name"))) eqn:Hn;
    [inv_ok H|].
  destruct (negb (truthy (get (<["journal_id":=journal_id]> l2) "date"))) eqn:Hd;
    [inv_ok H|].
  destruct (negb (isinstance_float (get (<["journal_id":=journal_id]> l2) "credit"))) eqn:Hc.
  { apply bind_inr in H as (? & _ & H). inv_ok H. }
  destruct (negb (isinstance_float (get (<["journal_id":=journal_id]> l2) "debit"))) eqn:Hdb.
  { apply bind_inr in H as (? & _ & H). inv_ok H. }
  inv_ok H. subst l'.
  apply negb_false_iff in Hn, Hd, Hc, Hdb.
  assert (Hkey : forall (d : pydict) k, truthy (get d k) = true -> has_key d k = true).
  { intros d k. unfold get, has_key. destruct (d !! k); [reflexivity | discriminate]. }
  assert (Hacc : l1 !! "account_id" = Some account_id).
  { destruct (truthy (get (<["account_id":=account_id]> l) "partner")).
    - apply bind_inr in Hl1 as (? & _ & Hl1). inv_ok Hl1. subst l1.
      rewrite lookup_insert_ne by discriminate. apply lookup_insert_eq.
    - inv_ok Hl1. subst l1. apply lookup_insert_eq. }
  assert (Hacc2 : l2 !! "account_id" = Some account_id).
  { destruct (truthy (get l1 "analytic")).
    - apply bind_inr in Hl2 as (? & _ & Hl2). inv_ok Hl2. subst l2.
      rewrite lookup_insert_ne by discriminate. exact Hacc.
    - inv_ok Hl2. subst l2. exact Hacc. }
  assert (Hln1 : l1 !! "line" = l !! "line").
  { destruct (truthy (get (<["account_id":=account_id]> l) "partner")).
    - apply bind_inr in Hl1 as (? & _ & Hl1). inv_ok Hl1. subst l1.
      rewrite !lookup_insert_ne by discriminate. reflexivity.
    - inv_ok Hl1. subst l1. rewrite lookup_insert_ne by discriminate. reflexivity. }
  assert (Hln2 : l2 !! "line" = l !! "line").
  { destruct (truthy (get l1 "analytic")).
    - apply bind_inr in Hl2 as (? & _ & Hl2). inv_ok Hl2. subst l2.
      rewrite lookup_insert_ne by discriminate. exact Hln1.
    - inv_ok Hl2. subst l2. exact Hln1. }
  unfold validated. rewrite Hc, Hdb, (Hkey _ _ Hn), (Hkey _ _ Hd). cbn.
  unfold has_key, get.
  rewrite lookup_insert_eq.
  rewrite !lookup_insert_ne by discriminate. rewrite Hacc2, Hln2. cbn.
  exact Hint.
Qed.

Lemma check_lines_Forall2 (pivot checked : list pydict) :
  check_lines pivot = inr checked ->
  Forall2 (fun l l' => check_line l = inr l') pivot checked.
Proof.
  revert checked. induction pivot as [|l pivot IH]; intros checked H; cbn in H.
  - inv_ok H. subst. constructor.
  - apply bind_inr in H as (l' & Hl & H).
    apply bind_inr in H as (rest & Hrest & H). inv_ok H. subst.
    constructor; auto.
Qed.

Lemma tbind_lift {A B : Type} (r : result A) (k : A -> traced B) :
  tbind (lift r) k = match r with
                     | inl e => ([], inl e)
                     | inr a => k a
                     end.
Proof. destruct r as [e|a]; cbn; [reflexivity|]. destruct (k a); reflexivity. Qed.

(** C9: no call to [create] (or [post]) is made unless the whole pivot
    went through the first loop, the second loop and the test of the final
    balance without an exception.  When any of these raises, the function
    raises the same exception and has called nothing. *)
Theorem no_creation_unless_assembled (pivot : list pydict) (post : bool) :
  (forall e, assemble pivot = inl e ->
             create_moves_from_pivot pivot post = ([], inl e)) /\
  (forall tr r, create_moves_from_pivot pivot post = (tr, r) ->
     tr <> [] ->
     exists checked st ms,
       Forall2 (fun l l' => check_line l = inr l') pivot checked /\
       scan scan_init checked = inr st /\
       float_is_zero (cur_balance st) (precision_rounding prec) = true /\
       finish st = inr ms /\
       assemble pivot = inr ms).
Proof.
  unfold create_moves_from_pivot, assemble. split.
  - intros e H. rewrite tbind_lift.
    destruct (check_lines pivot) as [e1|checked]; cbn in H; [congruence|].
    rewrite tbind_lift.
    destruct (scan scan_init checked) as [e2|st]; cbn in H; [congruence|].
    rewrite tbind_lift. rewrite H. reflexivity.
  - intros tr r H Htr. rewrite tbind_lift in H.
    destruct (check_lines pivot) as [e1|checked] eqn:Hc; [congruence|].
    rewrite tbind_lift in H.
    destruct (scan scan_init checked) as [e2|st] eqn:Hs; [congruence|].
    rewrite tbind_lift in H.
    destruct (finish st) as [e3|ms] eqn:Hf; [congruence|].
    exists checked, st, ms. cbn. rewrite Hs. cbn.
    repeat split; auto using check_lines_Forall2.
    unfold finish in Hf.
    destruct (float_is_zero (cur_balance st) (precision_rounding prec));
      [reflexivity | inv_ok Hf].
Qed.

(** X1: once a move has been sealed, an open move whose balance is not zero
    is rejected at the next line that does not extend it, with the number
    of the line before. *)
Lemma unbalanced_entry_rejected_once_moves (st : scan_state) (l : pydict) :
  validated l = true ->
  moves st <> [] ->
  float_is_zero (cur_balance st) (precision_rounding prec) = false ->
  same_key st l = false ->
  exists n, int_value (get l "line") = inr n /\
            scan_step st l = inl (UserError (NotBalancedOnLine (n - 1) (cur_balance st))).
Proof.
  intros Hv Hm Hz Hk.
  pose proof (validated_keys l Hv) as (_ & _ & _ & _ & _ & Hl).
  unfold scan_step. rewrite (extends_current_spec st l Hv), Hk, Hz. cbn.
  destruct (moves st) as [|m ms]; [congruence|].
  unfold getitem, get in *. destruct (l !! "line") as [v|]; [|discriminate].
  cbn in *. destruct v; try discriminate; cbn; eauto.
Qed.

(** X2: every move sealed inside the second loop has more than one line. *)
Lemma sealed_in_loop_have_two_lines (pivot : list pydict) (st st' : scan_state) :
  Forall (fun m => (2 <= length (line_ids m))%nat) (moves st) ->
  scan st pivot = inr st' ->
  Forall (fun m => (2 <= length (line_ids m))%nat) (moves st').
Proof.
  revert st. induction pivot as [|l pivot IH]; intros st Hinv H; cbn in H.
  - inv_ok H. subst. exact Hinv.
  - apply bind_inr in H as (st1 & H1 & H). apply (IH st1); [|exact H].
    apply scan_step_inv in H1 as (ext & a & ml & _ & _ & _ & _ & Hcase).
    destruct ext.
    + destruct Hcase as (m & _ & -> & _). exact Hinv.
    + destruct Hcase as (m0 & _ & _ & -> & _ & Hlen & _).
      apply Forall_app. split; [exact Hinv|].
      destruct (cur_move st) as [m|]; constructor; [|constructor].
      specialize (Hlen m eq_refl). lia.
Qed.

(** ** Properties of the decoders *)

(** Every line a decoder returns was appended by the body of its loop on
    some row of the input. *)
Lemma for_rows_emitted {Row : Type} (body : Z -> Row -> result (option pydict))
    (P : pydict -> Prop) (rows : list Row) :
  (forall i l vals, In l rows -> body i l = inr (Some vals) -> P vals) ->
  forall i res out,
    Forall P res -> for_rows body i rows res = inr out -> Forall P out.
Proof.
  induction rows as [|l rows IH]; intros Hbody i res out Hres H; cbn in H.
  - inv_ok H. subst. exact Hres.
  - destruct (body (i + 1) l) as [e|[vals|]] eqn:Hb; [inv_ok H| |].
    + apply (IH (fun i l v Hin => Hbody i l v (or_intror Hin)) _ _ _) in H; [exact H|].
      apply Forall_app. split; [exact Hres|].
      constructor; [|constructor]. apply (Hbody (i + 1) l); [left; reflexivity | exact Hb].
    + apply (IH (fun i l v Hin => Hbody i l v (or_intror Hin)) _ _ _) in H; [exact H|].
      exact Hres.
Qed.

(** [quoting=False] is no [int] for the [csv] module: the In Extenso and
    the Nibelis decoders raise when they build their reader, on every
    file. *)
Lemma extenso2pivot_raises (reader : list (list string)) :
  extenso2pivot reader = inl TypeError.
Proof. reflexivity. Qed.

Lemma nibelis2pivot_raises (reader : list (list string)) :
  nibelis2pivot reader = inl TypeError.
Proof. reflexivity. Qed.

(** As [for_rows_emitted], with the place of the row: the loop started
    at [i] reads the row of rank [j - i] under the number [j]. *)
Lemma for_rows_own {Row : Type} (body : Z -> Row -> result (option pydict))
    (P : pydict -> Prop) (rows : list Row) :
  forall i res out,
    (forall j l vals,
       i < j -> nth_error rows (Z.to_nat (j - i - 1)) = Some l ->
       body j l = inr (Some vals) -> P vals) ->
    Forall P res -> for_rows body i rows res = inr out -> Forall P out.
Proof.
  induction rows as [|l rows IH]; intros i res out Hbody Hres H; cbn in H.
  - inv_ok H. subst. exact Hres.
  - assert (Hnext : forall j l0 vals,
              i + 1 < j -> nth_error rows (Z.to_nat (j - (i + 1) - 1)) = Some l0 ->
              body j l0 = inr (Some vals) -> P vals).
    { intros j l0 vals Hj Hnth. apply Hbody; [lia|].
      replace (Z.to_nat (j - i - 1)) with (S (Z.to_nat (j - (i + 1) - 1))) by lia.
      exact Hnth. }
    destruct (body (i + 1) l) as [e|[vals|]] eqn:Hb; [inv_ok H| |].
    + apply (IH (i + 1) (res ++ [vals])%list out Hnext); [|exact H].
      apply Forall_app. split; [exact Hres|].
      constructor; [|constructor]. apply (Hbody (i + 1) l); [lia| |exact Hb].
      replace (i + 1 - i - 1) with 0 by lia. reflexivity.
    + apply (IH (i + 1) res out Hnext Hres H).
Qed.

(** From the first row on: the line numbered [j] is made of the row of
    rank [j]. *)
Lemma for_rows_own_from_start {Row : Type} (body : Z -> Row -> result (option pydict))
    (P : pydict -> Prop) (rows : list Row) (out : list pydict) :
  (forall j l vals,
     1 <= j -> nth_error rows (Z.to_nat (j - 1)) = Some l ->
     body j l = inr (Some vals) -> P vals) ->
  for_rows body 0 rows [] = inr out -> Forall P out.
Proof.
  intros Hbody H. eapply (for_rows_own body P rows 0 []); [|constructor|exact H].
  intros j l vals Hj Hnth. apply Hbody; [lia|].
  replace (j - 1) with (j - 0 - 1) by lia. exact Hnth.
Qed.

Lemma cell_nil (j : nat) : cell [] j = PNone.
Proof. unfold cell. destruct j; reflexivity. Qed.

(** What a [DictReader] row holds under a name. *)
Lemma dictreader_lookup (names : list (option string)) (row : list string)
    (d : pydict) (k : string) :
  dictreader names row d !! k =
    match last_index names k with
    | Some j => Some (cell row j)
    | None => d !! k
    end.
Proof.
  revert row d. induction names as [|n names IH]; intros row d; cbn; [reflexivity|].
  destruct row as [|v row]; rewrite IH; destruct (last_index names k) as [j|].
  - rewrite !cell_nil. reflexivity.
  - destruct (decide (n = Some k)) as [->|Hne].
    + rewrite lookup_insert_eq. reflexivity.
    + destruct n as [k'|]; [|reflexivity].
      apply lookup_insert_ne. congruence.
  - reflexivity.
  - destruct (decide (n = Some k)) as [->|Hne].
    + rewrite lookup_insert_eq. reflexivity.
    + destruct n as [k'|]; [|reflexivity].
      apply lookup_insert_ne. congruence.
Qed.

Lemma char_is_C_not_D (l : string) : char_is 41 "C" l = true -> char_is 41 "D" l = false.
Proof.
  unfold char_is. destruct (char_at 41 l) as [c|]; [|discriminate].
  intros H. apply Ascii.eqb_eq in H. subst c. reflexivity.
Qed.

Lemma char_is_D_not_C (l : string) : char_is 41 "D" l = true -> char_is 41 "C" l = false.
Proof.
  unfold char_is. destruct (char_at 41 l) as [c|]; [|discriminate].
  intros H. apply Ascii.eqb_eq in H. subst c. reflexivity.
Qed.

Lemma and_or_amount (amount : float) :
  amount_or_false amount (Some (and_or true (PFloat amount) (PBool false))).
Proof.
  unfold amount_or_false, and_or. cbn.
  destruct (PrimFloat.eqb amount 0) eqn:H; cbn; [right | left; reflexivity].
  split; [reflexivity | exact H].
Qed.

(** A lookup in a dict literal: past the entries of other keys, down to
    the entry of the key. *)
Ltac lookup_chain :=
  repeat (rewrite lookup_insert_ne by discriminate);
  first [rewrite lookup_insert_eq | rewrite lookup_empty].

(** What the body of the Quadra loop appends. *)
Lemma quadra_row_inv (i : Z) (l : string) (vals : pydict) :
  quadra_row i l = inr (Some vals) ->
  exists n,
    54 <= str_len l /\
    py_int (slice 42 55 l) = Some n /\
    (char_is 41 "C" l = true \/ char_is 41 "D" l = true) /\
    quadra_amounts l (float_of_Z n / 100)%float vals /\
    vals !! "line" = Some (PInt i) /\
    vals !! "analytic" = None /\ vals !! "partner" = None.
Proof.
  unfold quadra_row. intros H.
  destruct (str_len l <? 54) eqn:Hlen; [inv_ok H|].
  apply Z.ltb_ge in Hlen.
  destruct (char_is 0 "M" l && (char_is 41 "C" l || char_is 41 "D" l)) eqn:Hm;
    [|inv_ok H].
  apply andb_true_iff in Hm as [_ Hs]. apply orb_true_iff in Hs.
  apply bind_inr in H as (n & Hn & H).
  destruct (py_int (slice 42 55 l)) as [n'|]; [|inv_ok Hn]. inv_ok Hn. subst n'.
  apply bind_inr in H as (date & _ & H). inv_ok H. subst vals.
  exists n.
  split; [exact Hlen|]. split; [reflexivity|]. split; [exact Hs|]. split; [split|split; [|split]].
  - intros HC. rewrite HC, (char_is_C_not_D l HC).
    split; lookup_chain; [apply and_or_amount | reflexivity].
  - intros HD. rewrite HD, (char_is_D_not_C l HD).
    split; lookup_chain; [apply and_or_amount | reflexivity].
  - lookup_chain. reflexivity.
  - lookup_chain. reflexivity.
  - lookup_chain. reflexivity.
Qed.

(** C7: in the Quadra decoder a row of fewer than 54 characters is passed
    over: the loop goes on to the next row, having emitted nothing and
    raised nothing.  Every emitted line comes from a row of at least 54
    characters with sign [C] or [D], and carries the integer read at
    [l[42:55]] divided by 100 as its credit when the sign is [C] and as its
    debit when it is [D] ([False], which equals [0.0], when the amount is
    zero), the other side being [False]. *)
Theorem quadra_short_rows_skipped_amounts_in_cents :
  (forall i l rest res,
     str_len l < 54 ->
     quadra_row (i + 1) l = inr None /\
     for_rows quadra_row i (l :: rest) res = for_rows quadra_row (i + 1) rest res) /\
  (forall file_str out,
     quadra2pivot file_str = inr out ->
     Forall (from_quadra_row (split_newline file_str)) out).
Proof.
  split.
  - intros i l rest res Hlen.
    assert (Hrow : quadra_row (i + 1) l = inr None).
    { unfold quadra_row. apply Z.ltb_lt in Hlen. rewrite Hlen. reflexivity. }
    split; [exact Hrow|]. cbn. rewrite Hrow. reflexivity.
  - intros file_str out H. unfold quadra2pivot in H.
    eapply for_rows_emitted; [|constructor|exact H].
    intros i l vals Hin Hrow.
    apply quadra_row_inv in Hrow as (n & Hlen & Hn & Hs & Ham & _).
    exists l, n. auto.
Qed.

Lemma getitem_insert_eq (d : pydict) (k : string) (v : pyval) :
  getitem (<[k:=v]> d) k = inr v.
Proof. unfold getitem. rewrite lookup_insert_eq. reflexivity. Qed.

Lemma getitem_insert_ne (d : pydict) (k k' : string) (v : pyval) :
  k <> k' -> getitem (<[k:=v]> d) k' = getitem d k'.
Proof. intros H. unfold getitem. rewrite lookup_insert_ne by exact H. reflexivity. Qed.

Lemma getitem_dictreader (names : list (option string)) (row : list string)
    (k : string) (j : nat) :
  last_index names k = Some j ->
  getitem (dictreader names row ∅) k = inr (cell row j).
Proof. intros H. unfold getitem. rewrite dictreader_lookup, H. reflexivity. Qed.

Lemma get_dictreader (names : list (option string)) (row : list string)
    (k : string) (j : nat) :
  last_index names k = Some j ->
  get (dictreader names row ∅) k = cell row j.
Proof. intros H. unfold get. rewrite dictreader_lookup, H. reflexivity. Qed.

(** Reads the items of a row dict in a hypothesis. *)
Ltac read_items H :=
  repeat (first
    [ rewrite getitem_insert_eq in H
    | rewrite getitem_insert_ne in H by discriminate
    | erewrite getitem_dictreader in H by reflexivity
    | erewrite get_dictreader in H by reflexivity ];
    cbn [bind] in H).

Lemma get_lookup (d : pydict) (k : string) (v : pyval) :
  d !! k = Some v -> get d k = v.
Proof. unfold get. intros ->. reflexivity. Qed.

Lemma fectxt_row_inv (i : Z) (row : list string) (vals : pydict) :
  fectxt_row i row = inr (Some vals) ->
  exists credit debit,
    float_of_comma (py_or (cell row 12) (PStr "0")) = inr credit /\
    float_of_comma (py_or (cell row 11) (PStr "0")) = inr debit /\
    vals !! "credit" = Some (PFloat credit) /\
    vals !! "debit" = Some (PFloat debit) /\
    vals !! "analytic" = None /\ vals !! "partner" = None.
Proof.
  unfold fectxt_row. intros H. destruct (i =? 1); [inv_ok H|]. read_items H.
  apply bind_inr in H as (credit & Hc & H). read_items H.
  apply bind_inr in H as (debit & Hd & H). read_items H.
  apply bind_inr in H as (date & _ & H). inv_ok H. subst vals.
  exists credit, debit. repeat split; auto; lookup_chain; reflexivity.
Qed.

Lemma cielpaye_row_inv (i : Z) (row : list string) (vals : pydict) :
  cielpaye_row i row = inr (Some vals) ->
  exists amount,
    float_of_comma (cell row 5) = inr amount /\
    vals !! "credit" = Some (and_or (py_eq (cell row 6) (PStr "C")) (PFloat amount) (PInt 0)) /\
    vals !! "debit" = Some (and_or (py_eq (cell row 6) (PStr "D")) (PFloat amount) (PInt 0)) /\
    vals !! "analytic" = None /\ vals !! "partner" = None.
Proof.
  unfold cielpaye_row. intros H.
  destruct (_ && _); [|inv_ok H]. read_items H.
  apply bind_inr in H as (amount & Ha & H). read_items H.
  apply bind_inr in H as (date & _ & H). read_items H. inv_ok H. subst vals.
  exists amount. repeat split; auto; lookup_chain; reflexivity.
Qed.

Lemma genericcsv_row_inv (i : Z) (row : list string) (vals : pydict) :
  genericcsv_row i row = inr (Some vals) ->
  exists credit debit,
    float_of (py_or (cell row 7) (PInt 0)) = inr credit /\
    float_of (py_or (cell row 6) (PInt 0)) = inr debit /\
    vals !! "credit" = Some (PFloat credit) /\
    vals !! "debit" = Some (PFloat debit) /\
    vals !! "analytic" = (if truthy (cell row 4) then Some (code (cell row 4)) else None) /\
    vals !! "partner" = (if truthy (cell row 3) then Some (PDict1 "ref" (cell row 3)) else None).
Proof.
  unfold genericcsv_row. intros H. read_items H.
  apply bind_inr in H as (credit & Hc & H). read_items H.
  apply bind_inr in H as (debit & Hd & H). read_items H.
  apply bind_inr in H as (date & _ & H). read_items H. inv_ok H. subst vals.
  exists credit, debit.
  split; [exact Hc|]. split; [exact Hd|].
  destruct (truthy (cell row 4)); destruct (truthy (cell row 3));
    repeat split; lookup_chain; reflexivity.
Qed.

Lemma payfit_row_inv (i : Z) (row : list pyval) (vals : pydict) :
  payfit_row i row = inr (Some vals) ->
  exists r3 r5 r6 credit debit,
    nth_error row 3 = Some r3 /\ nth_error row 5 = Some r5 /\ nth_error row 6 = Some r6 /\
    float_of (py_or r5 (PFloat 0)) = inr debit /\
    float_of (py_or r6 (PFloat 0)) = inr credit /\
    vals !! "credit" = Some (PFloat credit) /\
    vals !! "debit" = Some (PFloat debit) /\
    vals !! "analytic" =
      (if truthy (PStr (py_str r3)) then Some (code (PStr (py_str r3))) else None) /\
    vals !! "partner" = None.
Proof.
  unfold payfit_row, index. intros H. destruct (i =? 1); [inv_ok H|].
  apply bind_inr in H as (r0 & _ & H).
  destruct (negb (truthy r0)); [inv_ok H|].
  destruct (char_at 0 _) as [c0|]; [|inv_ok H].
  destruct (negb (isdigit c0)); [inv_ok H|].
  apply bind_inr in H as (r3 & H3 & H).
  apply bind_inr in H as (r5 & H5 & H).
  apply bind_inr in H as (debit & Hd & H).
  apply bind_inr in H as (r6 & H6 & H).
  apply bind_inr in H as (credit & Hc & H).
  inv_ok H. subst vals.
  destruct (nth_error row 3) as [r3'|]; inv_ok H3. subst r3'.
  destruct (nth_error row 5) as [r5'|]; inv_ok H5. subst r5'.
  destruct (nth_error row 6) as [r6'|]; inv_ok H6. subst r6'.
  exists r3, r5, r6, credit, debit.
  do 3 (split; [reflexivity|]). split; [exact Hd|]. split; [exact Hc|].
  cbn [truthy].
  destruct (negb (String.eqb (py_str r3) "")); repeat split; lookup_chain; reflexivity.
Qed.

(** ** Properties of the reconciliation matcher *)

Lemma partner_key_not_str (line : aml) (s : string) : partner_key line <> PStr s.
Proof.
  unfold partner_key, py_or. destruct (partner_id line) as [id|]; [|discriminate].
  destruct (truthy (PInt id)); discriminate.
Qed.

Lemma group_partners_not_str (lines_to_rec : list aml) :
  Forall (fun p => forall s, p <> PStr s) (group_partners lines_to_rec).
Proof.
  unfold group_partners.
  assert (H : forall acc,
            Forall (fun p => forall s, p <> PStr s) acc ->
            Forall (fun p => forall s, p <> PStr s)
              (fold_left (fun partners line => add_partner partners (partner_key line))
                         lines_to_rec acc)).
  { induction lines_to_rec as [|line rest IH]; intros acc Hacc; cbn; [exact Hacc|].
    apply IH. unfold add_partner.
    destruct (existsb _ acc); [exact Hacc|].
    apply Forall_app. split; [exact Hacc|].
    constructor; [|constructor]. apply partner_key_not_str. }
  apply H. constructor.
Qed.

Lemma py_join_not_str (sep : string) (items : list pyval) :
  items <> [] ->
  Forall (fun p => forall s, p <> PStr s) items ->
  py_join sep items = inl TypeError.
Proof.
  destruct items as [|v rest]; [congruence|]. intros _ H.
  apply Forall_cons in H as [Hv _]. cbn.
  destruct v; try reflexivity. destruct (Hv s eq_refl).
Qed.

(** X4: the balance rule of the matcher is [float_is_zero] with [prec] passed
    as [precision_digits]: a group of two lines or more for which it
    answers false is skipped as not balanced, whatever
    [precision_rounding] would answer. *)
Lemma matcher_balance_rule_uses_precision_digits (rec_ref : string)
    (lines_to_rec : list aml) :
  (2 <= length lines_to_rec)%nat ->
  float_is_zero (group_total lines_to_rec) (precision_digits prec) = false ->
  reconcile_group rec_ref lines_to_rec =
    ([EvWarning rec_ref (NotBalanced (group_total lines_to_rec))], inr tt).
Proof.
  intros Hlen Hz. unfold reconcile_group.
  destruct (Z.of_nat (length lines_to_rec) <? 2) eqn:Hl; [apply Z.ltb_lt in Hl; lia|].
  rewrite Hz. reflexivity.
Qed.

(** X5: a group that passes the first four rules and whose lines have
    different partners is not skipped with a warning: evaluating the
    warning's arguments raises [TypeError], for the partner keys are ids
    and [False], never strings. *)
Lemma different_partners_raise (rec_ref : string) (lines_to_rec : list aml)
    (first : account) :
  (2 <= length lines_to_rec)%nat ->
  float_is_zero (group_total lines_to_rec) (precision_digits prec) = true ->
  group_accounts lines_to_rec = [first] ->
  acc_reconcile first = true ->
  (1 < length (group_partners lines_to_rec))%nat ->
  reconcile_group rec_ref lines_to_rec = ([], inl TypeError).
Proof.
  intros Hlen Hz Hacc Hrec Hp. unfold reconcile_group.
  destruct (Z.of_nat (length lines_to_rec) <? 2) eqn:Hl; [apply Z.ltb_lt in Hl; lia|].
  rewrite Hz, Hacc, Hrec. cbn.
  destruct (1 <? Z.of_nat (length (group_partners lines_to_rec))) eqn:Hl2;
    [|apply Z.ltb_ge in Hl2; lia].
  rewrite py_join_not_str; [reflexivity | | apply group_partners_not_str].
  intros Hnil. rewrite Hnil in Hp. cbn in Hp. lia.
Qed.

(** ** Properties of [update_pivot] *)

(** Evaluates the comparisons of two literal keys. *)
Ltac eval_key_tests :=
  repeat match goal with
         | |- context [String.eqb ?a ?b] =>
             let r := eval vm_compute in (String.eqb a b) in
             lazymatch r with
             | true => change (String.eqb a b) with true
             | false => change (String.eqb a b) with false
             end
         end.

Lemma lookup_set_if (b : bool) (k k' : string) (v : pyval) (l : pydict) :
  set_if b k v l !! k' = if b && String.eqb k k' then Some v else l !! k'.
Proof.
  unfold set_if. destruct b; cbn; [|reflexivity].
  destruct (String.eqb k k') eqn:E.
  - apply String.eqb_eq in E. subst. apply lookup_insert_eq.
  - apply String.eqb_neq in E. apply lookup_insert_ne. exact E.
Qed.

Lemma lookup_date_only (l : pydict) (k' : string) :
  date_only l !! k' =
    if String.eqb "date" k' then to_date_only (l !! "date") else l !! k'.
Proof.
  unfold date_only, get, to_date_only.
  destruct (String.eqb "date" k') eqn:E.
  - apply String.eqb_eq in E. subst k'.
    destruct (l !! "date") as [v|] eqn:Hd; [|exact Hd].
    destruct v; cbn; try exact Hd. apply lookup_insert_eq.
  - apply String.eqb_neq in E.
    destruct (l !! "date") as [v|]; [|reflexivity].
    destruct v; cbn; try reflexivity.
    apply lookup_insert_ne. exact E.
Qed.

Lemma lookup_force_journal (fj : option Z) (l : pydict) (k' : string) :
  match fj with
  | Some journal => <["journal" := PDict1 "recordset" (PInt journal)]> l
  | None => l
  end !! k' =
    match fj with
    | Some journal =>
        if String.eqb "journal" k' then Some (PDict1 "recordset" (PInt journal))
        else l !! k'
    | None => l !! k'
    end.
Proof.
  destruct fj as [j|]; [|reflexivity].
  destruct (String.eqb "journal" k') eqn:E.
  - apply String.eqb_eq in E. subst. apply lookup_insert_eq.
  - apply String.eqb_neq in E. apply lookup_insert_ne. exact E.
Qed.

Ltac push_lookups :=
  repeat (progress rewrite ?lookup_set_if, ?lookup_date_only, ?lookup_force_journal).

(** What a line holds under each key once [update_pivot] has passed over
    it. *)
Lemma update_line_lookups (w : overrides) (l l' : pydict) :
  update_line w l = inr l' ->
  exists c d,
    l !! "credit" = Some c /\ l !! "debit" = Some d /\
    l' !! "credit" = Some (float_or_zero c) /\
    l' !! "debit" = Some (float_or_zero d) /\
    l' !! "date" = to_date_only (forced_or (force_move_date w) (l !! "date")) /\
    l' !! "name" = forced_or (force_move_line_name w) (l !! "name") /\
    l' !! "ref" = forced_or (force_move_ref w) (l !! "ref") /\
    l' !! "journal" = match force_journal_id w with
                      | Some journal => Some (PDict1 "recordset" (PInt journal))
                      | None => l !! "journal"
                      end /\
    forall k, ~ In k update_keys -> l' !! k = l !! k.
Proof.
  unfold update_line. intros H.
  apply bind_inr in H as (c & Hc & H).
  apply bind_inr in H as (d & Hd & H). inv_ok H. subst l'.
  apply getitem_inr in Hc, Hd.
  repeat (progress rewrite ?lookup_set_if, ?lookup_date_only, ?lookup_force_journal in Hc).
  repeat (progress rewrite ?lookup_set_if, ?lookup_date_only, ?lookup_force_journal in Hd).
  assert (Hc' : l !! "credit" = Some c).
  { revert Hc. destruct (force_journal_id w); eval_key_tests;
      rewrite ?andb_false_r; cbn; auto. }
  assert (Hd' : l !! "debit" = Some d).
  { revert Hd. destruct (force_journal_id w); eval_key_tests;
      rewrite ?andb_false_r; cbn; auto. }
  exists c, d. split; [exact Hc'|]. split; [exact Hd'|].
  repeat apply conj.
  - push_lookups.
    eval_key_tests. rewrite ?andb_false_r, ?andb_true_r. cbn [andb].
    destruct (force_journal_id w); eval_key_tests; rewrite Hc';
      unfold float_or_zero; destruct (truthy c); reflexivity.
  - push_lookups.
    eval_key_tests. rewrite ?andb_false_r, ?andb_true_r. cbn [andb].
    destruct (force_journal_id w); eval_key_tests; rewrite Hd';
      unfold float_or_zero; destruct (truthy d); reflexivity.
  - push_lookups.
    eval_key_tests. rewrite ?andb_false_r, ?andb_true_r. cbn [andb].
    unfold forced_or.
    destruct (force_journal_id w); eval_key_tests;
      destruct (truthy (force_move_date w)); reflexivity.
  - push_lookups.
    eval_key_tests. rewrite ?andb_false_r, ?andb_true_r. cbn [andb].
    unfold forced_or.
    destruct (force_journal_id w); eval_key_tests;
      destruct (truthy (force_move_line_name w)); reflexivity.
  - push_lookups.
    eval_key_tests. rewrite ?andb_false_r, ?andb_true_r. cbn [andb].
    unfold forced_or.
    destruct (force_journal_id w); eval_key_tests;
      destruct (truthy (force_move_ref w)); reflexivity.
  - push_lookups.
    eval_key_tests. rewrite ?andb_false_r, ?andb_true_r. cbn [andb].
    destruct (force_journal_id w); eval_key_tests; reflexivity.
  - intros k Hk.
    assert (Hne : forall k0, In k0 update_keys -> String.eqb k0 k = false).
    { intros k0 Hin. apply String.eqb_neq. intros ->. exact (Hk Hin). }
    push_lookups.
    rewrite (Hne "date"), (Hne "name"), (Hne "ref"), (Hne "journal"),
            (Hne "credit"), (Hne "debit") by (cbn; auto 10).
    rewrite ?andb_false_r. destruct (force_journal_id w); reflexivity.
Qed.

Lemma update_line_total (w : overrides) (l : pydict) (c d : pyval) :
  l !! "credit" = Some c -> l !! "debit" = Some d ->
  exists l', update_line w l = inr l'.
Proof.
  intros Hc Hd. unfold update_line.
  match goal with
  | |- context [getitem ?m "credit"] =>
      assert (H1 : getitem m "credit" = inr c)
  end.
  { apply getitem_inr. push_lookups. eval_key_tests.
    rewrite ?andb_false_r. destruct (force_journal_id w); eval_key_tests; exact Hc. }
  rewrite H1. cbn [bind].
  match goal with
  | |- context [getitem ?m "debit"] =>
      assert (H2 : getitem m "debit" = inr d)
  end.
  { apply getitem_inr. push_lookups. eval_key_tests.
    rewrite ?andb_false_r. destruct (force_journal_id w); eval_key_tests; exact Hd. }
  rewrite H2. cbn [bind]. eauto.
Qed.

Lemma update_pivot_Forall2 (w : overrides) (pivot out : list pydict) :
  update_pivot w pivot = inr out ->
  Forall2 (fun l l' => update_line w l = inr l') pivot out.
Proof.
  revert out. induction pivot as [|l pivot IH]; intros out H; cbn in H.
  - inv_ok H. subst. constructor.
  - apply bind_inr in H as (l' & Hl & H).
    apply bind_inr in H as (rest & Hrest & H). inv_ok H. subst.
    constructor; auto.
Qed.

(** X6: the overrides win on every line.  Where the wizard forces a
    label, a reference or a journal, every line that leaves
    [update_pivot] holds the forced value, whatever the file gave; where
    it forces a date, every line holds that date (as a date string if it
    is a [datetime]). *)
Theorem update_pivot_overrides_win (w : overrides) (pivot out : list pydict) :
  update_pivot w pivot = inr out ->
  Forall (fun l' =>
            (truthy (force_move_line_name w) = true ->
               l' !! "name" = Some (force_move_line_name w)) /\
            (truthy (force_move_ref w) = true ->
               l' !! "ref" = Some (force_move_ref w)) /\
            (forall journal, force_journal_id w = Some journal ->
               l' !! "journal" = Some (PDict1 "recordset" (PInt journal))) /\
            (truthy (force_move_date w) = true ->
               l' !! "date" = to_date_only (Some (force_move_date w)))) out.
Proof.
  intros H. apply update_pivot_Forall2 in H.
  induction H as [|l l' pivot out Hl _ IH]; constructor; [|exact IH].
  apply update_line_lookups in Hl
    as (c & d & _ & _ & _ & _ & Hdate & Hname & Href & Hj & _).
  unfold forced_or in *. repeat apply conj.
  - intros Hn. rewrite Hn in Hname. exact Hname.
  - intros Hr. rewrite Hr in Href. exact Href.
  - intros j Hfj. rewrite Hfj in Hj. exact Hj.
  - intros Hd. rewrite Hd in Hdate. exact Hdate.
Qed.

(** X7: [update_pivot] keeps the lines and their order, and writes no key
    but the date, the label, the reference, the journal and the two
    amounts: line numbers, accounts, partners, analytic references and
    reconcile marks leave it as they came.  Without overrides the label,
    the reference and the journal are untouched as well. *)
Theorem update_pivot_frame (w : overrides) (pivot out : list pydict) :
  update_pivot w pivot = inr out ->
  Forall2 (fun l l' =>
             (forall k, ~ In k update_keys -> l' !! k = l !! k) /\
             (w = no_overrides ->
                l' !! "name" = l !! "name" /\ l' !! "ref" = l !! "ref" /\
                l' !! "journal" = l !! "journal")) pivot out.
Proof.
  intros H. apply update_pivot_Forall2 in H.
  induction H as [|l l' pivot out Hl _ IH]; constructor; [|exact IH].
  apply update_line_lookups in Hl
    as (c & d & _ & _ & _ & _ & _ & Hname & Href & Hj & Hframe).
  split; [exact Hframe|]. intros ->. cbn in *. auto.
Qed.

(** X8: what [update_pivot] makes of the date and of the amounts.  On
    every line the date it leaves is no [datetime], and each amount is
    the value the line came with when that value is true, else exactly
    the float [0.0]: a true amount is never altered, and [False], [0] and
    [None] do not survive. *)
Theorem update_pivot_normalises (w : overrides) (pivot out : list pydict) :
  update_pivot w pivot = inr out ->
  Forall2 (fun l l' =>
             isinstance_datetime (get l' "date") = false /\
             (exists c, l !! "credit" = Some c /\
                        l' !! "credit" = Some (if truthy c then c else PFloat 0)) /\
             (exists d, l !! "debit" = Some d /\
                        l' !! "debit" = Some (if truthy d then d else PFloat 0)))
    pivot out.
Proof.
  intros H. apply update_pivot_Forall2 in H.
  induction H as [|l l' pivot out Hl _ IH]; constructor; [|exact IH].
  apply update_line_lookups in Hl
    as (c & d & Hc0 & Hd0 & Hc & Hd & Hdate & _).
  split; [|split].
  - unfold get. rewrite Hdate. unfold to_date_only.
    destruct (forced_or _ _) as [[]|]; reflexivity.
  - exists c. split; [exact Hc0 | exact Hc].
  - exists d. split; [exact Hd0 | exact Hd].
Qed.

(** X9: [update_pivot] raises only for a missing amount.  It goes through
    exactly when every line has a ["credit"] and a ["debit"] key; when it
    raises, the exception is the [KeyError] of one of these two keys. *)
Theorem update_pivot_raises_only_key_error (w : overrides) (pivot : list pydict) :
  ((exists out, update_pivot w pivot = inr out) <->
   Forall (fun l => has_key l "credit" = true /\ has_key l "debit" = true) pivot) /\
  (forall e, update_pivot w pivot = inl e ->
             e = KeyError "credit" \/ e = KeyError "debit").
Proof.
  split; [split|].
  - intros [out H]. apply update_pivot_Forall2 in H.
    induction H as [|l l' pivot out Hl _ IH]; constructor; [|exact IH].
    apply update_line_lookups in Hl as (c & d & Hc & Hd & _).
    unfold has_key. rewrite Hc, Hd. auto.
  - induction 1 as [|l pivot [Hc Hd] _ [rest IH]]; cbn; [eauto|].
    unfold has_key in Hc, Hd.
    destruct (l !! "credit") as [c|] eqn:Ec; [|discriminate].
    destruct (l !! "debit") as [d|] eqn:Ed; [|discriminate].
    destruct (update_line_total w l c d Ec Ed) as [l' Hl].
    rewrite Hl, IH. cbn. eauto.
  - induction pivot as [|l pivot IH]; intros e H; cbn in H; [inv_ok H|].
    destruct (update_line w l) as [e1|l'] eqn:Hl; cbn in H.
    + injection H as <-. unfold update_line in Hl.
      match type of Hl with
      | context [getitem ?m "credit"] =>
          destruct (getitem m "credit") as [e2|c] eqn:Hc
      end.
      * cbn in Hl. injection Hl as <-. unfold getitem in Hc.
        destruct (_ !! "credit"); inv_ok Hc. left. symmetry. exact Hc.
      * cbn [bind] in Hl.
        match type of Hl with
        | context [getitem ?m "debit"] =>
            destruct (getitem m "debit") as [e3|d] eqn:Hd
        end.
        -- cbn in Hl. injection Hl as <-. unfold getitem in Hd.
           destruct (_ !! "debit"); inv_ok Hd. right. symmetry. exact Hd.
        -- cbn in Hl. inv_ok Hl.
    + destruct (update_pivot w pivot) as [e2|rest]; cbn in H; [|inv_ok H].
      injection H as <-. apply IH. reflexivity.
Qed.

Lemma to_date_only_idempotent (x : option pyval) :
  to_date_only (to_date_only x) = to_date_only x.
Proof. destruct x as [[]|]; reflexivity. Qed.

Lemma float_or_zero_idempotent (v : pyval) :
  float_or_zero (float_or_zero v) = float_or_zero v.
Proof.
  unfold float_or_zero. destruct (truthy v) eqn:E; [rewrite E|]; reflexivity.
Qed.

Lemma update_line_idempotent (w : overrides) (l l' : pydict) :
  update_line w l = inr l' -> update_line w l' = inr l'.
Proof.
  intros H.
  apply update_line_lookups in H
    as (c & d & _ & _ & Hc & Hd & Hdate & Hname & Href & Hj & Hframe).
  destruct (update_line_total w l' _ _ Hc Hd) as [l'' H2].
  rewrite H2. f_equal.
  apply update_line_lookups in H2
    as (c' & d' & Hc' & Hd' & Hc2 & Hd2 & Hdate2 & Hname2 & Href2 & Hj2 & Hframe2).
  rewrite Hc in Hc'. injection Hc' as <-.
  rewrite Hd in Hd'. injection Hd' as <-.
  apply map_eq. intros k.
  destruct (in_dec string_dec k update_keys) as [Hin|Hout];
    [|apply Hframe2; exact Hout].
  cbn in Hin.
  destruct Hin as [<-|[<-|[<-|[<-|[<-|[<-|[]]]]]]].
  - rewrite Hdate2, Hdate. unfold forced_or.
    destruct (truthy (force_move_date w)); [reflexivity|].
    apply to_date_only_idempotent.
  - rewrite Hname2, Hname. unfold forced_or.
    destruct (truthy (force_move_line_name w)); reflexivity.
  - rewrite Href2, Href. unfold forced_or.
    destruct (truthy (force_move_ref w)); reflexivity.
  - rewrite Hj2, Hj. destruct (force_journal_id w); reflexivity.
  - rewrite Hc2, Hc, float_or_zero_idempotent. reflexivity.
  - rewrite Hd2, Hd, float_or_zero_idempotent. reflexivity.
Qed.

(** X10: [update_pivot] is idempotent: passing a second time over the
    lines it returned, with the same overrides, returns them unchanged. *)
Theorem update_pivot_idempotent (w : overrides) (pivot out : list pydict) :
  update_pivot w pivot = inr out -> update_pivot w out = inr out.
Proof.
  intros H. apply update_pivot_Forall2 in H.
  induction H as [|l l' pivot out Hl _ IH]; cbn; [reflexivity|].
  rewrite (update_line_idempotent w l l' Hl), IH. reflexivity.
Qed.

Lemma amount_like_float (f : float) : amount_like (Some (PFloat f)).
Proof. exists (PFloat f). split; [reflexivity | left; reflexivity]. Qed.

Lemma amount_like_and_or (b : bool) (f : float) (c : pyval) :
  truthy c = false -> amount_like (Some (and_or b (PFloat f) c)).
Proof.
  intros Hc. unfold and_or. eexists. split; [reflexivity|].
  destruct b; [destruct (truthy (PFloat f))|]; auto.
Qed.

Lemma amount_like_or_false (amount : float) (v : option pyval) :
  amount_or_false amount v -> amount_like v.
Proof.
  intros [->|[-> _]]; [apply amount_like_float|].
  exists (PBool false). split; [reflexivity | right; reflexivity].
Qed.

(** Every decoder gives each line both amounts, as floats or as false
    values. *)
Lemma decoder_output_amounts (out : list pydict) :
  decoder_output out ->
  Forall (fun vals => amount_like (vals !! "credit") /\ amount_like (vals !! "debit")) out.
Proof.
  intros [[r H]|[[r H]|[[sep [r H]]|[[r H]|[[r H]|[[r H]|[r H]]]]]]].
  - rewrite extenso2pivot_raises in H. discriminate H.
  - eapply for_rows_emitted; [|constructor|exact H]. intros i row vals _ Hrow.
    apply cielpaye_row_inv in Hrow as (a & _ & -> & -> & _).
    split; apply amount_like_and_or; reflexivity.
  - unfold fectxt2pivot in H. destruct (_ || _); [|inv_ok H].
    eapply for_rows_emitted; [|constructor|exact H]. intros i row vals _ Hrow.
    apply fectxt_row_inv in Hrow as (c & d & _ & _ & -> & -> & _).
    split; apply amount_like_float.
  - eapply for_rows_emitted; [|constructor|exact H]. intros i row vals _ Hrow.
    apply genericcsv_row_inv in Hrow as (c & d & _ & _ & -> & -> & _).
    split; apply amount_like_float.
  - rewrite nibelis2pivot_raises in H. discriminate H.
  - eapply for_rows_emitted; [|constructor|exact H]. intros i l vals _ Hrow.
    apply quadra_row_inv in Hrow as (n & _ & _ & Hs & [HC HD] & _).
    assert (Hf : amount_like (Some (PBool false))).
    { exists (PBool false). split; [reflexivity | right; reflexivity]. }
    destruct Hs as [Hs|Hs]; [destruct (HC Hs) as [H1 H2] | destruct (HD Hs) as [H1 H2]];
      rewrite H2; split; try exact Hf; eapply amount_like_or_false; exact H1.
  - eapply for_rows_emitted; [|constructor|exact H]. intros i row vals _ Hrow.
    apply payfit_row_inv in Hrow
      as (r3 & r5 & r6 & c & d & _ & _ & _ & _ & _ & -> & -> & _).
    split; apply amount_like_float.
Qed.

(** X11: the decoders and [update_pivot] compose.  On the lines a
    decoder returns, [update_pivot] never raises, whatever the overrides,
    and it leaves every credit and every debit a float: the [False] and
    [0] that the Ciel Paye and Quadra decoders write for an absent amount
    become [0.0], so the type test of [create_moves_from_pivot] on the
    amounts cannot fail on an imported file. *)
Theorem decoded_amounts_are_floats_after_update (w : overrides) (out : list pydict) :
  decoder_output out ->
  exists out', update_pivot w out = inr out' /\ Forall float_amounts out'.
Proof.
  intros H. apply decoder_output_amounts in H.
  induction H as [|vals out [(c & Hc & Hcl) (d & Hd & Hdl)] _ (out' & Hout & IH)].
  - exists []. split; [reflexivity | constructor].
  - destruct (update_line_total w vals c d Hc Hd) as [l' Hl].
    exists (l' :: out'). cbn. rewrite Hl, Hout. split; [reflexivity|].
    constructor; [|exact IH].
    apply update_line_lookups in Hl as (c' & d' & Hc' & Hd' & Hc2 & Hd2 & _).
    rewrite Hc in Hc'. injection Hc' as <-. rewrite Hd in Hd'. injection Hd' as <-.
    unfold float_amounts, get. rewrite Hc2, Hd2. cbn [default]. unfold float_or_zero.
    split.
    + destruct Hcl as [Hf|Hf]; [destruct (truthy c); [exact Hf | reflexivity]|].
      rewrite Hf. reflexivity.
    + destruct Hdl as [Hf|Hf]; [destruct (truthy d); [exact Hf | reflexivity]|].
      rewrite Hf. reflexivity.
Qed.

(** ** More on the first loop of [create_moves_from_pivot] *)

Lemma resolve_inr (m : pyval -> option Z) (what : string) (line : Z) (v r : pyval) :
  resolve m what line v = inr r <-> exists id, m v = Some id /\ r = PInt id.
Proof.
  unfold resolve, ok, raise. destruct (m v) as [id|]; split.
  - intros [= <-]. eauto.
  - intros (id' & [= <-] & ->). reflexivity.
  - discriminate.
  - intros (id' & H & _). discriminate.
Qed.

(** An optional reference: matched and written when it is given. *)
Lemma optional_match_inr (m : pyval -> option Z) (what : string) (line : Z)
    (b : bool) (v : pyval) (k : string) (la l1 : pydict) :
  (if b then r <- resolve m what line v ;; ok (<[k := r]> la) else ok la) = inr l1 <->
  (if b then exists id, m v = Some id /\ l1 = <[k := PInt id]> la else l1 = la).
Proof.
  destruct b.
  - split.
    + intros H. apply bind_inr in H as (r & Hr & H). inv_ok H.
      apply resolve_inr in Hr as (id & Hid & ->). eauto.
    + intros (id & Hid & ->).
      assert (Hr : resolve m what line v = inr (PInt id)) by (apply resolve_inr; eauto).
      rewrite Hr. reflexivity.
  - unfold ok. split; [intros [= <-]; reflexivity | intros ->; reflexivity].
Qed.

Lemma get_insert_ne (l : pydict) (k k' : string) (v : pyval) :
  k <> k' -> get (<[k := v]> l) k' = get l k'.
Proof. intros H. unfold get. rewrite lookup_insert_ne by exact H. reflexivity. Qed.

(** What the first loop has checked and written when a line passes. *)
Lemma check_line_inv (l l' : pydict) :
  check_line l = inr l' ->
  exists aid jid,
    acceptable l /\
    (exists acc, l !! "account" = Some acc /\ match_account acc = Some aid) /\
    (exists jrn, l !! "journal" = Some jrn /\ match_journal jrn = Some jid) /\
    l' !! "account_id" = Some (PInt aid) /\
    l' !! "journal_id" = Some (PInt jid) /\
    (if truthy (get l "partner")
     then exists pid, match_partner (get l "partner") = Some pid /\
                      l' !! "partner_id" = Some (PInt pid)
     else l' !! "partner_id" = l !! "partner_id") /\
    (if truthy (get l "analytic")
     then exists nid, match_analytic_account (get l "analytic") = Some nid /\
                      l' !! "analytic_account_id" = Some (PInt nid)
     else l' !! "analytic_account_id" = l !! "analytic_account_id") /\
    forall k, ~ In k id_keys -> l' !! k = l !! k.
Proof.
  unfold check_line.
  destruct (negb (truthy (get l "line") && isinstance_int (get l "line"))) eqn:Hline;
    [intros H; inv_ok H|].
  apply negb_false_iff in Hline.
  intros H.
  apply bind_inr in H as (line & _ & H).
  apply bind_inr in H as (acc & Hacc & H).
  apply bind_inr in H as (account_id & Haid & H).
  apply bind_inr in H as (l1 & Hl1 & H).
  apply bind_inr in H as (l2 & Hl2 & H).
  apply bind_inr in H as (jrn & Hjrn & H).
  apply bind_inr in H as (journal_id & Hjid & H).
  apply getitem_inr in Hacc, Hjrn.
  apply resolve_inr in Haid as (aid & Haid & ->).
  apply resolve_inr in Hjid as (jid & Hjid & ->).
  apply optional_match_inr in Hl1, Hl2.
  rewrite get_insert_ne in Hl1 by discriminate.
  set (la := <["account_id" := PInt aid]> l) in *.
  assert (Hana : get l1 "analytic" = get l "analytic").
  { destruct (truthy (get l "partner")).
    - destruct Hl1 as (pid & _ & ->). subst la. rewrite !get_insert_ne by discriminate.
      reflexivity.
    - subst l1 la. rewrite get_insert_ne by discriminate. reflexivity. }
  rewrite Hana in Hl2.
  assert (Hframe : forall k, ~ In k id_keys ->
                     (<["journal_id" := PInt jid]> l2) !! k = l !! k).
  { intros k Hk.
    assert (Hne : forall k0, In k0 id_keys -> k0 <> k) by (intros k0 Hin ->; exact (Hk Hin)).
    rewrite lookup_insert_ne by (apply Hne; cbn; auto 10).
    assert (H2 : l2 !! k = l1 !! k).
    { destruct (truthy (get l "analytic")).
      - destruct Hl2 as (nid & _ & ->). apply lookup_insert_ne. apply Hne. cbn. auto 10.
      - subst l2. reflexivity. }
    assert (H1 : l1 !! k = la !! k).
    { destruct (truthy (get l "partner")).
      - destruct Hl1 as (pid & _ & ->). apply lookup_insert_ne. apply Hne. cbn. auto 10.
      - subst l1. reflexivity. }
    rewrite H2, H1. subst la. apply lookup_insert_ne. apply Hne. cbn. auto 10. }
  assert (Hget : forall k, ~ In k id_keys ->
                   get (<["journal_id" := PInt jid]> l2) k = get l k).
  { intros k Hk. unfold get. rewrite (Hframe k Hk). reflexivity. }
  assert (Hjrn' : l !! "journal" = Some jrn).
  { rewrite <- Hjrn. symmetry.
    specialize (Hframe "journal"). rewrite lookup_insert_ne in Hframe by discriminate.
    apply Hframe. cbn. intros [?|[?|[?|[?|[]]]]]; discriminate. }
  rewrite !Hget in H by (cbn; intros [?|[?|[?|[?|[]]]]]; discriminate).
  destruct (negb (truthy (get l "name"))) eqn:Hn; [inv_ok H|].
  destruct (negb (truthy (get l "date"))) eqn:Hd; [inv_ok H|].
  destruct (negb (isinstance_float (get l "credit"))) eqn:Hc.
  { apply bind_inr in H as (? & _ & H). inv_ok H. }
  destruct (negb (isinstance_float (get l "debit"))) eqn:Hdb.
  { apply bind_inr in H as (? & _ & H). inv_ok H. }
  inv_ok H. subst l'.
  apply negb_false_iff in Hn, Hd, Hc, Hdb.
  exists aid, jid.
  assert (Hpartner :
    if truthy (get l "partner")
    then exists pid, match_partner (get l "partner") = Some pid /\
                     (<["journal_id" := PInt jid]> l2) !! "partner_id" = Some (PInt pid)
    else (<["journal_id" := PInt jid]> l2) !! "partner_id" = l !! "partner_id").
  { rewrite lookup_insert_ne by discriminate.
    assert (H2 : l2 !! "partner_id" = l1 !! "partner_id").
    { destruct (truthy (get l "analytic")).
      - destruct Hl2 as (nid & _ & ->). apply lookup_insert_ne. discriminate.
      - subst l2. reflexivity. }
    rewrite H2. destruct (truthy (get l "partner")).
    - destruct Hl1 as (pid & Hpid & ->). exists pid. split; [exact Hpid|].
      apply lookup_insert_eq.
    - subst l1 la. apply lookup_insert_ne. discriminate. }
  assert (Hanalytic :
    if truthy (get l "analytic")
    then exists nid, match_analytic_account (get l "analytic") = Some nid /\
                     (<["journal_id" := PInt jid]> l2) !! "analytic_account_id" =
                       Some (PInt nid)
    else (<["journal_id" := PInt jid]> l2) !! "analytic_account_id" =
           l !! "analytic_account_id").
  { rewrite lookup_insert_ne by discriminate.
    destruct (truthy (get l "analytic")).
    - destruct Hl2 as (nid & Hnid & ->). exists nid. split; [exact Hnid|].
      apply lookup_insert_eq.
    - subst l2. destruct (truthy (get l "partner")).
      + destruct Hl1 as (pid & _ & ->). subst la.
        rewrite !lookup_insert_ne by discriminate. reflexivity.
      + subst l1 la. apply lookup_insert_ne. discriminate. }
  assert (Haccid : (<["journal_id" := PInt jid]> l2) !! "account_id" = Some (PInt aid)).
  { rewrite lookup_insert_ne by discriminate.
    assert (H2 : l2 !! "account_id" = l1 !! "account_id").
    { destruct (truthy (get l "analytic")).
      - destruct Hl2 as (nid & _ & ->). apply lookup_insert_ne. discriminate.
      - subst l2. reflexivity. }
    rewrite H2. destruct (truthy (get l "partner")).
    - destruct Hl1 as (pid & _ & ->). rewrite lookup_insert_ne by discriminate.
      subst la. apply lookup_insert_eq.
    - subst l1 la. apply lookup_insert_eq. }
  split.
  { unfold acceptable. split; [exact Hline|]. split; [eauto|].
    split.
    { intros Ht. rewrite Ht in Hpartner. destruct Hpartner as (pid & Hp & _). eauto. }
    split.
    { intros Ht. rewrite Ht in Hanalytic. destruct Hanalytic as (nid & Hp & _). eauto. }
    split; [eauto|]. auto. }
  split; [eauto|]. split; [eauto|]. split; [exact Haccid|].
  split; [apply lookup_insert_eq|]. split; [exact Hpartner|].
  split; [exact Hanalytic | exact Hframe].
Qed.

Lemma int_value_line_no (l : pydict) (n : Z) :
  int_value (get l "line") = inr n -> n = line_no l.
Proof.
  unfold line_no. destruct (get l "line"); cbn; intros H; inv_ok H; auto.
Qed.

Lemma not_id_key (k : string) :
  String.eqb k "account_id" || String.eqb k "partner_id" ||
  String.eqb k "analytic_account_id" || String.eqb k "journal_id" = false ->
  ~ In k id_keys.
Proof.
  intros H [<-|[<-|[<-|[<-|[]]]]]; vm_compute in H; discriminate H.
Qed.

(** The lines the first loop lets through. *)
Lemma check_line_inr_iff (l : pydict) :
  (exists l', check_line l = inr l') <-> acceptable l.
Proof.
  split.
  - intros [l' H]. apply check_line_inv in H as (aid & jid & Hacc & _). exact Hacc.
  - intros (Hline & (acc & Hacc & [aid Haid]) & Hp & Ha & (jrn & Hjrn & [jid Hjid])
            & Hn & Hd & Hc & Hdb).
    unfold check_line. rewrite Hline. cbn [negb].
    assert (Hiv : exists line, int_value (get l "line") = inr line).
    { apply andb_true_iff in Hline as [_ Hi].
      destruct (get l "line"); try discriminate Hi; cbn; eauto. }
    destruct Hiv as [line Hiv]. rewrite Hiv. cbn [bind].
    rewrite (proj2 (getitem_inr l "account" acc) Hacc). cbn [bind].
    rewrite (proj2 (resolve_inr match_account "account" line acc (PInt aid)))
      by eauto.
    cbn [bind].
    rewrite get_insert_ne by discriminate.
    set (la := <["account_id" := PInt aid]> l).
    assert (H1 : exists l1,
              (if truthy (get l "partner")
               then partner_id <- resolve match_partner "partner" line (get l "partner") ;;
                    ok (<["partner_id" := partner_id]> la)
               else ok la) = inr l1 /\
              forall k, ~ In k id_keys -> l1 !! k = l !! k).
    { destruct (truthy (get l "partner")) eqn:Et.
      - destruct (Hp eq_refl) as [pid Hpid].
        exists (<["partner_id" := PInt pid]> la). split.
        + rewrite (proj2 (resolve_inr match_partner "partner" line _ (PInt pid)))
            by eauto. reflexivity.
        + intros k Hk. subst la.
          rewrite !lookup_insert_ne; [reflexivity| |];
            intros <-; apply Hk; cbn; auto 10.
      - exists la. split; [reflexivity|]. intros k Hk. subst la.
        rewrite lookup_insert_ne; [reflexivity|]. intros <-; apply Hk; cbn; auto 10. }
    destruct H1 as (l1 & -> & Hf1). cbn [bind].
    assert (Hga : get l1 "analytic" = get l "analytic").
    { unfold get. rewrite Hf1; [reflexivity|]. apply not_id_key. reflexivity. }
    rewrite Hga.
    assert (H2 : exists l2,
              (if truthy (get l "analytic")
               then analytic_id <- resolve match_analytic_account "analytic" line
                                     (get l "analytic") ;;
                    ok (<["analytic_account_id" := analytic_id]> l1)
               else ok l1) = inr l2 /\
              forall k, ~ In k id_keys -> l2 !! k = l !! k).
    { destruct (truthy (get l "analytic")) eqn:Et.
      - destruct (Ha eq_refl) as [nid Hnid].
        exists (<["analytic_account_id" := PInt nid]> l1). split.
        + rewrite (proj2 (resolve_inr match_analytic_account "analytic" line _ (PInt nid)))
            by eauto. reflexivity.
        + intros k Hk. rewrite lookup_insert_ne; [apply Hf1; exact Hk|].
          intros <-; apply Hk; cbn; auto 10.
      - exists l1. split; [reflexivity | exact Hf1]. }
    destruct H2 as (l2 & -> & Hf2). cbn [bind].
    assert (Hj : getitem l2 "journal" = inr jrn).
    { apply getitem_inr. rewrite Hf2; [exact Hjrn|]. apply not_id_key. reflexivity. }
    rewrite Hj. cbn [bind].
    rewrite (proj2 (resolve_inr match_journal "journal" line jrn (PInt jid))) by eauto.
    cbn [bind].
    assert (Hget : forall k, ~ In k id_keys ->
                     get (<["journal_id" := PInt jid]> l2) k = get l k).
    { intros k Hk. unfold get. rewrite lookup_insert_ne, Hf2; [reflexivity|exact Hk|].
      intros <-. apply Hk. cbn. auto 10. }
    rewrite !Hget by (apply not_id_key; reflexivity).
    rewrite Hn, Hd, Hc, Hdb. cbn. eauto.
Qed.

(** X12: the first loop accepts a line exactly when the line has a true
    integer number, an account and a journal that match, a partner and an
    analytic reference that match if they are given, a true label, a true
    date and float amounts; on every other line it raises. *)
Theorem check_line_accepts_iff (l : pydict) :
  ((exists l', check_line l = inr l') <-> acceptable l) /\
  ((exists e, check_line l = inl e) <-> ~ acceptable l).
Proof.
  pose proof (check_line_inr_iff l) as Hiff.
  split; [exact Hiff|]. split.
  - intros [e He] Hacc. apply Hiff in Hacc as [l' Hl']. congruence.
  - intros Hna. destruct (check_line l) as [e|l'] eqn:H; [eauto|].
    destruct Hna. apply Hiff. eauto.
Qed.

(** X13: a line that passes the first loop leaves it with the same
    entries as it came with, but for the ids the loop writes: the id of
    the matched account under ["account_id"], of the matched journal under
    ["journal_id"], and those of the partner and of the analytic account
    when the line gives them. *)
Theorem check_line_writes_ids_only (l l' : pydict) :
  check_line l = inr l' ->
  (forall k, ~ In k id_keys -> l' !! k = l !! k) /\
  (exists acc aid, l !! "account" = Some acc /\ match_account acc = Some aid /\
                   l' !! "account_id" = Some (PInt aid)) /\
  (exists jrn jid, l !! "journal" = Some jrn /\ match_journal jrn = Some jid /\
                   l' !! "journal_id" = Some (PInt jid)) /\
  (if truthy (get l "partner")
   then exists pid, match_partner (get l "partner") = Some pid /\
                    l' !! "partner_id" = Some (PInt pid)
   else l' !! "partner_id" = l !! "partner_id") /\
  (if truthy (get l "analytic")
   then exists nid, match_analytic_account (get l "analytic") = Some nid /\
                    l' !! "analytic_account_id" = Some (PInt nid)
   else l' !! "analytic_account_id" = l !! "analytic_account_id").
Proof.
  intros H.
  apply check_line_inv in H
    as (aid & jid & _ & (acc & Hacc & Haid) & (jrn & Hjrn & Hjid) & Ha & Hj & Hp & Hn & Hf).
  split; [exact Hf|]. split; [eauto 6|]. split; [eauto 6|]. auto.
Qed.

Lemma getitem_inl_lookup (d : pydict) (k : string) (e : exn) :
  getitem d k = inl e -> e = KeyError k /\ d !! k = None.
Proof. unfold getitem. destruct (d !! k); intros H; inv_ok H. auto. Qed.

Lemma resolve_inl (m : pyval -> option Z) (what : string) (line : Z) (v : pyval) (e : exn) :
  resolve m what line v = inl e -> e = UserError (NoMatch line what) /\ m v = None.
Proof. unfold resolve. destruct (m v); intros H; inv_ok H. auto. Qed.

Lemma optional_match_inl (m : pyval -> option Z) (what : string) (line : Z)
    (b : bool) (v : pyval) (k : string) (la : pydict) (e : exn) :
  (if b then r <- resolve m what line v ;; ok (<[k := r]> la) else ok la) = inl e ->
  e = UserError (NoMatch line what) /\ b = true /\ m v = None.
Proof.
  destruct b; [|intros H; inv_ok H].
  destruct (resolve m what line v) as [e1|r] eqn:Hr; cbn; intros H; inv_ok H.
  subst. apply resolve_inl in Hr as [-> Hn]. auto.
Qed.

(** The exceptions of the first loop: the failed assertion on the line
    number, the [KeyError] of a key the loop reads with [l[..]], or a
    [UserError] that names the line it was raised on. *)
Lemma check_line_inl (l : pydict) (e : exn) :
  check_line l = inl e ->
  (e = AssertionError "missing line number" /\
   truthy (get l "line") && isinstance_int (get l "line") = false) \/
  (exists k, In k ["account"; "journal"; "credit"; "debit"] /\
             e = KeyError k /\ l !! k = None) \/
  (exists msg, e = UserError msg /\ cited_line msg = Some (line_no l) /\
               raised_for l msg).
Proof.
  unfold check_line. intros H.
  destruct (negb _) eqn:Hline.
  { inv_ok H. subst e. left. split; [reflexivity|]. apply negb_true_iff. exact Hline. }
  right.
  destruct (int_value (get l "line")) as [e0|line] eqn:Hiv; cbn [bind] in H.
  { apply negb_false_iff, andb_true_iff in Hline as [_ Hi].
    destruct (get l "line"); first [discriminate Hi | inv_ok Hiv]. }
  apply int_value_line_no in Hiv. subst line.
  destruct (getitem l "account") as [e0|acc] eqn:Hacc; cbn [bind] in H.
  { apply getitem_inl_lookup in Hacc as [-> Hnone]. inv_ok H. subst e.
    left. exists "account". cbn. auto. }
  apply getitem_inr in Hacc.
  destruct (resolve match_account "account" (line_no l) acc) as [e0|aid] eqn:Hr;
    cbn [bind] in H.
  { apply resolve_inl in Hr as [-> Hn]. inv_ok H. subst e. right.
    eexists. split; [reflexivity|]. split; [reflexivity|]. cbn. left.
    rewrite (get_lookup _ _ _ Hacc). auto. }
  rewrite get_insert_ne in H by discriminate.
  match type of H with
  | bind ?m _ = _ => destruct m as [e0|l1] eqn:Hl1
  end; cbn [bind] in H.
  { apply optional_match_inl in Hl1 as (-> & Ht & Hn). inv_ok H. subst e. right.
    eexists. split; [reflexivity|]. split; [reflexivity|]. cbn. right. left. auto. }
  assert (Hf1 : forall k, ~ In k id_keys -> l1 !! k = l !! k).
  { intros k Hk. apply optional_match_inr in Hl1.
    match type of Hl1 with
    | if ?b then _ else _ => destruct b
    end; [destruct Hl1 as (id & _ & ->) | subst l1];
      rewrite !lookup_insert_ne; try reflexivity;
      intros <-; apply Hk; cbn; auto 10. }
  assert (Hga : get l1 "analytic" = get l "analytic").
  { unfold get. rewrite Hf1; [reflexivity|]. apply not_id_key. reflexivity. }
  rewrite Hga in H.
  match type of H with
  | bind ?m _ = _ => destruct m as [e0|l2] eqn:Hl2
  end; cbn [bind] in H.
  { apply optional_match_inl in Hl2 as (-> & Ht & Hn). inv_ok H. subst e. right.
    eexists. split; [reflexivity|]. split; [reflexivity|]. cbn. right. right. left.
    auto. }
  assert (Hf2 : forall k, ~ In k id_keys -> l2 !! k = l !! k).
  { intros k Hk. apply optional_match_inr in Hl2.
    match type of Hl2 with
    | if ?b then _ else _ => destruct b
    end; [destruct Hl2 as (id & _ & ->) | subst l2].
    - rewrite lookup_insert_ne; [apply Hf1; exact Hk|].
      intros <-; apply Hk; cbn; auto 10.
    - apply Hf1; exact Hk. }
  destruct (getitem l2 "journal") as [e0|jrn] eqn:Hjrn; cbn [bind] in H.
  { apply getitem_inl_lookup in Hjrn as [-> Hnone]. inv_ok H. subst e.
    left. exists "journal". split; [cbn; auto|]. split; [reflexivity|].
    rewrite <- Hnone. symmetry. apply Hf2. apply not_id_key. reflexivity. }
  apply getitem_inr in Hjrn.
  rewrite Hf2 in Hjrn by (apply not_id_key; reflexivity).
  destruct (resolve match_journal "journal" (line_no l) jrn) as [e0|jid] eqn:Hj;
    cbn [bind] in H.
  { apply resolve_inl in Hj as [-> Hn]. inv_ok H. subst e. right.
    eexists. split; [reflexivity|]. split; [reflexivity|]. cbn. right. right. right.
    rewrite (get_lookup _ _ _ Hjrn). auto. }
  assert (Hf3 : forall k, ~ In k id_keys -> <["journal_id" := jid]> l2 !! k = l !! k).
  { intros k Hk. rewrite lookup_insert_ne; [apply Hf2; exact Hk|].
    intros <-; apply Hk; cbn; auto 10. }
  assert (Hget : forall k, ~ In k id_keys ->
                   get (<["journal_id" := jid]> l2) k = get l k).
  { intros k Hk. unfold get. rewrite Hf3 by exact Hk. reflexivity. }
  rewrite !Hget in H by (apply not_id_key; reflexivity).
  destruct (negb (truthy (get l "name"))) eqn:Hn.
  { inv_ok H. subst e. right. eexists. split; [reflexivity|]. split; [reflexivity|].
    cbn. apply negb_true_iff. exact Hn. }
  destruct (negb (truthy (get l "date"))) eqn:Hd.
  { inv_ok H. subst e. right. eexists. split; [reflexivity|]. split; [reflexivity|].
    cbn. apply negb_true_iff. exact Hd. }
  destruct (negb (isinstance_float (get l "credit"))) eqn:Hc.
  { match type of H with
    | bind ?m _ = _ => destruct m as [e0|c] eqn:Hgc
    end; cbn [bind] in H.
    - apply getitem_inl_lookup in Hgc as [-> Hnone]. inv_ok H. subst e.
      left. exists "credit". split; [cbn; auto|]. split; [reflexivity|].
      rewrite <- Hnone. symmetry. apply Hf3. apply not_id_key. reflexivity.
    - inv_ok H. subst e. right. eexists. split; [reflexivity|]. split; [reflexivity|].
      cbn. split; [apply negb_true_iff; exact Hc|].
      apply getitem_inr in Hgc. rewrite <- Hgc. symmetry. apply Hf3.
      apply not_id_key. reflexivity. }
  destruct (negb (isinstance_float (get l "debit"))) eqn:Hdb; [|inv_ok H].
  match type of H with
  | bind ?m _ = _ => destruct m as [e0|d] eqn:Hgd
  end; cbn [bind] in H.
  - apply getitem_inl_lookup in Hgd as [-> Hnone]. inv_ok H. subst e.
    left. exists "debit". split; [cbn; auto 10|]. split; [reflexivity|].
    rewrite <- Hnone. symmetry. apply Hf3. apply not_id_key. reflexivity.
  - inv_ok H. subst e. right. eexists. split; [reflexivity|]. split; [reflexivity|].
    cbn. split; [apply negb_true_iff; exact Hdb|].
    apply getitem_inr in Hgd. rewrite <- Hgd. symmetry. apply Hf3.
    apply not_id_key. reflexivity.
Qed.

(** X14: the first loop stops at the first line it does not accept.  It
    raises exactly the exception of the first line of the pivot that is
    not acceptable, every line before it being acceptable.  That
    exception is the failed assertion on the line number, the [KeyError]
    of a missing ["account"], ["journal"], ["credit"] or ["debit"] key, or
    a [UserError] whose message cites the number this very line carries
    and names what the loop found on it: a reference that does not match,
    a label or a date that is not true, an amount that is not a float. *)
Theorem check_lines_first_failure (pivot : list pydict) (e : exn) :
  check_lines pivot = inl e ->
  exists pre l rest,
    pivot = (pre ++ l :: rest)%list /\
    Forall acceptable pre /\
    ~ acceptable l /\
    check_line l = inl e /\
    ((e = AssertionError "missing line number" /\
      truthy (get l "line") && isinstance_int (get l "line") = false) \/
     (exists k, In k ["account"; "journal"; "credit"; "debit"] /\
                e = KeyError k /\ l !! k = None) \/
     (exists msg, e = UserError msg /\ cited_line msg = Some (line_no l) /\
                  raised_for l msg)).
Proof.
  induction pivot as [|l pivot IH]; cbn; intros H; [inv_ok H|].
  destruct (check_line l) as [e1|l'] eqn:Hl; cbn [bind] in H.
  - inv_ok H. subst e1. exists [], l, pivot.
    split; [reflexivity|]. split; [constructor|]. split; [|split; [exact Hl|]].
    + intros Hacc. apply check_line_inr_iff in Hacc as [l' Hl']. congruence.
    + apply check_line_inl. exact Hl.
  - destruct (check_lines pivot) as [e2|rest'] eqn:Hrest; cbn [bind] in H; [|inv_ok H].
    inv_ok H. subst e2.
    destruct (IH eq_refl) as (pre & l0 & rest & -> & Hpre & Hna & Hl0 & Hkind).
    exists (l :: pre), l0, rest.
    split; [reflexivity|]. split; [|auto].
    constructor; [|exact Hpre]. apply check_line_inr_iff. eauto.
Qed.

(** ** The line numbers the decoders give *)

Lemma StronglySorted_snoc (ns : list Z) (x : Z) :
  StronglySorted Z.lt ns -> Forall (fun n => n < x) ns ->
  StronglySorted Z.lt (ns ++ [x]).
Proof.
  induction 1 as [|a ns Hs IH Ha]; cbn; intros HF.
  - constructor; constructor.
  - inversion HF as [|? ? Hax HF']; subst. constructor; [apply IH; exact HF'|].
    apply Forall_app. split; [exact Ha|]. constructor; [exact Hax | constructor].
Qed.

(** The loop of a decoder numbers what it appends with its counter. *)
Lemma for_rows_numbered {Row : Type} (body : Z -> Row -> result (option pydict))
    (lo : Z) :
  (forall i l vals, body i l = inr (Some vals) ->
     vals !! "line" = Some (PInt i) /\ (1 <= i -> lo <= i)) ->
  forall rows i res out ns,
    0 <= i ->
    map (fun vals : pydict => vals !! "line") res = map (fun n => Some (PInt n)) ns ->
    StronglySorted Z.lt ns ->
    Forall (fun n => lo <= n <= i) ns ->
    for_rows body i rows res = inr out ->
    exists ns',
      map (fun vals : pydict => vals !! "line") out = map (fun n => Some (PInt n)) ns' /\
      StronglySorted Z.lt ns' /\
      Forall (fun n => lo <= n <= i + Z.of_nat (length rows)) ns'.
Proof.
  intros Hbody. induction rows as [|l rows IH]; intros i res out ns Hi Hmap Hs Hb H;
    cbn [for_rows] in H.
  - inv_ok H. subst out. exists ns. split; [exact Hmap|]. split; [exact Hs|].
    eapply Forall_impl; [exact Hb|]. cbn. intros; lia.
  - assert (Hb' : Forall (fun n => lo <= n <= i + 1) ns).
    { eapply Forall_impl; [exact Hb|]. cbn. intros; lia. }
    assert (Hlen : i + Z.of_nat (length (l :: rows)) = i + 1 + Z.of_nat (length rows)).
    { cbn [length]. lia. }
    rewrite Hlen.
    destruct (body (i + 1) l) as [e|[vals|]] eqn:Hrow; [inv_ok H| |].
    + destruct (Hbody _ _ _ Hrow) as [Hline Hlo].
      apply (IH (i + 1) (res ++ [vals])%list out (ns ++ [i + 1])%list); [lia| | | |exact H].
      * rewrite !map_app. cbn. rewrite Hmap, Hline. reflexivity.
      * apply StronglySorted_snoc; [exact Hs|].
        eapply Forall_impl; [exact Hb|]. cbn. intros; lia.
      * apply Forall_app. split; [exact Hb'|]. constructor; [|constructor].
        split; [apply Hlo; lia | lia].
    + apply (IH (i + 1) res out ns); [lia|exact Hmap|exact Hs|exact Hb'|exact H].
Qed.

Lemma for_rows_numbered_from_start {Row : Type}
    (body : Z -> Row -> result (option pydict)) (lo : Z) (rows : list Row)
    (out : list pydict) :
  (forall i l vals, body i l = inr (Some vals) ->
     vals !! "line" = Some (PInt i) /\ (1 <= i -> lo <= i)) ->
  for_rows body 0 rows [] = inr out -> numbered lo (length rows) out.
Proof.
  intros Hbody H.
  destruct (for_rows_numbered body lo Hbody rows 0 [] out []) as (ns & H1 & H2 & H3);
    [lia|reflexivity|constructor|constructor|exact H|].
  exists ns. auto.
Qed.

Lemma cielpaye_row_line (i : Z) (row : list string) (vals : pydict) :
  cielpaye_row i row = inr (Some vals) -> vals !! "line" = Some (PInt i).
Proof.
  unfold cielpaye_row. intros H.
  destruct (_ && _); [|inv_ok H]. read_items H.
  apply bind_inr in H as (amount & Ha & H). read_items H.
  apply bind_inr in H as (date & _ & H). read_items H. inv_ok H. subst vals.
  lookup_chain. reflexivity.
Qed.

Lemma fectxt_row_line (i : Z) (row : list string) (vals : pydict) :
  fectxt_row i row = inr (Some vals) -> vals !! "line" = Some (PInt i) /\ i <> 1.
Proof.
  unfold fectxt_row. intros H. destruct (i =? 1) eqn:Hi; [inv_ok H|].
  apply Z.eqb_neq in Hi. read_items H.
  apply bind_inr in H as (credit & Hc & H). read_items H.
  apply bind_inr in H as (debit & Hd & H). read_items H.
  apply bind_inr in H as (date & _ & H). inv_ok H. subst vals.
  split; [lookup_chain; reflexivity | exact Hi].
Qed.

Lemma genericcsv_row_line (i : Z) (row : list string) (vals : pydict) :
  genericcsv_row i row = inr (Some vals) -> vals !! "line" = Some (PInt i).
Proof.
  unfold genericcsv_row. intros H. read_items H.
  apply bind_inr in H as (credit & Hc & H). read_items H.
  apply bind_inr in H as (debit & Hd & H). read_items H.
  apply bind_inr in H as (date & _ & H). read_items H. inv_ok H. subst vals.
  destruct (truthy (cell row 4)); destruct (truthy (cell row 3));
    lookup_chain; reflexivity.
Qed.

Lemma payfit_row_keys (i : Z) (row : list pyval) (vals : pydict) :
  payfit_row i row = inr (Some vals) ->
  (vals !! "line" = Some (PInt i) /\ i <> 1) /\
  vals !! "journal" = None /\ vals !! "date" = None /\
  vals !! "name" = Some (PStr "Paye") /\ is_Some (vals !! "account").
Proof.
  unfold payfit_row, index. intros H. destruct (i =? 1) eqn:Hi; [inv_ok H|].
  apply Z.eqb_neq in Hi.
  apply bind_inr in H as (r0 & _ & H).
  destruct (negb (truthy r0)); [inv_ok H|].
  destruct (char_at 0 _) as [c0|]; [|inv_ok H].
  destruct (negb (isdigit c0)); [inv_ok H|].
  apply bind_inr in H as (r3 & H3 & H).
  apply bind_inr in H as (r5 & H5 & H).
  apply bind_inr in H as (debit & Hd & H).
  apply bind_inr in H as (r6 & H6 & H).
  apply bind_inr in H as (credit & Hc & H).
  inv_ok H. subst vals.
  cbn [truthy].
  destruct (negb (String.eqb (py_str r3) ""));
    (split; [split; [lookup_chain; reflexivity | exact Hi]|]);
    (split; [|split; [|split]]); lookup_chain; eauto.
Qed.

(** ** The amounts and the optional references of the decoded lines *)





(** C10: a blank optional reference is left out of the pivot line.  For
    a row whose analytic (partner) field is empty or missing, the Generic
    CSV and the Payfit decoders return a line without the ["analytic"]
    (["partner"]) key; the Ciel Paye, FEC and Quadra decoders never write
    either key; the Nibelis and the In Extenso decoders return no line at
    all.  No line of any decoder holds an empty string, or a reference to
    the empty code, under these keys. *)
Theorem blank_optional_fields :
  (forall reader out, genericcsv2pivot reader = inr out ->
     Forall (fun vals : pydict =>
               exists row,
                 own_row reader vals row /\
                 (truthy (cell row 4) = false -> vals !! "analytic" = None) /\
                 (truthy (cell row 3) = false -> vals !! "partner" = None) /\
                 vals !! "analytic" <> Some (PStr "") /\
                 vals !! "analytic" <> Some (code (PStr "")) /\
                 vals !! "partner" <> Some (PStr "") /\
                 vals !! "partner" <> Some (PDict1 "ref" (PStr ""))) out) /\
  (forall rows out, payfit2pivot rows = inr out ->
     Forall (fun vals : pydict =>
               exists row,
                 own_row rows vals row /\
                 (nth_error row 3 = Some (PStr "") -> vals !! "analytic" = None) /\
                 vals !! "analytic" <> Some (PStr "") /\
                 vals !! "analytic" <> Some (code (PStr "")) /\
                 vals !! "partner" = None) out) /\
  (forall reader, nibelis2pivot reader = inl TypeError) /\
  (forall reader, extenso2pivot reader = inl TypeError) /\
  (forall reader out, cielpaye2pivot reader = inr out ->
     Forall (fun vals : pydict =>
               vals !! "analytic" = None /\ vals !! "partner" = None) out) /\
  (forall sep reader out, fectxt2pivot sep reader = inr out ->
     Forall (fun vals : pydict =>
               vals !! "analytic" = None /\ vals !! "partner" = None) out) /\
  (forall file_str out, quadra2pivot file_str = inr out ->
     Forall (fun vals : pydict =>
               vals !! "analytic" = None /\ vals !! "partner" = None) out).
Proof.
  split; [|split; [|split; [exact nibelis2pivot_raises|
    split; [exact extenso2pivot_raises|split; [|split]]]]].
  - intros reader out H. eapply (for_rows_own_from_start genericcsv_row); [|exact H].
    intros j row vals Hj Hnth Hrow.
    pose proof (genericcsv_row_line _ _ _ Hrow) as Hline.
    apply genericcsv_row_inv in Hrow as (c & d & _ & _ & _ & _ & Ha & Hp).
    exists row. split; [exists j; auto|].
    split; [intros Hb; rewrite Hb in Ha; exact Ha|].
    split; [intros Hb; rewrite Hb in Hp; exact Hp|].
    rewrite Ha, Hp.
    destruct (truthy (cell row 4)) eqn:Ht4; destruct (truthy (cell row 3)) eqn:Ht3;
      (split; [discriminate|]); (split; [|split; [discriminate|]]);
      try discriminate; intros [= Heq]; rewrite Heq in *; discriminate.
  - intros rows out H. eapply (for_rows_own_from_start payfit_row); [|exact H].
    intros j row vals Hj Hnth Hrow.
    pose proof (payfit_row_keys _ _ _ Hrow) as ([Hline _] & _).
    apply payfit_row_inv in Hrow
      as (r3 & r5 & r6 & c & d & H3 & _ & _ & _ & _ & _ & _ & Ha & Hp).
    exists row. split; [exists j; auto|].
    split; [intros Hb; rewrite Hb in H3; injection H3 as <-; exact Ha|].
    rewrite Ha. split; [|split; [|exact Hp]].
    + destruct (truthy (PStr (py_str r3))); discriminate.
    + destruct (truthy (PStr (py_str r3))) eqn:Ht; [|discriminate].
      intros [= Heq]. rewrite Heq in Ht. discriminate Ht.
  - intros reader out H. eapply for_rows_emitted; [|constructor|exact H].
    intros i row vals _ Hrow.
    apply cielpaye_row_inv in Hrow as (a & _ & _ & _ & Ha & Hp). auto.
  - intros sep reader out H. unfold fectxt2pivot in H.
    destruct (_ || _); [|inv_ok H].
    eapply for_rows_emitted; [|constructor|exact H].
    intros i row vals _ Hrow.
    apply fectxt_row_inv in Hrow as (c & d & _ & _ & _ & _ & Ha & Hp). auto.
  - intros file_str out H. eapply for_rows_emitted; [|constructor|exact H].
    intros i l vals _ Hrow.
    apply quadra_row_inv in Hrow as (n & _ & _ & _ & _ & _ & Ha & Hp). auto.
Qed.

(** X15: the number a pivot line carries is the number of its row in the
    file, counted from 1 with the header and the rows passed over.  For
    each decoder, the lines of the result carry strictly increasing
    integer numbers, none above the number of rows read; the decoders that
    skip a header (FEC, Nibelis, Payfit) never give the number 1. *)
Theorem decoded_lines_numbered_by_row :
  (forall reader out, extenso2pivot reader = inr out -> numbered 1 (length reader) out) /\
  (forall reader out, cielpaye2pivot reader = inr out -> numbered 1 (length reader) out) /\
  (forall sep reader out,
     fectxt2pivot sep reader = inr out -> numbered 2 (length reader) out) /\
  (forall reader out,
     genericcsv2pivot reader = inr out -> numbered 1 (length reader) out) /\
  (forall reader out, nibelis2pivot reader = inr out -> numbered 2 (length reader) out) /\
  (forall file_str out,
     quadra2pivot file_str = inr out ->
     numbered 1 (length (split_newline file_str)) out) /\
  (forall rows out, payfit2pivot rows = inr out -> numbered 2 (length rows) out).
Proof.
  split; [|split; [|split; [|split; [|split; [|split]]]]].
  - intros reader out H. rewrite extenso2pivot_raises in H. discriminate H.
  - intros reader out H. eapply for_rows_numbered_from_start; [|exact H].
    intros i l vals Hrow. apply cielpaye_row_line in Hrow. auto.
  - intros sep reader out H. unfold fectxt2pivot in H.
    destruct (_ || _); [|inv_ok H].
    eapply for_rows_numbered_from_start; [|exact H].
    intros i l vals Hrow. apply fectxt_row_line in Hrow as [Hl Hi].
    split; [exact Hl | lia].
  - intros reader out H. eapply for_rows_numbered_from_start; [|exact H].
    intros i l vals Hrow. apply genericcsv_row_line in Hrow. auto.
  - intros reader out H. rewrite nibelis2pivot_raises in H. discriminate H.
  - intros file_str out H. eapply for_rows_numbered_from_start; [|exact H].
    intros i l vals Hrow. apply quadra_row_inv in Hrow as (n & _ & _ & _ & _ & Hl & _).
    auto.
  - intros rows out H. eapply for_rows_numbered_from_start; [|exact H].
    intros i l vals Hrow. apply payfit_row_keys in Hrow as ([Hl Hi] & _).
    split; [exact Hl | lia].
Qed.

(** ** From a decoder to the first loop *)

(** As [for_rows_emitted], knowing that the counter has grown. *)
Lemma for_rows_emitted_at {Row : Type} (body : Z -> Row -> result (option pydict))
    (P : pydict -> Prop) (rows : list Row) :
  forall i res out,
    (forall j l vals, i < j -> body j l = inr (Some vals) -> P vals) ->
    Forall P res -> for_rows body i rows res = inr out -> Forall P out.
Proof.
  induction rows as [|l rows IH]; intros i res out Hbody Hres H; cbn in H.
  - inv_ok H. subst. exact Hres.
  - destruct (body (i + 1) l) as [e|[vals|]] eqn:Hb; [inv_ok H| |].
    + apply (IH (i + 1) (res ++ [vals])%list out); [| |exact H].
      * intros j l0 v Hj. apply Hbody. lia.
      * apply Forall_app. split; [exact Hres|].
        constructor; [|constructor]. apply (Hbody (i + 1) l); [lia | exact Hb].
    + apply (IH (i + 1) res out); [|exact Hres|exact H].
      intros j l0 v Hj. apply Hbody. lia.
Qed.

(** The loop only appends to [res]. *)
Lemma for_rows_app {Row : Type} (body : Z -> Row -> result (option pydict))
    (rows : list Row) :
  forall i res out,
    for_rows body i rows res = inr out -> exists tail, out = (res ++ tail)%list.
Proof.
  induction rows as [|l rows IH]; intros i res out H; cbn in H.
  - inv_ok H. subst. exists []. rewrite app_nil_r. reflexivity.
  - destruct (body (i + 1) l) as [e|[vals|]]; [inv_ok H| |].
    + apply IH in H as [tail ->]. exists (vals :: tail).
      rewrite <- app_assoc. reflexivity.
    + apply IH in H. exact H.
Qed.

(** When the first loop rejects the first line, nothing is created. *)
Lemma first_line_rejected (l : pydict) (rest : list pydict) (post : bool) (e : exn) :
  check_line l = inl e -> create_moves_from_pivot (l :: rest) post = ([], inl e).
Proof.
  intros H. unfold create_moves_from_pivot. rewrite tbind_lift.
  cbn [check_lines]. rewrite H. reflexivity.
Qed.

Lemma truthy_PInt (i : Z) : i <> 0 -> truthy (PInt i) = true.
Proof. intros H. cbn. apply negb_true_iff, Z.eqb_neq. exact H. Qed.

Lemma update_pivot_cons_inv (w : overrides) (l : pydict) (pivot out : list pydict) :
  update_pivot w (l :: pivot) = inr out ->
  exists l' rest, out = l' :: rest /\ update_line w l = inr l'.
Proof.
  cbn. intros H. apply bind_inr in H as (l' & Hl & H).
  apply bind_inr in H as (rest & _ & H). inv_ok H. eauto.
Qed.

(** X17: a Payfit file cannot be imported without a forced journal and a
    forced date.  The decoder gives no line a ["journal"] or a ["date"],
    so when the wizard forces no journal, or no date, the first loop
    raises on the first line of any file that gives one: the [KeyError]
    of ["journal"], or a [UserError] that cites the number of that line;
    nothing is created. *)
Theorem payfit_import_needs_forced_journal_and_date (w : overrides)
    (rows : list (list pyval)) (pivot pivot' : list pydict) (post : bool) :
  payfit2pivot rows = inr pivot ->
  pivot <> [] ->
  force_journal_id w = None \/ truthy (force_move_date w) = false ->
  update_pivot w pivot = inr pivot' ->
  exists e,
    create_moves_from_pivot pivot' post = ([], inl e) /\
    (e = KeyError "journal" \/
     exists msg n, e = UserError msg /\ cited_line msg = Some n /\ 2 <= n).
Proof.
  intros Hdec Hne Hforce Hupd. unfold payfit2pivot in Hdec.
  assert (Hall : Forall (fun vals : pydict =>
                           exists i, 2 <= i /\ vals !! "line" = Some (PInt i) /\
                                     vals !! "journal" = None /\ vals !! "date" = None /\
                                     is_Some (vals !! "account")) pivot).
  { eapply (for_rows_emitted_at payfit_row); [|constructor|exact Hdec].
    intros j l vals Hj Hrow.
    apply payfit_row_keys in Hrow as ([Hl Hi] & Hjrn & Hdate & _ & Hacc).
    exists j. split; [lia|]. auto. }
  destruct pivot as [|vals tail]; [congruence|].
  inversion Hall as [|? ? (i & Hi & Hline & Hjrn & Hdate & [acc Hacc]) _]; subst.
  apply update_pivot_cons_inv in Hupd as (l' & rest & -> & Hl).
  apply update_line_lookups in Hl
    as (c & d & _ & _ & Hc & Hd & Hdate' & _ & _ & Hj & Hframe).
  assert (Hline' : l' !! "line" = Some (PInt i)).
  { rewrite Hframe; [exact Hline|]. cbn. intros [?|[?|[?|[?|[?|[?|[]]]]]]]; discriminate. }
  assert (Hacc' : l' !! "account" = Some acc).
  { rewrite Hframe; [exact Hacc|]. cbn. intros [?|[?|[?|[?|[?|[?|[]]]]]]]; discriminate. }
  assert (Hno : line_no l' = i).
  { unfold line_no, get. rewrite Hline'. reflexivity. }
  destruct (check_line l') as [e|l''] eqn:Hchk.
  - exists e. split; [apply first_line_rejected; exact Hchk|].
    apply check_line_inl in Hchk as Hkind.
    destruct Hkind as [[_ Habs]|[(k & Hk & -> & Hnone)|(msg & -> & Hcite & _)]].
    + unfold get in Habs. rewrite Hline' in Habs.
      change (truthy (PInt i) && true = false) in Habs.
      rewrite truthy_PInt in Habs by lia. discriminate Habs.
    + cbn in Hk. destruct Hk as [<-|[<-|[<-|[<-|[]]]]]; try congruence.
      left. reflexivity.
    + right. exists msg, i. rewrite Hcite, Hno. auto.
  - assert (Hacc'' : acceptable l') by (apply check_line_inr_iff; eauto).
    destruct Hacc'' as (_ & _ & _ & _ & (jrn & Hjrn' & _) & _ & Hd' & _).
    destruct Hforce as [Hfj|Hfd].
    + rewrite Hfj, Hjrn in Hj. congruence.
    + unfold forced_or in Hdate'. rewrite Hfd, Hdate in Hdate'. cbn in Hdate'.
      unfold get in Hd'. rewrite Hdate' in Hd'. discriminate Hd'.
Qed.

(** ** The moves the second loop builds *)

Lemma extends_current_true (st : scan_state) (l : pydict) :
  extends_current st l = inr true ->
  same_key st l = true /\
  float_is_zero (cur_balance st) (precision_rounding prec) = false.
Proof.
  unfold extends_current, same_key. intros H.
  destruct (py_eq (cur_ref st) _); cbn in H; [|inv_ok H].
  apply bind_inr in H as (j & Hj & H). apply getitem_inr in Hj.
  rewrite (get_lookup _ _ _ Hj).
  destruct (py_eq (cur_journal_id st) j); cbn in H; [|inv_ok H].
  apply bind_inr in H as (d & Hd & H). apply getitem_inr in Hd.
  rewrite (get_lookup _ _ _ Hd).
  destruct (py_eq (cur_date st) d); cbn in H; [|inv_ok H].
  inv_ok H. split; [reflexivity|]. apply negb_true_iff. exact H.
Qed.

Lemma scan_step_keeps_inv (st st' : scan_state) (done : list pydict) (l : pydict) :
  scan_inv st done -> scan_step st l = inr st' -> scan_inv st' (done ++ [l]).
Proof.
  intros (groups & open & -> & Hg & Hopen) H.
  apply scan_step_inv in H as (ext & a & ml & Hext & _ & Hml & _ & Hcase).
  destruct ext.
  - destruct Hcase as (m & Hm & Hmoves & Hcur & Href & Hjid & Hdate).
    apply extends_current_true in Hext as [Hkey _].
    rewrite Hm in Hopen.
    destruct Hopen as ((l0 & tl & -> & Hj & Hr & Hd & Hl & Hk) & l0' & Hhd & Hcr & Hcj & Hcd).
    cbn in Hhd. injection Hhd as <-.
    exists groups, (l0 :: tl ++ [l])%list.
    split; [rewrite <- app_assoc; reflexivity|].
    split; [rewrite Hmoves; exact Hg|].
    rewrite Hcur. split.
    + exists l0, (tl ++ [l])%list. cbn.
      split; [reflexivity|]. split; [exact Hj|]. split; [exact Hr|]. split; [exact Hd|].
      split.
      * change (l0 :: tl ++ [l])%list with ((l0 :: tl) ++ [l])%list.
        apply Forall2_app; [exact Hl|]. constructor; [exact Hml | constructor].
      * apply Forall_app. split; [exact Hk|]. constructor; [|constructor].
        unfold same_key in Hkey. unfold key_eq.
        rewrite <- Hcr, <- Hcj, <- Hcd. exact Hkey.
    + exists l0. cbn. rewrite Href, Hjid, Hdate. auto.
  - destruct Hcase as (m0 & Hm0 & Hcur & Hmoves & _ & _ & Href & Hjid & Hdate).
    apply prepare_move_inv in Hm0 as (Hj & Hr & Hd & Hnil).
    apply getitem_inr in Hjid, Hdate.
    exists (groups ++ match cur_move st with Some _ => [open] | None => [] end)%list, [l].
    split; [|split].
    + destruct (cur_move st); [|subst open]; rewrite ?concat_app; cbn;
        rewrite ?app_nil_r; reflexivity.
    + rewrite Hmoves. apply Forall2_app; [exact Hg|].
      destruct (cur_move st) as [m|]; [|constructor].
      constructor; [|constructor]. apply Hopen.
    + rewrite Hcur. split.
      * exists l, []. cbn. rewrite Hnil. cbn.
        split; [reflexivity|]. split; [exact Hj|]. split; [exact Hr|]. split; [exact Hd|].
        split; [|constructor]. constructor; [exact Hml | constructor].
      * exists l. cbn. unfold get. rewrite Hjid, Hdate. auto.
Qed.

Lemma scan_keeps_inv (pivot : list pydict) :
  forall st st' done,
    scan_inv st done -> scan st pivot = inr st' -> scan_inv st' (done ++ pivot).
Proof.
  induction pivot as [|l pivot IH]; intros st st' done Hinv H; cbn in H.
  - inv_ok H. subst st'. rewrite app_nil_r. exact Hinv.
  - apply bind_inr in H as (st1 & H1 & H).
    change (l :: pivot) with ([l] ++ pivot)%list. rewrite app_assoc.
    apply (IH st1); [|exact H].
    eapply scan_step_keeps_inv; [exact Hinv | exact H1].
Qed.

(** X18: the moves are the lines, cut into consecutive runs.  When the
    assembler goes through, the lines that left the first loop split, in
    order and with none lost or repeated, into one run per move: each
    move takes its journal, reference and date from the first line of its
    run, holds the lines of the run in order, and every line of a run has
    the key of its first line.  The sum of [credit - debit] over all the
    lines together is zero within the rounding. *)
Theorem moves_are_consecutive_runs (pivot : list pydict) (ms : list move) :
  assemble pivot = inr ms ->
  exists checked groups,
    Forall2 (fun l l' => check_line l = inr l') pivot checked /\
    concat groups = checked /\
    Forall2 group_of groups ms /\
    float_is_zero (running_total 0 checked) (precision_rounding prec) = true.
Proof.
  unfold assemble. intros H.
  apply bind_inr in H as (checked & Hc & H).
  apply bind_inr in H as (st & Hs & H).
  assert (Hinit : scan_inv scan_init []).
  { exists [], []. cbn. split; [reflexivity|]. split; [constructor | reflexivity]. }
  pose proof (scan_keeps_inv checked scan_init st [] Hinit Hs)
    as (groups & open & Hdone & Hg & Hopen).
  cbn [app] in Hdone.
  pose proof (scan_balance _ _ _ Hs) as Hbal. cbn in Hbal.
  unfold finish in H.
  destruct (float_is_zero (cur_balance st) (precision_rounding prec)) eqn:Hz;
    cbn in H; [|inv_ok H].
  inv_ok H. subst ms.
  exists checked, (groups ++ match cur_move st with Some _ => [open] | None => [] end)%list.
  split; [apply check_lines_Forall2; exact Hc|].
  split; [|split].
  - rewrite Hdone.
    destruct (cur_move st); [|subst open]; rewrite ?concat_app; cbn;
      rewrite ?app_nil_r; reflexivity.
  - destruct (cur_move st) as [m|].
    + apply Forall2_app; [exact Hg|]. constructor; [apply Hopen | constructor].
    + rewrite app_nil_r. exact Hg.
  - rewrite <- Hbal. exact Hz.
Qed.

(** ** What the second loop can raise *)

Lemma has_key_truthy (l : pydict) (k : string) :
  truthy (get l k) = true -> has_key l k = true.
Proof. unfold get, has_key. destruct (l !! k); [reflexivity | discriminate]. Qed.

(** What the second loop may rely on, after the first. *)
Lemma check_line_checked (l l' : pydict) :
  check_line l = inr l' -> validated l' = true /\ truthy (get l' "date") = true.
Proof.
  intros H. apply check_line_inv in H
    as (aid & jid & Hacc & _ & _ & Ha & Hj & _ & _ & Hf).
  destruct Hacc as (Hline & _ & _ & _ & _ & Hn & Hd & Hc & Hdb).
  assert (Hget : forall k, ~ In k id_keys -> get l' k = get l k).
  { intros k Hk. unfold get. rewrite Hf by exact Hk. reflexivity. }
  apply andb_true_iff in Hline as [_ Hint].
  rewrite <- (Hget "name") in Hn by (apply not_id_key; reflexivity).
  rewrite <- (Hget "date") in Hd by (apply not_id_key; reflexivity).
  rewrite <- (Hget "credit") in Hc by (apply not_id_key; reflexivity).
  rewrite <- (Hget "debit") in Hdb by (apply not_id_key; reflexivity).
  rewrite <- (Hget "line") in Hint by (apply not_id_key; reflexivity).
  split; [|exact Hd].
  unfold validated.
  rewrite Hc, Hdb, (has_key_truthy _ _ Hn), (has_key_truthy _ _ Hd), Hint.
  unfold has_key. rewrite Ha, Hj. reflexivity.
Qed.

Lemma py_eq_False_falsy (v : pyval) : py_eq (PBool false) v = true -> truthy v = false.
Proof.
  destruct v; try (cbn; discriminate).
  - destruct b; [discriminate | reflexivity].
  - destruct z; [reflexivity | discriminate | discriminate].
  - change (PrimFloat.eqb f 0 = true -> negb (PrimFloat.eqb f 0) = false).
    intros ->. reflexivity.
Qed.

Lemma isinstance_int_line (l : pydict) :
  isinstance_int (get l "line") = true ->
  exists v, getitem l "line" = inr v /\ int_value v = inr (line_no l).
Proof.
  unfold getitem, line_no, get. destruct (l !! "line") as [v|]; [|discriminate].
  cbn. intros H. exists v. split; [reflexivity|].
  destruct v; try discriminate H; reflexivity.
Qed.

(** A turn of the second loop on a checked line raises for an unbalanced
    move or for a move of one line, and for nothing else. *)
Lemma scan_step_inl (st : scan_state) (l : pydict) (e : exn) :
  validated l = true ->
  truthy (get l "date") = true ->
  (cur_move st = None -> cur_date st = PBool false) ->
  scan_step st l = inl e ->
  (e = UserError (NotBalancedOnLine (line_no l - 1) (cur_balance st)) /\
   moves st <> [] /\
   float_is_zero (cur_balance st) (precision_rounding prec) = false) \/
  (e = AssertionError "move should have more than 1 line" /\
   exists m, cur_move st = Some m /\ (length (line_ids m) <= 1)%nat).
Proof.
  intros Hv Hd Hnone H.
  destruct (validated_prepare_move_line l Hv) as [ml Hml].
  destruct (validated_prepare_move l Hv) as [m0 Hm0].
  pose proof (validated_line_amount l Hv) as Ham.
  pose proof (validated_keys l Hv) as (_ & _ & Hkd & Hkj & _ & Hint).
  apply has_key_getitem in Hkd, Hkj.
  unfold scan_step in H. rewrite (extends_current_spec st l Hv) in H.
  cbn [bind] in H. rewrite Hml, Hm0, Ham, Hkd, Hkj in H.
  destruct (same_key st l && _) eqn:Hext.
  - destruct (cur_move st) as [m|] eqn:Hm; [cbn in H; inv_ok H|].
    exfalso. apply andb_true_iff in Hext as [Hk _].
    unfold same_key in Hk. apply andb_true_iff in Hk as [_ Hk].
    rewrite (Hnone eq_refl) in Hk. apply py_eq_False_falsy in Hk. congruence.
  - destruct (moves st) as [|m1 ms] eqn:Hmoves.
    + cbn [bind] in H.
      destruct (cur_move st) as [m|] eqn:Hm; [|cbn in H; inv_ok H].
      destruct (1 <? Z.of_nat (length (line_ids m))) eqn:Hlen; cbn in H; inv_ok H.
      right. split; [auto|]. exists m. split; [reflexivity|].
      apply Z.ltb_ge in Hlen. lia.
    + destruct (float_is_zero (cur_balance st) (precision_rounding prec)) eqn:Hz.
      * cbn [negb bind] in H.
        destruct (cur_move st) as [m|] eqn:Hm; [|cbn in H; inv_ok H].
        destruct (1 <? Z.of_nat (length (line_ids m))) eqn:Hlen; cbn in H; inv_ok H.
        right. split; [auto|]. exists m. split; [reflexivity|].
        apply Z.ltb_ge in Hlen. lia.
      * cbn [negb] in H.
        destruct (isinstance_int_line l Hint) as (v & Hgl & Hiv).
        rewrite Hgl in H. cbn [bind] in H. rewrite Hiv in H. cbn in H.
        inv_ok H. left. auto.
Qed.

Lemma scan_inl (pivot : list pydict) :
  forall st e,
    Forall (fun l => validated l = true /\ truthy (get l "date") = true) pivot ->
    (cur_move st = None -> cur_date st = PBool false) ->
    scan st pivot = inl e ->
    exists pre l rest st1,
      pivot = (pre ++ l :: rest)%list /\
      scan st pre = inr st1 /\
      scan_step st1 l = inl e /\
      validated l = true /\ truthy (get l "date") = true /\
      (cur_move st1 = None -> cur_date st1 = PBool false).
Proof.
  induction pivot as [|l pivot IH]; intros st e Hall Hnone H; cbn in H; [inv_ok H|].
  inversion Hall as [|? ? [Hv Hd] Hall']; subst.
  destruct (scan_step st l) as [e1|st1] eqn:Hstep; cbn [bind] in H.
  - inv_ok H. subst e1. exists [], l, pivot, st. cbn. auto 10.
  - assert (Hsome : cur_move st1 = None -> cur_date st1 = PBool false).
    { apply scan_step_inv in Hstep as (ext & a & ml & _ & _ & _ & _ & Hcase).
      destruct ext.
      - destruct Hcase as (m & _ & _ & -> & _). discriminate.
      - destruct Hcase as (m0 & _ & -> & _). discriminate. }
    destruct (IH st1 e Hall' Hsome H) as (pre & l0 & rest & st2 & -> & Hpre & Hrest).
    exists (l :: pre), l0, rest, st2. cbn. rewrite Hstep. cbn. auto.
Qed.

(** X19: on lines that passed the first loop the second loop raises for
    two reasons only, never a [KeyError] or a [TypeError].  It raises at
    a line that starts a new move: the [UserError] "not balanced", citing
    the number of that line minus one and the sum of [credit - debit]
    over all the lines read before it, when a move was sealed earlier and
    that sum is not zero; or the failed assertion, when the open move has
    a single line. *)
Theorem second_loop_raises_for_balance_or_single_line
    (pivot checked : list pydict) (e : exn) :
  check_lines pivot = inr checked ->
  scan scan_init checked = inl e ->
  exists pre l rest st,
    checked = (pre ++ l :: rest)%list /\
    scan scan_init pre = inr st /\
    ((e = UserError (NotBalancedOnLine (line_no l - 1) (running_total 0 pre)) /\
      moves st <> [] /\
      float_is_zero (running_total 0 pre) (precision_rounding prec) = false) \/
     (e = AssertionError "move should have more than 1 line" /\
      exists m, cur_move st = Some m /\ length (line_ids m) = 1%nat)).
Proof.
  intros Hc Hs.
  assert (Hall : Forall (fun l => validated l = true /\ truthy (get l "date") = true)
                   checked).
  { clear Hs. apply check_lines_Forall2 in Hc.
    induction Hc as [|l l' pivot checked Hl _ IH]; [constructor|].
    constructor; [|exact IH]. apply check_line_checked in Hl. exact Hl. }
  destruct (scan_inl checked scan_init e Hall (fun _ => eq_refl) Hs)
    as (pre & l & rest & st & Hsplit & Hpre & Hstep & Hv & Hd & Hnone).
  exists pre, l, rest, st. split; [exact Hsplit|]. split; [exact Hpre|].
  pose proof (scan_balance _ _ _ Hpre) as Hbal. cbn in Hbal.
  assert (Hinit : scan_inv scan_init []).
  { exists [], []. cbn. split; [reflexivity|]. split; [constructor | reflexivity]. }
  pose proof (scan_keeps_inv pre scan_init st [] Hinit Hpre)
    as (groups & open & _ & _ & Hopen).
  destruct (scan_step_inl st l e Hv Hd Hnone Hstep) as [(-> & Hm & Hz)|(-> & m & Hm & Hlen)].
  - left. rewrite <- Hbal. auto.
  - right. split; [reflexivity|]. exists m. split; [exact Hm|].
    rewrite Hm in Hopen. destruct Hopen as ((l0 & tl & -> & _ & _ & _ & Hl2 & _) & _).
    destruct (line_ids m) as [|ml [|ml2 mls]]; [inversion Hl2|reflexivity|].
    cbn in Hlen. lia.
Qed.

(** ** The calls to [create] and [post] *)

Lemma create_all_calls (ms : list move) :
  forall rmoves,
    (exists ids,
       Forall2 (fun m id => amo_create m = inr id) ms ids /\
       create_all ms rmoves = (map EvCreate ms, inr (rmoves ++ ids)%list)) \/
    (exists done m rest ids e,
       ms = (done ++ m :: rest)%list /\
       Forall2 (fun m id => amo_create m = inr id) done ids /\
       amo_create m = inl e /\
       create_all ms rmoves = (map EvCreate (done ++ [m]), inl e)).
Proof.
  induction ms as [|m ms IH]; intros rmoves.
  - left. exists []. split; [constructor|]. cbn. rewrite app_nil_r. reflexivity.
  - cbn [create_all]. unfold call_create, tbind.
    destruct (amo_create m) as [e|id] eqn:Hm.
    + right. exists [], m, ms, [], e. cbn. auto using Forall2_nil.
    + destruct (IH (rmoves ++ [id])%list)
        as [(ids & Hids & ->)|(done & m' & rest & ids & e & -> & Hids & Hm' & ->)].
      * left. exists (id :: ids). split; [constructor; assumption|].
        cbn. rewrite <- app_assoc. reflexivity.
      * right. exists (m :: done), m', rest, (id :: ids), e. cbn.
        split; [reflexivity|]. split; [constructor; assumption|]. auto.
Qed.

(** X20: the calls that create the moves.  Once the pivot is assembled
    into moves, [create] is called on them one by one in their order and
    stops at the first call that raises, whose exception the function
    raises; [post] is called only with [post] set, once, after every move
    has been created, on the ids of all of them; and the function returns
    these ids. *)
Theorem creates_in_order_then_posts_once (pivot : list pydict) (post : bool)
    (ms : list move) :
  assemble pivot = inr ms ->
  (exists ids,
     Forall2 (fun m id => amo_create m = inr id) ms ids /\
     create_moves_from_pivot pivot post =
       ((map EvCreate ms ++ if post then [EvPost ids] else [])%list,
        if post then match amo_post ids with
                     | inl e => inl e
                     | inr _ => inr ids
                     end
        else inr ids)) \/
  (exists done m rest ids e,
     ms = (done ++ m :: rest)%list /\
     Forall2 (fun m id => amo_create m = inr id) done ids /\
     amo_create m = inl e /\
     create_moves_from_pivot pivot post = (map EvCreate (done ++ [m]), inl e)).
Proof.
  unfold assemble. intros H.
  apply bind_inr in H as (checked & Hc & H).
  apply bind_inr in H as (st & Hs & H).
  unfold create_moves_from_pivot.
  rewrite tbind_lift, Hc, tbind_lift, Hs, tbind_lift, H.
  destruct (create_all_calls ms [])
    as [(ids & Hids & Hcall)|(done & m & rest & ids & e & Hms & Hids & Hm & Hcall)].
  - left. exists ids. split; [exact Hids|]. rewrite Hcall. cbn [app tbind].
    destruct post; cbn.
    + unfold call_post. destruct (amo_post ids) as [e|[]]; cbn; rewrite ?app_nil_r;
        reflexivity.
    + rewrite !app_nil_r. reflexivity.
  - right. exists done, m, rest, ids, e. rewrite Hcall. cbn. auto.
Qed.

(** ** From a checked line to the values of a move line *)

(** X21: what a created move line holds.  For a line that passes the
    first loop, [_prepare_move_line] does not raise and gives the credit,
    the debit, the label and the reconcile mark of the pivot line as they
    came, the id of the account matched from its ["account"], and the ids
    of the partner and of the analytic account matched from its
    ["partner"] and ["analytic"] when these are given. *)
Theorem move_line_of_checked_line (l l' : pydict) :
  check_line l = inr l' ->
  exists ml,
    _prepare_move_line l' = inr ml /\
    ml_credit ml = get l "credit" /\
    ml_debit ml = get l "debit" /\
    ml_name ml = get l "name" /\
    ml_import_reconcile ml = get l "reconcile_ref" /\
    (exists acc aid, l !! "account" = Some acc /\ match_account acc = Some aid /\
                     ml_account_id ml = PInt aid) /\
    (if truthy (get l "partner")
     then exists pid, match_partner (get l "partner") = Some pid /\
                      ml_partner_id ml = PInt pid
     else ml_partner_id ml = get l "partner_id") /\
    (if truthy (get l "analytic")
     then exists nid, match_analytic_account (get l "analytic") = Some nid /\
                      ml_analytic_account_id ml = PInt nid
     else ml_analytic_account_id ml = get l "analytic_account_id").
Proof.
  intros H. apply check_line_inv in H
    as (aid & jid & Hacc & (acc & Hac & Haid) & _ & Ha & _ & Hp & Hn & Hf).
  destruct Hacc as (_ & _ & _ & _ & _ & Hname & _ & Hc & Hd).
  assert (Hget : forall k, ~ In k id_keys -> get l' k = get l k).
  { intros k Hk. unfold get. rewrite Hf by exact Hk. reflexivity. }
  assert (Hkey : forall k, ~ In k id_keys -> has_key l k = true ->
                           getitem l' k = inr (get l k)).
  { intros k Hk Hhas. unfold getitem, get. rewrite Hf by exact Hk.
    unfold has_key in Hhas. destruct (l !! k); [reflexivity | discriminate]. }
  assert (Hkc : has_key l "credit" = true).
  { unfold has_key. apply isinstance_float_getitem in Hc as [c ->]. reflexivity. }
  assert (Hkd : has_key l "debit" = true).
  { unfold has_key. apply isinstance_float_getitem in Hd as [d ->]. reflexivity. }
  apply has_key_truthy in Hname.
  unfold _prepare_move_line.
  rewrite (Hkey "credit"), (Hkey "debit"), (Hkey "name")
    by first [apply not_id_key; reflexivity | assumption].
  unfold getitem at 1. rewrite Ha. cbn [bind].
  eexists. split; [reflexivity|]. cbn.
  split; [reflexivity|]. split; [reflexivity|]. split; [reflexivity|].
  split; [apply Hget, not_id_key; reflexivity|].
  split; [eauto|]. split.
  - destruct (truthy (get l "partner")).
    + destruct Hp as (pid & Hpid & Hl'). exists pid. split; [exact Hpid|].
      unfold get. rewrite Hl'. reflexivity.
    + unfold get. rewrite Hp. reflexivity.
  - destruct (truthy (get l "analytic")).
    + destruct Hn as (nid & Hnid & Hl'). exists nid. split; [exact Hnid|].
      unfold get. rewrite Hl'. reflexivity.
    + unfold get. rewrite Hn. reflexivity.
Qed.

(** ** The groups of the matcher *)

Lemma assoc_torec_add (k : string) (torec : list (string * list aml)) (line : aml) :
  assoc k (torec_add torec line) =
    if String.eqb (import_reconcile line) k
    then Some (default [] (assoc k torec) ++ [line])%list
    else assoc k torec.
Proof.
  induction torec as [|[k' ls] rest IH]; cbn.
  - destruct (String.eqb (import_reconcile line) k); reflexivity.
  - destruct (String.eqb k' (import_reconcile line)) eqn:E; cbn.
    + apply String.eqb_eq in E. subst k'.
      destruct (String.eqb (import_reconcile line) k); reflexivity.
    + rewrite IH. destruct (String.eqb k' k) eqn:E'; [|reflexivity].
      apply String.eqb_eq in E'. subst k'. rewrite String.eqb_sym, E. reflexivity.
Qed.

Lemma in_keys_torec_add (k : string) (torec : list (string * list aml)) (line : aml) :
  In k (map fst (torec_add torec line)) ->
  In k (map fst torec) \/ k = import_reconcile line.
Proof.
  induction torec as [|[k' ls] rest IH]; cbn.
  - intros [<-|[]]. auto.
  - destruct (String.eqb k' (import_reconcile line)); cbn.
    + intros [<-|H]; auto.
    + intros [<-|H]; [auto|]. destruct (IH H); auto.
Qed.

Lemma nodup_keys_torec_add (torec : list (string * list aml)) (line : aml) :
  List.NoDup (map fst torec) -> List.NoDup (map fst (torec_add torec line)).
Proof.
  induction torec as [|[k' ls] rest IH]; cbn; intros H.
  - constructor; [intros [] | constructor].
  - inversion H as [|? ? Hnin Hnd]; subst.
    destruct (String.eqb k' (import_reconcile line)) eqn:E; cbn.
    + constructor; assumption.
    + constructor; [|apply IH; exact Hnd].
      intros Hin. apply in_keys_torec_add in Hin as [Hin| ->]; [auto|].
      rewrite String.eqb_refl in E. discriminate.
Qed.

Lemma marked_app (k : string) (seen : list aml) (line : aml) :
  marked k (seen ++ [line]) =
    (marked k seen ++ if String.eqb (import_reconcile line) k then [line] else [])%list.
Proof. unfold marked. rewrite List.filter_app. reflexivity. Qed.

Lemma torec_add_keeps (seen : list aml) (torec : list (string * list aml)) (line : aml) :
  torec_of seen torec -> torec_of (seen ++ [line]) (torec_add torec line).
Proof.
  intros [Hnd Has]. split; [apply nodup_keys_torec_add; exact Hnd|].
  intros k. rewrite assoc_torec_add, marked_app, Has.
  destruct (String.eqb (import_reconcile line) k).
  - destruct (marked k seen); reflexivity.
  - rewrite app_nil_r. reflexivity.
Qed.

Lemma group_lines_torec_of (lines : list aml) : torec_of lines (group_lines lines).
Proof.
  unfold group_lines.
  assert (H : forall seen torec,
            torec_of seen torec ->
            torec_of (seen ++ lines) (fold_left torec_add lines torec)).
  { induction lines as [|line lines IH]; intros seen torec Hinv; cbn.
    - rewrite app_nil_r. exact Hinv.
    - change (line :: lines) with ([line] ++ lines)%list. rewrite app_assoc.
      apply IH. apply torec_add_keeps. exact Hinv. }
  apply (H [] []). split; [constructor | reflexivity].
Qed.

Lemma assoc_In (k : string) (ls : list aml) (torec : list (string * list aml)) :
  assoc k torec = Some ls -> In (k, ls) torec.
Proof.
  induction torec as [|[k' ls'] rest IH]; cbn; [discriminate|].
  destruct (String.eqb k' k) eqn:E.
  - intros [= ->]. apply String.eqb_eq in E. subst. left. reflexivity.
  - intros H. right. apply IH. exact H.
Qed.

Lemma In_assoc (k : string) (ls : list aml) (torec : list (string * list aml)) :
  List.NoDup (map fst torec) -> In (k, ls) torec -> assoc k torec = Some ls.
Proof.
  induction torec as [|[k' ls'] rest IH]; cbn; intros Hnd Hin; [destruct Hin|].
  inversion Hnd as [|? ? Hnin Hnd']; subst.
  destruct Hin as [[= -> ->]|Hin].
  - rewrite String.eqb_refl. reflexivity.
  - destruct (String.eqb k' k) eqn:E; [|apply IH; assumption].
    apply String.eqb_eq in E. subst k'. destruct Hnin.
    apply (in_map fst) in Hin. exact Hin.
Qed.

Lemma in_group_lines (lines : list aml) (k : string) (ls : list aml) :
  In (k, ls) (group_lines lines) <-> ls = marked k lines /\ ls <> [].
Proof.
  destruct (group_lines_torec_of lines) as [Hnd Has]. split.
  - intros Hin. apply (In_assoc _ _ _ Hnd) in Hin. rewrite Has in Hin.
    destruct (marked k lines); [discriminate|]. injection Hin as <-.
    split; [reflexivity | discriminate].
  - intros [-> Hne]. apply assoc_In. rewrite Has.
    destruct (marked k lines); [congruence | reflexivity].
Qed.

(** X22: the matcher groups the lines by mark, and loses none.  No mark
    has two groups; the group of a mark holds exactly the lines that
    carry it, in the order of the search; so every line is in the group
    of its mark and in no other. *)
Theorem groups_partition_lines_by_mark (lines : list aml) :
  List.NoDup (map fst (group_lines lines)) /\
  (forall k ls, In (k, ls) (group_lines lines) <-> ls = marked k lines /\ ls <> []) /\
  (forall line, In line lines ->
     exists ls, In (import_reconcile line, ls) (group_lines lines) /\ In line ls).
Proof.
  split; [apply group_lines_torec_of|]. split; [apply in_group_lines|].
  intros line Hin.
  assert (Hm : In line (marked (import_reconcile line) lines)).
  { unfold marked. apply List.filter_In. split; [exact Hin | apply String.eqb_refl]. }
  exists (marked (import_reconcile line) lines). split; [|exact Hm].
  apply in_group_lines. split; [reflexivity|]. intros Hnil. rewrite Hnil in Hm.
  destruct Hm.
Qed.

(** ** What the matcher does with the groups *)

Lemma add_account_mono (accounts : list account) (a b : account) :
  existsb (fun c => acc_id c =? acc_id b) accounts = true ->
  existsb (fun c => acc_id c =? acc_id b) (add_account accounts a) = true.
Proof.
  intros H. unfold add_account.
  destruct (existsb (fun c => acc_id c =? acc_id a) accounts); [exact H|].
  rewrite existsb_app, H. reflexivity.
Qed.

Lemma add_account_has (accounts : list account) (a : account) :
  existsb (fun c => acc_id c =? acc_id a) (add_account accounts a) = true.
Proof.
  unfold add_account.
  destruct (existsb (fun b => acc_id b =? acc_id a) accounts) eqn:E; [exact E|].
  rewrite existsb_app. cbn. rewrite Z.eqb_refl. apply orb_true_r.
Qed.

Lemma add_account_from (accounts : list account) (a b : account) :
  In b (add_account accounts a) -> In b accounts \/ b = a.
Proof.
  unfold add_account. destruct (existsb _ accounts); [auto|].
  intros H. apply in_app_or in H as [H|[<-|[]]]; auto.
Qed.

Lemma group_accounts_covers (ls : list aml) :
  (forall l, In l ls ->
     existsb (fun c => acc_id c =? acc_id (account_id l)) (group_accounts ls) = true) /\
  (forall a, In a (group_accounts ls) -> In a (map account_id ls)).
Proof.
  unfold group_accounts.
  assert (H : forall accounts,
            let r := fold_left (fun accounts line => add_account accounts (account_id line))
                       ls accounts in
            (forall b, existsb (fun c => acc_id c =? acc_id b) accounts = true ->
                       existsb (fun c => acc_id c =? acc_id b) r = true) /\
            (forall l, In l ls ->
                       existsb (fun c => acc_id c =? acc_id (account_id l)) r = true) /\
            (forall a, In a r -> In a accounts \/ In a (map account_id ls))).
  { induction ls as [|line ls IH]; intros accounts; cbn.
    - split; [auto|]. split; [intros l []|auto].
    - destruct (IH (add_account accounts (account_id line))) as (Hm & Hc & Hf).
      split; [|split].
      + intros b Hb. apply Hm, add_account_mono. exact Hb.
      + intros l [<-|Hin]; [apply Hm, add_account_has | apply Hc; exact Hin].
      + intros a Ha. destruct (Hf a Ha) as [Hin|Hin]; [|auto].
        apply add_account_from in Hin as [Hin| ->]; auto. }
  destruct (H []) as (_ & Hc & Hf). split; [exact Hc|].
  intros a Ha. destruct (Hf a Ha) as [[]|Hin]. exact Hin.
Qed.

Lemma partner_key_refl (l : aml) : py_eq (partner_key l) (partner_key l) = true.
Proof.
  unfold partner_key, py_or. destruct (partner_id l) as [id|]; [|reflexivity].
  destruct (truthy (PInt id)); cbn; [apply Z.eqb_refl | reflexivity].
Qed.

Lemma add_partner_mono (partners : list pyval) (p q : pyval) :
  existsb (py_eq q) partners = true -> existsb (py_eq q) (add_partner partners p) = true.
Proof.
  intros H. unfold add_partner.
  destruct (existsb (py_eq p) partners); [exact H|].
  rewrite existsb_app, H. reflexivity.
Qed.

Lemma group_partners_covers (ls : list aml) (l : aml) :
  In l ls -> existsb (py_eq (partner_key l)) (group_partners ls) = true.
Proof.
  unfold group_partners.
  assert (H : forall partners,
            let r := fold_left (fun partners line => add_partner partners (partner_key line))
                       ls partners in
            (forall q, existsb (py_eq q) partners = true -> existsb (py_eq q) r = true) /\
            (forall l, In l ls -> existsb (py_eq (partner_key l)) r = true)).
  { induction ls as [|line ls IH]; intros partners; cbn.
    - split; [auto | intros l0 []].
    - destruct (IH (add_partner partners (partner_key line))) as (Hm & Hc).
      split.
      + intros q Hq. apply Hm, add_partner_mono. exact Hq.
      + intros l0 [<-|Hin]; [|apply Hc; exact Hin].
        apply Hm. unfold add_partner.
        destruct (existsb (py_eq (partner_key line)) partners) eqn:E; [exact E|].
        rewrite existsb_app. cbn. rewrite partner_key_refl. apply orb_true_r. }
  intros Hin. apply (H []). exact Hin.
Qed.

Lemma py_join_strs {A : Type} (sep : string) (f : A -> string) (items : list A) :
  exists s, py_join sep (map (fun a => PStr (f a)) items) = inr s.
Proof.
  induction items as [|a items [s IH]]; cbn; [eauto|].
  rewrite IH. cbn. eauto.
Qed.

(** The three ways a turn of the loop over the groups ends. *)
Lemma reconcile_group_cases (rec_ref : string) (ls : list aml) :
  (exists why, reconcile_group rec_ref ls = ([EvWarning rec_ref why], inr tt) /\
               justified ls why) \/
  (reconcile_group rec_ref ls = ([], inl TypeError) /\
   (1 < length (group_partners ls))%nat) \/
  (reconcile_group rec_ref ls = ([EvReconcile ls], aml_reconcile ls) /\
   reconcilable ls).
Proof.
  unfold reconcile_group.
  destruct (Z.of_nat (length ls) <? 2) eqn:Hlen.
  { left. exists OnlyOneLine. split; [reflexivity|]. apply Z.ltb_lt in Hlen. cbn. lia. }
  apply Z.ltb_ge in Hlen.
  assert (Hlen' : (2 <= length ls)%nat) by lia.
  destruct (float_is_zero (group_total ls) (precision_digits prec)) eqn:Hz; cbn [negb].
  2:{ left. exists (NotBalanced (group_total ls)). split; [reflexivity|]. cbn. auto. }
  destruct (1 <? Z.of_nat (length (group_accounts ls))) eqn:Hacc.
  { left. destruct (py_join_strs ", " acc_code (group_accounts ls)) as [codes Hj].
    exists (DifferentAccounts codes). rewrite Hj. split; [reflexivity|].
    apply Z.ltb_lt in Hacc. cbn. split; [exact Hlen'|]. split; [exact Hz | lia]. }
  apply Z.ltb_ge in Hacc.
  destruct (group_accounts_covers ls) as [Hcov Hfrom].
  destruct (group_accounts ls) as [|first rest] eqn:Hga.
  { exfalso. destruct ls as [|l0 ls']; [cbn in Hlen'; lia|].
    specialize (Hcov l0 (or_introl eq_refl)). discriminate Hcov. }
  destruct rest as [|second rest]; [|cbn in Hacc; lia].
  destruct (acc_reconcile first) eqn:Hrec; cbn [negb].
  2:{ left. exists (NotAllowReconciliation (acc_display_name first)).
      split; [reflexivity|]. cbn. split; [exact Hlen'|]. split; [exact Hz|]. eauto. }
  destruct (1 <? Z.of_nat (length (group_partners ls))) eqn:Hp.
  { right. left. apply Z.ltb_lt in Hp.
    rewrite py_join_not_str; [split; [reflexivity | lia] | | apply group_partners_not_str].
    intros Hnil. rewrite Hnil in Hp. cbn in Hp. lia. }
  apply Z.ltb_ge in Hp.
  right. right. split; [reflexivity|].
  split; [exact Hlen'|]. split; [exact Hz|]. split.
  - exists first. split; [apply Hfrom; left; reflexivity|]. split; [exact Hrec|].
    intros l Hin. specialize (Hcov l Hin). cbn in Hcov.
    rewrite orb_false_r in Hcov. apply Z.eqb_eq in Hcov. auto.
  - destruct (group_partners ls) as [|p rest] eqn:Hgp.
    + exfalso. destruct ls as [|l0 ls']; [cbn in Hlen'; lia|].
      pose proof (group_partners_covers (l0 :: ls') l0 (or_introl eq_refl)) as Hc.
      rewrite Hgp in Hc. discriminate Hc.
    + destruct rest as [|q rest]; [|cbn in Hp; lia].
      exists p. intros l Hin.
      pose proof (group_partners_covers ls l Hin) as Hc. rewrite Hgp in Hc.
      cbn in Hc. rewrite orb_false_r in Hc. exact Hc.
Qed.

(** The loop over the groups: one call for each group it goes through,
    and the group it raises on. *)
Lemma reconcile_groups_spec (torec : list (string * list aml)) :
  forall evs r,
    reconcile_groups torec = (evs, r) ->
    (r = inr tt /\ Forall2 handled torec evs) \/
    (exists e done rec_ref ls rest evs0,
       r = inl e /\
       torec = (done ++ (rec_ref, ls) :: rest)%list /\
       Forall2 handled done evs0 /\
       ((e = TypeError /\ evs = evs0 /\ (1 < length (group_partners ls))%nat) \/
        (aml_reconcile ls = inl e /\ evs = (evs0 ++ [EvReconcile ls])%list /\
         reconcilable ls))).
Proof.
  induction torec as [|[rec_ref ls] torec IH]; intros evs r H; cbn in H.
  - injection H as <- <-. left. split; [reflexivity | constructor].
  - destruct (reconcile_group_cases rec_ref ls)
      as [(why & Hg & Hj)|[(Hg & Hp)|(Hg & Hrec)]]; rewrite Hg in H.
    + destruct (reconcile_groups torec) as [evs' r'] eqn:Hrest.
      injection H as <- <-.
      destruct (IH evs' r' eq_refl)
        as [(-> & Hall)|(e & done & k0 & ls0 & rest & evs0 & -> & -> & Hd & Hcase)].
      * left. split; [reflexivity|]. cbn. constructor; [|exact Hall]. cbn. auto.
      * right. exists e, ((rec_ref, ls) :: done), k0, ls0, rest,
          (EvWarning rec_ref why :: evs0).
        split; [reflexivity|]. split; [reflexivity|].
        split; [constructor; [cbn; auto | exact Hd]|].
        destruct Hcase as [(-> & -> & Hp)|(Hr & -> & Hrec)]; [left | right]; auto.
    + injection H as <- <-. right.
      exists TypeError, [], rec_ref, ls, torec, [].
      split; [reflexivity|]. split; [reflexivity|]. split; [constructor|]. left. auto.
    + destruct (aml_reconcile ls) as [e|[]] eqn:Hcall.
      * injection H as <- <-. right.
        exists e, [], rec_ref, ls, torec, [].
        split; [reflexivity|]. split; [reflexivity|]. split; [constructor|]. right. auto.
      * destruct (reconcile_groups torec) as [evs' r'] eqn:Hrest.
        injection H as <- <-.
        destruct (IH evs' r' eq_refl)
          as [(-> & Hall)|(e & done & k0 & ls0 & rest & evs0 & -> & -> & Hd & Hcase)].
        -- left. split; [reflexivity|]. cbn. constructor; [|exact Hall]. cbn. auto.
        -- right. exists e, ((rec_ref, ls) :: done), k0, ls0, rest,
             (EvReconcile ls :: evs0).
           split; [reflexivity|]. split; [reflexivity|].
           split; [constructor; [cbn; auto | exact Hd]|].
           destruct Hcase as [(-> & -> & Hp)|(Hr & -> & Hrec')]; [left | right]; auto.
Qed.

Lemma handled_reconcile_in (torec : list (string * list aml)) (evs : list mevent)
    (ls : list aml) :
  Forall2 handled torec evs -> In (EvReconcile ls) evs ->
  reconcilable ls /\ exists k, In (k, ls) torec.
Proof.
  induction 1 as [|[k ls0] ev torec evs Hh _ IH]; cbn; [intros []|].
  intros [->|Hin].
  - cbn in Hh. destruct Hh as [-> Hrec]. eauto.
  - destruct (IH Hin) as (Hrec & k0 & Hk0). eauto.
Qed.

(** X23: the matcher reconciles only what passes its five rules.  Every
    set of lines on which [reconcile] is called is the whole group of one
    mark: all the lines that carry the mark, two or more, whose total is
    zero for the matcher's test, all on one account that allows
    reconciliation, all with the same partner key.  Lines of different
    marks are never reconciled together. *)
Theorem reconciles_only_whole_sound_groups
    (lines : list aml) (evs : list mevent) (r : result unit) (ls : list aml) :
  reconcile_move_lines lines = (evs, r) ->
  In (EvReconcile ls) evs ->
  (exists k, ls = marked k lines) /\ reconcilable ls.
Proof.
  unfold reconcile_move_lines. intros H Hin.
  assert (Hgoal : reconcilable ls /\ exists k, In (k, ls) (group_lines lines)).
  { apply reconcile_groups_spec in H
      as [(_ & Hall)|(e & done & k0 & ls0 & rest & evs0 & _ & Htorec & Hd & Hcase)].
    - eapply handled_reconcile_in; [exact Hall | exact Hin].
    - assert (Hdone : In (EvReconcile ls) evs0 ->
                      reconcilable ls /\ exists k, In (k, ls) (group_lines lines)).
      { intros Hin0. destruct (handled_reconcile_in _ _ _ Hd Hin0) as (Hrec & k & Hk).
        split; [exact Hrec|]. exists k. rewrite Htorec. apply in_or_app. auto. }
      destruct Hcase as [(_ & -> & _)|(_ & -> & Hrec)]; [auto|].
      apply in_app_or in Hin as [Hin|[[= <-]|[]]]; [auto|].
      split; [exact Hrec|]. exists k0. rewrite Htorec. apply in_or_app. cbn. auto. }
  destruct Hgoal as (Hrec & k & Hk). split; [|exact Hrec].
  exists k. apply in_group_lines in Hk as [-> _]. reflexivity.
Qed.

(** X24: when the matcher returns, every mark was dealt with once, in
    the order of the groups: its group was reconciled, passing the five
    rules, or a warning was logged for the first rule it fails.  The
    warning for different partners is never logged. *)
Theorem every_mark_reconciled_or_warned (lines : list aml) (evs : list mevent) :
  reconcile_move_lines lines = (evs, inr tt) ->
  Forall2 handled (group_lines lines) evs /\
  (forall rec_ref ids, ~ In (EvWarning rec_ref (DifferentPartners ids)) evs).
Proof.
  unfold reconcile_move_lines. intros H.
  apply reconcile_groups_spec in H as [(_ & Hall)|(e & ? & ? & ? & ? & ? & He & _)];
    [|discriminate He].
  split; [exact Hall|].
  intros rec_ref ids Hin. revert Hin.
  induction Hall as [|g ev torec evs' Hh _ IH]; cbn; [auto|].
  intros [->|Hin]; [|auto]. cbn in Hh. destruct Hh as [_ []].
Qed.

(** X25: the matcher raises in two cases only.  It raises [TypeError] on
    the first group that passes the first four rules with more than one
    partner key; otherwise it raises what a call to [reconcile] raised,
    right after that call.  The groups before were each dealt with. *)
Theorem matcher_raises_on_partners_or_reconcile
    (lines : list aml) (evs : list mevent) (e : exn) :
  reconcile_move_lines lines = (evs, inl e) ->
  exists done rec_ref ls rest evs0,
    group_lines lines = (done ++ (rec_ref, ls) :: rest)%list /\
    Forall2 handled done evs0 /\
    ((e = TypeError /\ evs = evs0 /\ (1 < length (group_partners ls))%nat) \/
     (aml_reconcile ls = inl e /\ evs = (evs0 ++ [EvReconcile ls])%list /\
      reconcilable ls)).
Proof.
  unfold reconcile_move_lines. intros H.
  apply reconcile_groups_spec in H
    as [(He & _)|(e' & done & k0 & ls0 & rest & evs0 & He & Htorec & Hd & Hcase)];
    [discriminate He|].
  injection He as <-. exists done, k0, ls0, rest, evs0. auto.
Qed.

(** ** The import of a decoded file *)

Lemma cielpaye_row_account (i : Z) (row : list string) (vals : pydict) :
  cielpaye_row i row = inr (Some vals) -> is_Some (vals !! "account").
Proof.
  unfold cielpaye_row. intros H.
  destruct (_ && _); [|inv_ok H]. read_items H.
  apply bind_inr in H as (amount & Ha & H). read_items H.
  apply bind_inr in H as (date & _ & H). read_items H. inv_ok H. subst vals.
  lookup_chain. eauto.
Qed.

Lemma fectxt_row_account (i : Z) (row : list string) (vals : pydict) :
  fectxt_row i row = inr (Some vals) -> is_Some (vals !! "account").
Proof.
  unfold fectxt_row. intros H. destruct (i =? 1); [inv_ok H|]. read_items H.
  apply bind_inr in H as (credit & Hc & H). read_items H.
  apply bind_inr in H as (debit & Hd & H). read_items H.
  apply bind_inr in H as (date & _ & H). inv_ok H. subst vals.
  lookup_chain. eauto.
Qed.

Lemma genericcsv_row_account (i : Z) (row : list string) (vals : pydict) :
  genericcsv_row i row = inr (Some vals) -> is_Some (vals !! "account").
Proof.
  unfold genericcsv_row. intros H. read_items H.
  apply bind_inr in H as (credit & Hc & H). read_items H.
  apply bind_inr in H as (debit & Hd & H). read_items H.
  apply bind_inr in H as (date & _ & H). read_items H. inv_ok H. subst vals.
  destruct (truthy (cell row 4)); destruct (truthy (cell row 3));
    lookup_chain; eauto.
Qed.

Lemma quadra_row_account (i : Z) (l : string) (vals : pydict) :
  quadra_row i l = inr (Some vals) -> is_Some (vals !! "account").
Proof.
  unfold quadra_row. intros H.
  destruct (str_len l <? 54); [inv_ok H|].
  destruct (_ && _); [|inv_ok H].
  apply bind_inr in H as (n & _ & H).
  apply bind_inr in H as (date & _ & H). inv_ok H. subst vals.
  lookup_chain. eauto.
Qed.

(** Every decoder gives each line a number, an account and two
    amounts. *)
Lemma decoder_output_lines (out : list pydict) :
  decoder_output out -> Forall decoded_line out.
Proof.
  intros H. pose proof (decoder_output_amounts out H) as Ham.
  assert (Hrest : Forall (fun vals : pydict =>
                            (exists i, 1 <= i /\ vals !! "line" = Some (PInt i)) /\
                            is_Some (vals !! "account")) out).
  { destruct H as [[r H]|[[r H]|[[sep [r H]]|[[r H]|[[r H]|[[r H]|[r H]]]]]]].
    - rewrite extenso2pivot_raises in H. discriminate H.
    - eapply for_rows_emitted_at; [|constructor|exact H]. intros j l vals Hj Hrow.
      split; [exists j; split; [lia | eapply cielpaye_row_line; exact Hrow]|].
      eapply cielpaye_row_account. exact Hrow.
    - unfold fectxt2pivot in H. destruct (_ || _); [|inv_ok H].
      eapply for_rows_emitted_at; [|constructor|exact H]. intros j l vals Hj Hrow.
      split; [exists j; split; [lia | eapply fectxt_row_line; exact Hrow]|].
      eapply fectxt_row_account. exact Hrow.
    - eapply for_rows_emitted_at; [|constructor|exact H]. intros j l vals Hj Hrow.
      split; [exists j; split; [lia | eapply genericcsv_row_line; exact Hrow]|].
      eapply genericcsv_row_account. exact Hrow.
    - rewrite nibelis2pivot_raises in H. discriminate H.
    - eapply for_rows_emitted_at; [|constructor|exact H]. intros j l vals Hj Hrow.
      split; [|eapply quadra_row_account; exact Hrow].
      apply quadra_row_inv in Hrow as (n & _ & _ & _ & _ & Hl & _).
      exists j. split; [lia | exact Hl].
    - eapply for_rows_emitted_at; [|constructor|exact H]. intros j l vals Hj Hrow.
      apply payfit_row_keys in Hrow as ([Hl _] & _ & _ & _ & Ha).
      split; [exists j; split; [lia | exact Hl] | exact Ha]. }
  clear H. induction Ham as [|vals out [Hc Hd] _ IH]; [constructor|].
  inversion Hrest as [|? ? [Hl Ha] Hrest']; subst.
  constructor; [|apply IH; exact Hrest'].
  unfold decoded_line. auto.
Qed.

(** What [update_pivot] keeps and makes of a decoded line. *)
Lemma update_line_decoded (w : overrides) (l l' : pydict) :
  decoded_line l -> update_line w l = inr l' ->
  (exists i, 1 <= i /\ l' !! "line" = Some (PInt i)) /\
  is_Some (l' !! "account") /\ float_amounts l'.
Proof.
  intros ((i & Hi & Hl) & Ha & (c & Hc & Hcl) & (d & Hd & Hdl)) H.
  apply update_line_lookups in H as (c' & d' & Hc' & Hd' & Hc2 & Hd2 & _ & _ & _ & _ & Hf).
  rewrite Hc in Hc'. injection Hc' as <-. rewrite Hd in Hd'. injection Hd' as <-.
  split; [|split].
  - exists i. split; [exact Hi|]. rewrite Hf; [exact Hl|].
    cbn. intros [?|[?|[?|[?|[?|[?|[]]]]]]]; discriminate.
  - rewrite Hf; [exact Ha|]. cbn. intros [?|[?|[?|[?|[?|[?|[]]]]]]]; discriminate.
  - unfold float_amounts, get. rewrite Hc2, Hd2. unfold float_or_zero. split.
    + destruct Hcl as [Hfl|Hfl]; [destruct (truthy c); [exact Hfl | reflexivity]|].
      rewrite Hfl. reflexivity.
    + destruct Hdl as [Hfl|Hfl]; [destruct (truthy d); [exact Hfl | reflexivity]|].
      rewrite Hfl. reflexivity.
Qed.

Lemma check_lines_inl (pivot : list pydict) (e : exn) :
  check_lines pivot = inl e -> exists l, In l pivot /\ check_line l = inl e.
Proof.
  induction pivot as [|l pivot IH]; cbn; intros H; [inv_ok H|].
  destruct (check_line l) as [e1|l'] eqn:Hl; cbn [bind] in H.
  - inv_ok H. subst e1. exists l. auto.
  - destruct (check_lines pivot) as [e2|rest]; cbn [bind] in H; [|inv_ok H].
    inv_ok H. subst e2. destruct (IH eq_refl) as (l0 & Hin & Hl0). exists l0. auto.
Qed.

(** X26: what the import of a decoded file can raise.  On the lines of
    any decoder, once through [update_pivot], [create_moves_from_pivot]
    raises before it has created anything only a [UserError] for a
    reference that does not match, a missing label, a missing date or an
    entry that is not balanced, the [KeyError] of ["journal"], or the
    assertion on a move of one line; never the assertion on the line
    number nor the messages on a bad credit or debit.  Any other
    exception is one that [create] or [post] raised. *)
Theorem decoded_import_errors (w : overrides) (out out' : list pydict)
    (post : bool) (tr : list event) (e : exn) :
  decoder_output out ->
  update_pivot w out = inr out' ->
  create_moves_from_pivot out' post = (tr, inl e) ->
  (tr = [] /\
   (e = KeyError "journal" \/
    e = AssertionError "move should have more than 1 line" \/
    exists msg, e = UserError msg /\ import_message msg = true)) \/
  (exists m, In (EvCreate m) tr /\ amo_create m = inl e) \/
  (exists ids, In (EvPost ids) tr /\ amo_post ids = inl e).
Proof.
  intros Hdec Hupd H.
  assert (Hall : Forall (fun l' : pydict =>
                           (exists i, 1 <= i /\ l' !! "line" = Some (PInt i)) /\
                           is_Some (l' !! "account") /\ float_amounts l') out').
  { clear H. apply decoder_output_lines in Hdec. apply update_pivot_Forall2 in Hupd.
    induction Hupd as [|l l' out out' Hl _ IH]; [constructor|].
    inversion Hdec as [|? ? Hd Hdec']; subst.
    constructor; [|apply IH; exact Hdec'].
    eapply update_line_decoded; [exact Hd | exact Hl]. }
  unfold create_moves_from_pivot in H. rewrite tbind_lift in H.
  destruct (check_lines out') as [e1|checked] eqn:Hc.
  { injection H as <- <-. left. split; [reflexivity|].
    apply check_lines_inl in Hc as (l & Hin & Hl).
    rewrite List.Forall_forall in Hall.
    destruct (Hall l Hin) as ((i & Hi & Hline) & [acc Hacc] & Hfc & Hfd).
    apply check_line_inl in Hl
      as [[_ Habs]|[(k & Hk & -> & Hnone)|(msg & -> & _ & Hfor)]].
    - unfold get in Habs. rewrite Hline in Habs.
      change (truthy (PInt i) && true = false) in Habs.
      rewrite truthy_PInt in Habs by lia. discriminate Habs.
    - cbn in Hk. destruct Hk as [<-|[<-|[<-|[<-|[]]]]].
      + congruence.
      + left. reflexivity.
      + unfold get in Hfc. rewrite Hnone in Hfc. discriminate Hfc.
      + unfold get in Hfd. rewrite Hnone in Hfd. discriminate Hfd.
    - right. right. exists msg. split; [reflexivity|].
      destruct msg; cbn in Hfor |- *; try reflexivity; try destruct Hfor.
      + congruence.
      + congruence. }
  rewrite tbind_lift in H.
  destruct (scan scan_init checked) as [e2|st] eqn:Hs.
  { injection H as <- <-. left. split; [reflexivity|].
    assert (Hv : Forall (fun l => validated l = true /\ truthy (get l "date") = true)
                   checked).
    { clear Hs Hall Hupd. apply check_lines_Forall2 in Hc.
      induction Hc as [|l l' pivot checked Hl _ IH]; [constructor|].
      constructor; [apply check_line_checked in Hl; exact Hl | exact IH]. }
    destruct (scan_inl checked scan_init e2 Hv (fun _ => eq_refl) Hs)
      as (pre & l & rest & st & _ & _ & Hstep & Hvl & Hdl & Hnone).
    destruct (scan_step_inl st l e2 Hvl Hdl Hnone Hstep) as [(-> & _)|(-> & _)].
    - right. right. eexists. split; reflexivity.
    - right. left. reflexivity. }
  rewrite tbind_lift in H.
  destruct (finish st) as [e3|ms] eqn:Hf.
  { injection H as <- <-. left. split; [reflexivity|].
    unfold finish in Hf. destruct (negb _); inv_ok Hf. subst e3.
    right. right. eexists. split; reflexivity. }
  right.
  destruct (create_all_calls ms [])
    as [(ids & Hids & Hcall)|(done & m & rest & ids & e' & Hms & Hids & Hm & Hcall)];
    rewrite Hcall in H.
  - cbn [app tbind] in H. destruct post.
    + unfold call_post in H. destruct (amo_post ids) as [e4|[]] eqn:Hp; cbn in H.
      * injection H as <- <-. right. exists ids. split; [|exact Hp].
        apply in_or_app. right. left. reflexivity.
      * injection H as _ H. discriminate H.
    + cbn in H. injection H as _ H. discriminate H.
  - cbn in H. injection H as <- <-. left. exists m. split; [|exact Hm].
    apply in_map. apply in_or_app. right. left. reflexivity.
Qed.

(** ** The columns of the FEC decoder, the accounts of the Payfit decoder *)

Lemma fectxt_row_columns (i : Z) (row : list string) (vals : pydict) :
  fectxt_row i row = inr (Some vals) ->
  vals !! "name" = Some (cell row 10) /\
  vals !! "reconcile_ref" = Some (cell row 13) /\
  vals !! "journal" = Some (code (cell row 0)) /\
  vals !! "account" = Some (code (cell row 4)) /\
  vals !! "ref" = None.
Proof.
  unfold fectxt_row. intros H. destruct (i =? 1); [inv_ok H|]. read_items H.
  apply bind_inr in H as (credit & Hc & H). read_items H.
  apply bind_inr in H as (debit & Hd & H). read_items H.
  apply bind_inr in H as (date & _ & H). inv_ok H. subst vals.
  split; [|split; [|split; [|split]]]; lookup_chain; reflexivity.
Qed.

(** X27: the columns the FEC decoder keeps.  Two columns of the file go
    by the name ["name"], the account label (6th) and the entry label
    (11th): every line takes its label from the 11th.  The journal code
    is the 1st column, the account number the 5th, the reconcile mark the
    14th; the column named ["ref"] (9th) is read and dropped, so no FEC
    line has a reference. *)
Theorem fectxt_label_is_the_entry_label (sep : pyval) (reader : list (list string))
    (out : list pydict) :
  fectxt2pivot sep reader = inr out ->
  Forall (fun vals : pydict =>
            exists row, In row reader /\
                        vals !! "name" = Some (cell row 10) /\
                        vals !! "reconcile_ref" = Some (cell row 13) /\
                        vals !! "journal" = Some (code (cell row 0)) /\
                        vals !! "account" = Some (code (cell row 4)) /\
                        vals !! "ref" = None) out.
Proof.
  unfold fectxt2pivot. intros H. destruct (_ || _); [|inv_ok H].
  eapply for_rows_emitted; [|constructor|exact H].
  intros i row vals Hin Hrow. exists row. split; [exact Hin|].
  apply fectxt_row_columns in Hrow. exact Hrow.
Qed.

Lemma contains_dot_before_dot (s : string) : contains_dot (before_dot s) = false.
Proof.
  induction s as [|c s IH]; cbn; [reflexivity|].
  destruct (Ascii.eqb c ".") eqn:E; cbn; [reflexivity|]. rewrite E, IH. reflexivity.
Qed.

Lemma payfit_row_account (i : Z) (row : list pyval) (vals : pydict) :
  payfit_row i row = inr (Some vals) ->
  exists r0 account c0,
    nth_error row 0 = Some r0 /\ truthy r0 = true /\
    account = (if contains_dot (py_str r0) then before_dot (py_str r0) else py_str r0) /\
    vals !! "account" = Some (code (PStr account)) /\
    contains_dot account = false /\
    char_at 0 account = Some c0 /\ isdigit c0 = true.
Proof.
  unfold payfit_row, index. intros H. destruct (i =? 1); [inv_ok H|].
  apply bind_inr in H as (r0 & H0 & H).
  destruct (nth_error row 0) as [r0'|]; inv_ok H0. subst r0'.
  destruct (negb (truthy r0)) eqn:Ht; [inv_ok H|]. apply negb_false_iff in Ht.
  set (account := if contains_dot (py_str r0) then before_dot (py_str r0) else py_str r0)
    in *.
  destruct (char_at 0 account) as [c0|] eqn:Hc0; [|inv_ok H].
  destruct (negb (isdigit c0)) eqn:Hd; [inv_ok H|]. apply negb_false_iff in Hd.
  apply bind_inr in H as (r3 & _ & H).
  apply bind_inr in H as (r5 & _ & H).
  apply bind_inr in H as (debit & _ & H).
  apply bind_inr in H as (r6 & _ & H).
  apply bind_inr in H as (credit & _ & H).
  inv_ok H. subst vals.
  exists r0, account, c0.
  split; [reflexivity|]. split; [exact Ht|]. split; [reflexivity|].
  split; [|split; [|split; [exact Hc0 | exact Hd]]].
  - cbn [truthy].
    destruct (negb (String.eqb (py_str r3) "")); lookup_chain; reflexivity.
  - subst account. destruct (contains_dot (py_str r0)) eqn:E;
      [apply contains_dot_before_dot | exact E].
Qed.

(** X28: the accounts of a Payfit file.  The account code of every line
    is the text of the first cell of a row, cut before its first dot: it
    holds no dot and begins with a character that [str.isdigit] takes
    for a digit, so a number cell such as [641100.0] gives ["641100"].  A
    row past the header whose first cell is true and reads with a dot in
    front makes the decoder raise [IndexError], whatever came before. *)
Theorem payfit_account_codes (rows : list (list pyval)) :
  (forall out,
     payfit2pivot rows = inr out ->
     Forall (fun vals : pydict =>
               exists row r0 account c0,
                 In row rows /\ nth_error row 0 = Some r0 /\
                 account = (if contains_dot (py_str r0)
                            then before_dot (py_str r0) else py_str r0) /\
                 vals !! "account" = Some (code (PStr account)) /\
                 contains_dot account = false /\
                 char_at 0 account = Some c0 /\ isdigit c0 = true) out) /\
  (forall i r0 rest,
     i <> 1 -> truthy r0 = true -> char_at 0 (py_str r0) = Some "."%char ->
     payfit_row i (r0 :: rest) = inl IndexError).
Proof.
  split.
  - intros out H. unfold payfit2pivot in H.
    eapply for_rows_emitted; [|constructor|exact H].
    intros i row vals Hin Hrow.
    apply payfit_row_account in Hrow as (r0 & account & c0 & H0 & _ & Hacc & Hrest).
    exists row, r0, account, c0. auto.
  - intros i r0 rest Hi Ht Hdot. unfold payfit_row, index, ok, raise.
    cbn [nth_error bind].
    apply Z.eqb_neq in Hi. rewrite Hi. cbn [bind]. rewrite Ht. cbn [negb].
    destruct (py_str r0) as [|c s] eqn:Hs; [discriminate Hdot|].
    cbn in Hdot. injection Hdot as ->. cbn. reflexivity.
Qed.

End Wizard.

(** ** The wizard on the reference instances *)

Abbreviation ref_fz := (ref_float_is_zero pow_sample).
Abbreviation ref_check_lines := (check_lines ref_match ref_match ref_match ref_match).
Abbreviation ref_scan := (scan ref_fz 0.01%float).
Abbreviation ref_scan_step := (scan_step ref_fz 0.01%float).
Abbreviation ref_assemble :=
  (assemble ref_match ref_match ref_match ref_match ref_fz 0.01%float).
Abbreviation ref_create_moves :=
  (create_moves_from_pivot ref_match ref_match ref_match ref_match ref_fz 0.01%float
     ref_create ref_post).
Abbreviation ref_reconcile_move_lines :=
  (reconcile_move_lines ref_fz 0.01%float ref_reconcile).

(** Closes an equation between closed terms by evaluating both sides. *)
Ltac by_evaluation :=
  lazymatch goal with
  | |- @eq ?T ?a ?b => vm_cast_no_check (@eq_refl T b)
  end.

(** *** The scenarios of the specification *)

(** Scenario 1: two lines, same journal and date, no reference, debit 100
    and credit 100: one entry of two lines. *)
Example scenario_1_one_entry :
  ref_create_moves pivot_balanced false =
    ([EvCreate (sample_mv 1 [sample_ml 100 0; sample_ml 0 100])], inr [2]).
Proof. by_evaluation. Qed.

(** Scenario 2: the credit is 99.99; the block is the last one, the error
    is the one of the last line, and nothing is created. *)
Example scenario_2_not_balanced :
  ref_create_moves pivot_unbalanced false =
    ([], inl (UserError (NotBalancedLastLine (0 - 100 + (99.99 - 0))%float))).
Proof. by_evaluation. Qed.

(** Scenario 4: two balanced entries with different references. *)
Example scenario_4_two_entries :
  exists m1 m2,
    ref_create_moves pivot_two_entries false = ([EvCreate m1; EvCreate m2], inr [2; 2]) /\
    mv_ref m1 = PStr "A" /\ mv_ref m2 = PStr "B" /\
    length (line_ids m1) = 2%nat /\ length (line_ids m2) = 2%nat.
Proof.
  do 2 eexists. split; [vm_compute; reflexivity|].
  split; [reflexivity|]. split; [reflexivity|]. split; reflexivity.
Qed.

(** Scenario 5: three lines under one mark, balanced, on an account that
    does not allow reconciliation: a warning, no call to [reconcile]. *)
Example scenario_5_not_reconcilable :
  ref_reconcile_move_lines lines_not_reconcilable =
    ([EvWarning "A1" (NotAllowReconciliation "707000 Sales")], inr tt).
Proof. by_evaluation. Qed.

(** Scenario 6: a line without label is refused with its own number,
    before any entry is assembled. *)
Example scenario_6_missing_label :
  ref_create_moves
    [pivot_line 1 "VT" "2017-02-15" None 100 0;
     delete "name" (pivot_line 2 "VT" "2017-02-15" None 0 100)] false =
    ([], inl (UserError (MissingLabel 2))).
Proof. by_evaluation. Qed.

(** *** C1: the balance of the first entry is not tested *)

(** C1 (the code departs from it).  In [pivot_first_unbalanced] the entry
    of lines 1-2 is open with balance -50, not zero within 0.01, when the
    scan reaches line 3, whose journal differs.  The specification asks for the
    error "ends on line 2 is not balanced"; the code tests [moves], still
    empty, instead of the open entry: the turn does not raise, the entry
    is sealed as it is, and both entries are created. *)
Theorem first_entry_imbalance_not_detected :
  ref_check_lines pivot_first_unbalanced =
    inr [checked_line 1 "VT" 1 100 0; checked_line 2 "VT" 1 0 50;
         checked_line 3 "BQ" 2 0 50] /\
  ref_scan scan_init [checked_line 1 "VT" 1 100 0; checked_line 2 "VT" 1 0 50] =
    inr state_first_open /\
  ref_fz (cur_balance state_first_open) (precision_rounding 0.01) = false /\
  same_key state_first_open (checked_line 3 "BQ" 2 0 50) = false /\
  (exists st', ref_scan_step state_first_open (checked_line 3 "BQ" 2 0 50) = inr st' /\
               moves st' = [sample_mv 1 [sample_ml 100 0; sample_ml 0 50]]) /\
  ref_create_moves pivot_first_unbalanced false =
    ([EvCreate (sample_mv 1 [sample_ml 100 0; sample_ml 0 50]);
      EvCreate (sample_mv 2 [sample_ml 0 50])], inr [2; 1]).
Proof.
  split; [by_evaluation|]. split; [by_evaluation|].
  split; [by_evaluation|]. split; [by_evaluation|].
  split; [|by_evaluation].
  eexists. split; vm_compute; reflexivity.
Qed.

(** *** C2: the balance is carried over *)

(** C2 (counterexample).  After [pivot_residue_entry] the balance is
    0.1 + 0.2 - 0.3 = 5.55e-17, zero within 0.01.  The next line starts a
    new entry with credit 0.3, and the balance becomes
    0.30000000000000004, which is not that line's credit - debit. *)
Lemma balance_not_reset_counterexample :
  ref_scan scan_init checked_residue_entry = inr state_residue /\
  ref_fz (cur_balance state_residue) (precision_rounding 0.01) = true /\
  exists st',
    ref_scan_step state_residue (checked_line 4 "BQ" 2 0 0.3) = inr st' /\
    started state_residue (checked_line 4 "BQ" 2 0 0.3) st' /\
    PrimFloat.eqb (cur_balance st') (amount_of (checked_line 4 "BQ" 2 0 0.3)) = false /\
    cur_balance st' <> amount_of (checked_line 4 "BQ" 2 0 0.3).
Proof.
  split; [by_evaluation|]. split; [by_evaluation|].
  eexists. split; [vm_compute; reflexivity|].
  split.
  { do 2 eexists. split; [vm_compute; reflexivity|]. split; [vm_compute; reflexivity|].
    split; vm_compute; reflexivity. }
  split; [by_evaluation|].
  intros H. apply (f_equal (fun x => PrimFloat.eqb x 0.3)) in H.
  vm_compute in H. discriminate H.
Qed.

(** [balance_is_cumulative] on the scan of [pivot_residue_entry] and the
    line that follows it. *)
Lemma balance_is_cumulative_witness :
  ref_scan scan_init checked_residue_entry = inr state_residue /\
  exists st',
    ref_scan_step state_residue (checked_line 4 "BQ" 2 0 0.3) = inr st' /\
    cur_balance state_residue = running_total 0 checked_residue_entry /\
    cur_balance st' =
      (running_total 0 checked_residue_entry + amount_of (checked_line 4 "BQ" 2 0 0.3))%float.
Proof.
  assert (H1 : ref_scan scan_init checked_residue_entry = inr state_residue)
    by (by_evaluation).
  split; [exact H1|].
  eexists. split; [vm_compute; reflexivity|].
  apply (balance_is_cumulative ref_fz 0.01%float checked_residue_entry
           (checked_line 4 "BQ" 2 0 0.3) state_residue _ H1).
  by_evaluation.
Defined.

(** *** C3: the last entry may have one line *)

(** C3 (the code departs from it).  The moves sealed inside the loop are
    asserted to have more than one line; the move still open at the end of
    the loop is appended without that assertion.  In
    [pivot_single_last] the last line has no amount: it starts a new
    entry, the final balance is zero, and an entry of one line is
    created. *)
Theorem last_entry_of_one_line_is_emitted :
  ref_assemble pivot_single_last =
    inr [sample_mv 1 [sample_ml 100 0; sample_ml 0 100]; sample_mv 1 [sample_ml 0 0]] /\
  ref_create_moves pivot_single_last false =
    ([EvCreate (sample_mv 1 [sample_ml 100 0; sample_ml 0 100]);
      EvCreate (sample_mv 1 [sample_ml 0 0])], inr [2; 1]).
Proof. split; by_evaluation. Qed.

(** *** C4 *)

(** [line_appended_iff_same_key_and_open] on two lines.  The second line
    of [pivot_balanced] joins the entry that the first line opened, whose
    balance is -100.  A third line with the same key, read when the
    balance of that entry is back to zero, opens a new entry. *)
Lemma line_appended_witness :
  validated (checked_line 2 "VT" 1 0 100) = true /\
  same_key state_after_debit (checked_line 2 "VT" 1 0 100) = true /\
  ref_fz (cur_balance state_after_debit) (precision_rounding 0.01) = false /\
  (exists st',
     ref_scan_step state_after_debit (checked_line 2 "VT" 1 0 100) = inr st' /\
     joined state_after_debit (checked_line 2 "VT" 1 0 100) st') /\
  validated (checked_line 3 "VT" 1 20 0) = true /\
  same_key state_entry_balanced (checked_line 3 "VT" 1 20 0) = true /\
  ref_fz (cur_balance state_entry_balanced) (precision_rounding 0.01) = true /\
  (exists st',
     ref_scan_step state_entry_balanced (checked_line 3 "VT" 1 20 0) = inr st' /\
     opened state_entry_balanced (checked_line 3 "VT" 1 20 0) st').
Proof.
  assert (Hv : validated (checked_line 2 "VT" 1 0 100) = true) by (by_evaluation).
  assert (Hk : same_key state_after_debit (checked_line 2 "VT" 1 0 100) = true)
    by (by_evaluation).
  assert (Hz : ref_fz (cur_balance state_after_debit) (precision_rounding 0.01) = false)
    by (by_evaluation).
  assert (Hv3 : validated (checked_line 3 "VT" 1 20 0) = true) by (by_evaluation).
  assert (Hk3 : same_key state_entry_balanced (checked_line 3 "VT" 1 20 0) = true)
    by (by_evaluation).
  assert (Hz3 : ref_fz (cur_balance state_entry_balanced) (precision_rounding 0.01) = true)
    by (by_evaluation).
  split; [exact Hv|]. split; [exact Hk|]. split; [exact Hz|].
  split.
  { exact (proj1 (line_appended_iff_same_key_and_open ref_fz 0.01%float
                    state_after_debit (checked_line 2 "VT" 1 0 100) Hv)
                 (sample_mv 1 [sample_ml 100 0]) eq_refl Hk Hz). }
  split; [exact Hv3|]. split; [exact Hk3|]. split; [exact Hz3|].
  apply (proj1 (proj2 (line_appended_iff_same_key_and_open ref_fz 0.01%float
                         state_entry_balanced (checked_line 3 "VT" 1 20 0) Hv3))).
  - right. exact Hz3.
  - left. reflexivity.
  - intros m [= <-]. cbn. lia.
Defined.

(** *** C9 *)

(** [no_creation_unless_assembled] on [pivot_unbalanced]: the final
    balance raises and nothing is created. *)
Lemma no_creation_witness :
  ref_assemble pivot_unbalanced =
    inl (UserError (NotBalancedLastLine (0 - 100 + (99.99 - 0))%float)) /\
  ref_create_moves pivot_unbalanced true =
    ([], inl (UserError (NotBalancedLastLine (0 - 100 + (99.99 - 0))%float))).
Proof.
  assert (H : ref_assemble pivot_unbalanced =
              inl (UserError (NotBalancedLastLine (0 - 100 + (99.99 - 0))%float)))
    by (by_evaluation).
  split; [exact H|].
  exact (proj1 (no_creation_unless_assembled ref_match ref_match ref_match ref_match
                  ref_fz 0.01%float ref_create ref_post pivot_unbalanced true) _ H).
Defined.

(** *** C5: different partners raise *)

(** C5 (the code departs from it).  The two lines of [lines_two_partners]
    share the mark A1, balance, and are on one account that allows
    reconciliation; their partners differ.  Rule 5 should log and skip;
    the warning joins the partner ids, which are not strings, with
    [', '.join], so the matcher raises [TypeError] and logs nothing. *)
Theorem different_partners_raise_type_error :
  group_lines lines_two_partners = [("A1", lines_two_partners)] /\
  ref_fz (group_total lines_two_partners) (precision_digits 0.01) = true /\
  group_accounts lines_two_partners = [acc_411] /\
  acc_reconcile acc_411 = true /\
  group_partners lines_two_partners = [PInt 7; PInt 8] /\
  ref_reconcile_move_lines lines_two_partners = ([], inl TypeError).
Proof.
  split; [by_evaluation|]. split; [by_evaluation|].
  split; [by_evaluation|]. split; [by_evaluation|].
  split; by_evaluation.
Qed.

(** *** C6: the matcher's tolerance is not the rounding *)

(** C6 (the code departs from it).  The matcher passes the rounding 0.01
    as [precision_digits], so its unit is 10 ** -0.01 = 0.977..., not
    0.01.  The lines of [lines_off_by_30_cents] are 0.30 short of balance:
    not zero within the rounding, which is the assembler's test, yet the
    matcher takes the total for zero and has the lines reconciled. *)
Theorem matcher_accepts_thirty_cents :
  group_total lines_off_by_30_cents = (0 + 0 - 100 + 99.7 - 0)%float /\
  ref_fz (group_total lines_off_by_30_cents) (precision_rounding 0.01) = false /\
  ref_fz (group_total lines_off_by_30_cents) (precision_digits 0.01) = true /\
  ref_reconcile_move_lines lines_off_by_30_cents =
    ([EvReconcile lines_off_by_30_cents], inr tt).
Proof.
  split; [by_evaluation|]. split; [by_evaluation|].
  split; by_evaluation.
Qed.

(** *** C7 *)

(** [quadra_short_rows_skipped_amounts_in_cents] on [quadra_file]: the
    short first row gives nothing, the second row gives a debit of
    123.45. *)
Lemma quadra_witness :
  str_len quadra_short_row < 54 /\
  quadra_row ref_int ref_strptime (0 + 1) quadra_short_row = inr None /\
  quadra2pivot ref_int ref_strptime quadra_file = inr [quadra_vals] /\
  Forall (from_quadra_row ref_int (split_newline quadra_file)) [quadra_vals].
Proof.
  assert (Hlen : str_len quadra_short_row < 54) by (vm_compute; reflexivity).
  assert (H : quadra2pivot ref_int ref_strptime quadra_file = inr [quadra_vals])
    by by_evaluation.
  split; [exact Hlen|].
  split.
  { exact (proj1 (proj1 (quadra_short_rows_skipped_amounts_in_cents ref_int ref_strptime)
                    0 quadra_short_row [] [] Hlen)). }
  split; [exact H|].
  exact (proj2 (quadra_short_rows_skipped_amounts_in_cents ref_int ref_strptime)
           quadra_file [quadra_vals] H).
Defined.

(** *** C8 *)



(** *** C10 *)

(** [blank_optional_fields] on a Generic CSV file of one row, without
    partner nor analytic. *)
Lemma blank_optional_fields_witness :
  truthy (cell genericcsv_blank_row 4) = false /\
  truthy (cell genericcsv_blank_row 3) = false /\
  genericcsv2pivot ref_float ref_strptime [genericcsv_blank_row] =
    inr [genericcsv_blank_vals] /\
  genericcsv_blank_vals !! "analytic" = None /\
  genericcsv_blank_vals !! "partner" = None.
Proof.
  assert (Ha : truthy (cell genericcsv_blank_row 4) = false) by by_evaluation.
  assert (Hp : truthy (cell genericcsv_blank_row 3) = false) by by_evaluation.
  assert (H : genericcsv2pivot ref_float ref_strptime [genericcsv_blank_row] =
              inr [genericcsv_blank_vals]) by by_evaluation.
  split; [exact Ha|]. split; [exact Hp|]. split; [exact H|].
  pose proof (proj1 (blank_optional_fields ref_float ref_int ref_strptime ref_repr)
                [genericcsv_blank_row] [genericcsv_blank_vals] H) as Hall.
  inversion Hall as [|? ? (row & (i & Hi & Hline & Hnth) & H1 & H2 & _) _]; subst.
  assert (Hrow : row = genericcsv_blank_row).
  { assert (Hl : genericcsv_blank_vals !! "line" = Some (PInt 1)) by by_evaluation.
    rewrite Hl in Hline. injection Hline as Hline. subst i.
    change (Some genericcsv_blank_row = Some row) in Hnth.
    injection Hnth as Hnth. symmetry. exact Hnth. }
  subst row. split; [exact (H1 Ha) | exact (H2 Hp)].
Defined.

(** *** Further properties, on the samples *)

(** [unbalanced_entry_rejected_once_moves] on [state_second_open]: the
    open entry lacks 20 when line 4, of another journal, is reached. *)
Lemma unbalanced_entry_rejected_witness :
  exists n, int_value (get (checked_line 4 "BQ" 2 0 20) "line") = inr n /\
            ref_scan_step state_second_open (checked_line 4 "BQ" 2 0 20) =
              inl (UserError (NotBalancedOnLine (n - 1) (cur_balance state_second_open))).
Proof.
  apply (unbalanced_entry_rejected_once_moves ref_fz 0.01%float state_second_open
           (checked_line 4 "BQ" 2 0 20)).
  - by_evaluation.
  - discriminate.
  - by_evaluation.
  - by_evaluation.
Defined.

(** [sealed_in_loop_have_two_lines] on [checked_two_entries]. *)
Lemma sealed_in_loop_witness :
  exists st,
    ref_scan scan_init checked_two_entries = inr st /\
    moves st = [sample_mv 1 [sample_ml 100 0; sample_ml 0 100]] /\
    Forall (fun m => (2 <= length (line_ids m))%nat) (moves st).
Proof.
  eexists. split; [vm_compute; reflexivity|]. split; [reflexivity|].
  apply (sealed_in_loop_have_two_lines ref_fz 0.01%float checked_two_entries scan_init).
  - constructor.
  - vm_compute. reflexivity.
Defined.

(** [check_line_validated] on the second line of [pivot_balanced]. *)
Lemma check_line_validated_witness :
  check_line ref_match ref_match ref_match ref_match
    (pivot_line 2 "VT" "2017-02-15" None 0 100) = inr (checked_line 2 "VT" 1 0 100) /\
  validated (checked_line 2 "VT" 1 0 100) = true.
Proof.
  assert (H : check_line ref_match ref_match ref_match ref_match
                (pivot_line 2 "VT" "2017-02-15" None 0 100) =
              inr (checked_line 2 "VT" 1 0 100)) by by_evaluation.
  split; [exact H|].
  exact (check_line_validated ref_match ref_match ref_match ref_match _ _ H).
Defined.

(** [matcher_balance_rule_uses_precision_digits] on [lines_off_by_one]. *)
Lemma matcher_balance_rule_witness :
  reconcile_group ref_fz 0.01%float ref_reconcile "A1" lines_off_by_one =
    ([EvWarning "A1" (NotBalanced (group_total lines_off_by_one))], inr tt).
Proof.
  apply (matcher_balance_rule_uses_precision_digits ref_fz 0.01%float ref_reconcile
           "A1" lines_off_by_one).
  - cbn. lia.
  - by_evaluation.
Defined.

(** [different_partners_raise] on [lines_two_partners]. *)
Lemma different_partners_raise_witness :
  reconcile_group ref_fz 0.01%float ref_reconcile "A1" lines_two_partners =
    ([], inl TypeError).
Proof.
  apply (different_partners_raise ref_fz 0.01%float ref_reconcile "A1"
           lines_two_partners acc_411).
  - cbn. lia.
  - by_evaluation.
  - by_evaluation.
  - reflexivity.
  - cbn. lia.
Defined.

(** *** The overrides, on the samples *)

Abbreviation ref_update_pivot := (update_pivot ref_date_to_string).
Abbreviation ref_check_line := (check_line ref_match ref_match ref_match ref_match).

(** [update_pivot_overrides_win] on a line without label, under
    [forced_label_journal]. *)
Lemma update_pivot_overrides_win_witness :
  ref_update_pivot forced_label_journal [pivot_datetime_line] =
    inr [pivot_forced_line] /\
  Forall (fun l' : pydict =>
            l' !! "name" = Some (PStr "Paye 02") /\
            l' !! "ref" = Some (PStr "PAYE-02") /\
            l' !! "journal" = Some (PDict1 "recordset" (PInt 5))) [pivot_forced_line].
Proof.
  assert (H : ref_update_pivot forced_label_journal [pivot_datetime_line] =
              inr [pivot_forced_line]) by by_evaluation.
  split; [exact H|].
  eapply Forall_impl; [exact (update_pivot_overrides_win _ _ _ _ H)|].
  intros l' (Hn & Hr & Hj & _).
  split; [exact (Hn eq_refl)|]. split; [exact (Hr eq_refl) | exact (Hj 5 eq_refl)].
Defined.

(** [update_pivot_frame] on the same line. *)
Lemma update_pivot_frame_witness :
  ref_update_pivot forced_label_journal [pivot_datetime_line] =
    inr [pivot_forced_line] /\
  Forall2 (fun l l' : pydict =>
             l' !! "line" = l !! "line" /\ l' !! "account" = l !! "account")
    [pivot_datetime_line] [pivot_forced_line].
Proof.
  assert (H : ref_update_pivot forced_label_journal [pivot_datetime_line] =
              inr [pivot_forced_line]) by by_evaluation.
  split; [exact H|].
  eapply Forall2_impl; [exact (update_pivot_frame _ _ _ _ H)|].
  intros l l' [Hf _].
  split; apply Hf; cbn; intros [?|[?|[?|[?|[?|[?|[]]]]]]]; discriminate.
Defined.

(** [update_pivot_normalises] on the same line: the [datetime] has become
    a date string, the debit of -5 is kept and the credit, equal to zero,
    is the float [0.0]. *)
Lemma update_pivot_normalises_witness :
  ref_update_pivot forced_label_journal [pivot_datetime_line] =
    inr [pivot_forced_line] /\
  Forall2 (fun l l' : pydict =>
             isinstance_datetime (get l' "date") = false /\
             (exists c, l !! "credit" = Some c /\
                        l' !! "credit" = Some (if truthy c then c else PFloat 0)) /\
             (exists d, l !! "debit" = Some d /\
                        l' !! "debit" = Some (if truthy d then d else PFloat 0)))
    [pivot_datetime_line] [pivot_forced_line].
Proof.
  assert (H : ref_update_pivot forced_label_journal [pivot_datetime_line] =
              inr [pivot_forced_line]) by by_evaluation.
  split; [exact H|].
  exact (update_pivot_normalises _ _ _ _ H).
Defined.

(** [update_pivot_idempotent] on the same line. *)
Lemma update_pivot_idempotent_witness :
  ref_update_pivot forced_label_journal [pivot_datetime_line] =
    inr [pivot_forced_line] /\
  ref_update_pivot forced_label_journal [pivot_forced_line] =
    inr [pivot_forced_line].
Proof.
  assert (H : ref_update_pivot forced_label_journal [pivot_datetime_line] =
              inr [pivot_forced_line]) by by_evaluation.
  split; [exact H|].
  exact (update_pivot_idempotent _ _ _ _ H).
Defined.

(** [decoded_amounts_are_floats_after_update] on the Quadra sample, whose
    credit the decoder gives as [False]. *)
Lemma decoded_amounts_are_floats_witness :
  decoder_output ref_float ref_int ref_strptime ref_repr [quadra_vals] /\
  exists out',
    ref_update_pivot no_overrides [quadra_vals] = inr out' /\
    Forall float_amounts out'.
Proof.
  assert (H : decoder_output ref_float ref_int ref_strptime ref_repr [quadra_vals]).
  { do 5 right. left. exists quadra_file. by_evaluation. }
  split; [exact H|].
  exact (decoded_amounts_are_floats_after_update _ _ _ _ ref_date_to_string
           no_overrides _ H).
Defined.

(** *** The first loop, on the samples *)

(** [check_line_writes_ids_only] on the second line of [pivot_balanced]. *)
Lemma check_line_writes_ids_only_witness :
  ref_check_line (pivot_line 2 "VT" "2017-02-15" None 0 100) =
    inr (checked_line 2 "VT" 1 0 100) /\
  (forall k, ~ In k id_keys ->
     checked_line 2 "VT" 1 0 100 !! k = pivot_line 2 "VT" "2017-02-15" None 0 100 !! k).
Proof.
  assert (H : ref_check_line (pivot_line 2 "VT" "2017-02-15" None 0 100) =
              inr (checked_line 2 "VT" 1 0 100)) by by_evaluation.
  split; [exact H|].
  exact (proj1 (check_line_writes_ids_only _ _ _ _ _ _ H)).
Defined.

(** [check_lines_first_failure] on [pivot_missing_label]. *)
Lemma check_lines_first_failure_witness :
  ref_check_lines pivot_missing_label = inl (UserError (MissingLabel 2)) /\
  exists pre l rest,
    pivot_missing_label = (pre ++ l :: rest)%list /\
    Forall (acceptable ref_match ref_match ref_match ref_match) pre /\
    ref_check_line l = inl (UserError (MissingLabel 2)).
Proof.
  assert (H : ref_check_lines pivot_missing_label = inl (UserError (MissingLabel 2)))
    by by_evaluation.
  split; [exact H|].
  destruct (check_lines_first_failure _ _ _ _ _ _ H)
    as (pre & l & rest & Hs & Hpre & _ & Hl & _).
  exists pre, l, rest. auto.
Defined.

(** [move_line_of_checked_line] on the second line of [pivot_balanced]. *)
Lemma move_line_of_checked_line_witness :
  ref_check_line (pivot_line 2 "VT" "2017-02-15" None 0 100) =
    inr (checked_line 2 "VT" 1 0 100) /\
  exists ml,
    _prepare_move_line (checked_line 2 "VT" 1 0 100) = inr ml /\
    ml_credit ml = get (pivot_line 2 "VT" "2017-02-15" None 0 100) "credit" /\
    ml_debit ml = get (pivot_line 2 "VT" "2017-02-15" None 0 100) "debit".
Proof.
  assert (H : ref_check_line (pivot_line 2 "VT" "2017-02-15" None 0 100) =
              inr (checked_line 2 "VT" 1 0 100)) by by_evaluation.
  split; [exact H|].
  destruct (move_line_of_checked_line _ _ _ _ _ _ H) as (ml & Hml & Hc & Hd & _).
  exists ml. auto.
Defined.

(** *** From a decoder to the first loop, on the samples *)

(** [payfit_import_needs_forced_journal_and_date] on [payfit_rows],
    without overrides. *)
Lemma payfit_import_needs_forced_witness :
  payfit2pivot ref_float ref_repr payfit_rows = inr [payfit_vals] /\
  ref_update_pivot no_overrides [payfit_vals] = inr [payfit_vals] /\
  exists e,
    ref_create_moves [payfit_vals] false = ([], inl e) /\
    (e = KeyError "journal" \/
     exists msg n, e = UserError msg /\ cited_line msg = Some n /\ 2 <= n).
Proof.
  assert (H : payfit2pivot ref_float ref_repr payfit_rows = inr [payfit_vals])
    by by_evaluation.
  assert (Hu : ref_update_pivot no_overrides [payfit_vals] = inr [payfit_vals])
    by by_evaluation.
  split; [exact H|]. split; [exact Hu|].
  apply (payfit_import_needs_forced_journal_and_date ref_float ref_repr
           ref_match ref_match ref_match ref_match ref_fz 0.01%float ref_create ref_post
           ref_date_to_string no_overrides payfit_rows [payfit_vals] [payfit_vals]
           false H).
  - discriminate.
  - left. reflexivity.
  - exact Hu.
Defined.

(** *** The second loop and the calls, on the samples *)

(** [moves_are_consecutive_runs] on [pivot_balanced]. *)
Lemma moves_are_consecutive_runs_witness :
  ref_assemble pivot_balanced = inr [sample_mv 1 [sample_ml 100 0; sample_ml 0 100]] /\
  exists checked groups,
    Forall2 (fun l l' => ref_check_line l = inr l') pivot_balanced checked /\
    concat groups = checked /\
    Forall2 group_of groups [sample_mv 1 [sample_ml 100 0; sample_ml 0 100]] /\
    ref_fz (running_total 0 checked) (precision_rounding 0.01) = true.
Proof.
  assert (H : ref_assemble pivot_balanced =
              inr [sample_mv 1 [sample_ml 100 0; sample_ml 0 100]]) by by_evaluation.
  split; [exact H|].
  exact (moves_are_consecutive_runs _ _ _ _ _ _ _ _ H).
Defined.

(** [second_loop_raises_for_balance_or_single_line] on
    [pivot_second_unbalanced]: the entry of journal BQ lacks 20 when line
    4 is reached. *)
Lemma second_loop_raises_witness :
  ref_check_lines pivot_second_unbalanced = inr checked_second_unbalanced /\
  ref_scan scan_init checked_second_unbalanced =
    inl (UserError (NotBalancedOnLine 3 (-20))) /\
  exists pre l rest st,
    checked_second_unbalanced = (pre ++ l :: rest)%list /\
    ref_scan scan_init pre = inr st /\
    ((UserError (NotBalancedOnLine 3 (-20)) =
        UserError (NotBalancedOnLine (line_no l - 1) (running_total 0 pre)) /\
      moves st <> [] /\
      ref_fz (running_total 0 pre) (precision_rounding 0.01) = false) \/
     (UserError (NotBalancedOnLine 3 (-20)) =
        AssertionError "move should have more than 1 line" /\
      exists m, cur_move st = Some m /\ length (line_ids m) = 1%nat)).
Proof.
  assert (H : ref_check_lines pivot_second_unbalanced = inr checked_second_unbalanced)
    by by_evaluation.
  assert (Hs : ref_scan scan_init checked_second_unbalanced =
               inl (UserError (NotBalancedOnLine 3 (-20)))) by by_evaluation.
  split; [exact H|]. split; [exact Hs|].
  exact (second_loop_raises_for_balance_or_single_line _ _ _ _ _ _ _ _ _ H Hs).
Defined.

(** [creates_in_order_then_posts_once] on [pivot_balanced], posting. *)
Lemma creates_in_order_witness :
  ref_assemble pivot_balanced = inr [sample_mv 1 [sample_ml 100 0; sample_ml 0 100]] /\
  ((exists ids,
      Forall2 (fun m id => ref_create m = inr id)
        [sample_mv 1 [sample_ml 100 0; sample_ml 0 100]] ids /\
      ref_create_moves pivot_balanced true =
        ((map EvCreate [sample_mv 1 [sample_ml 100 0; sample_ml 0 100]] ++
          [EvPost ids])%list,
         match ref_post ids with
         | inl e => inl e
         | inr _ => inr ids
         end)) \/
   (exists done m rest ids e,
      [sample_mv 1 [sample_ml 100 0; sample_ml 0 100]] = (done ++ m :: rest)%list /\
      Forall2 (fun m id => ref_create m = inr id) done ids /\
      ref_create m = inl e /\
      ref_create_moves pivot_balanced true = (map EvCreate (done ++ [m]), inl e))).
Proof.
  assert (H : ref_assemble pivot_balanced =
              inr [sample_mv 1 [sample_ml 100 0; sample_ml 0 100]]) by by_evaluation.
  split; [exact H|].
  exact (creates_in_order_then_posts_once _ _ _ _ _ _ ref_create ref_post
           pivot_balanced true _ H).
Defined.

(** *** The matcher, on the samples *)

(** [reconciles_only_whole_sound_groups] on [lines_reconcilable]. *)
Lemma reconciles_only_sound_groups_witness :
  ref_reconcile_move_lines lines_reconcilable =
    ([EvReconcile lines_reconcilable], inr tt) /\
  (exists k, lines_reconcilable = marked k lines_reconcilable) /\
  reconcilable ref_fz 0.01 lines_reconcilable.
Proof.
  assert (H : ref_reconcile_move_lines lines_reconcilable =
              ([EvReconcile lines_reconcilable], inr tt)) by by_evaluation.
  split; [exact H|].
  apply (reconciles_only_whole_sound_groups ref_fz 0.01%float ref_reconcile
           lines_reconcilable _ _ lines_reconcilable H).
  left. reflexivity.
Defined.

(** [every_mark_reconciled_or_warned] on [lines_not_reconcilable]. *)
Lemma every_mark_reconciled_or_warned_witness :
  ref_reconcile_move_lines lines_not_reconcilable =
    ([EvWarning "A1" (NotAllowReconciliation "707000 Sales")], inr tt) /\
  Forall2 (handled ref_fz 0.01) (group_lines lines_not_reconcilable)
    [EvWarning "A1" (NotAllowReconciliation "707000 Sales")].
Proof.
  assert (H : ref_reconcile_move_lines lines_not_reconcilable =
              ([EvWarning "A1" (NotAllowReconciliation "707000 Sales")], inr tt))
    by by_evaluation.
  split; [exact H|].
  exact (proj1 (every_mark_reconciled_or_warned _ _ _ _ _ H)).
Defined.

(** [matcher_raises_on_partners_or_reconcile] on [lines_two_partners]. *)
Lemma matcher_raises_witness :
  ref_reconcile_move_lines lines_two_partners = ([], inl TypeError) /\
  exists done rec_ref ls rest evs0,
    group_lines lines_two_partners = (done ++ (rec_ref, ls) :: rest)%list /\
    Forall2 (handled ref_fz 0.01) done evs0 /\
    ((TypeError = TypeError /\ [] = evs0 /\ (1 < length (group_partners ls))%nat) \/
     (ref_reconcile ls = inl TypeError /\ [] = (evs0 ++ [EvReconcile ls])%list /\
      reconcilable ref_fz 0.01 ls)).
Proof.
  assert (H : ref_reconcile_move_lines lines_two_partners = ([], inl TypeError))
    by by_evaluation.
  split; [exact H|].
  exact (matcher_raises_on_partners_or_reconcile _ _ _ _ _ _ H).
Defined.

(** [decoded_import_errors] on the FEC sample, without overrides: its
    one line debits 100 and nothing balances it. *)
Lemma decoded_import_errors_witness :
  decoder_output ref_float ref_int ref_strptime ref_repr [fectxt_vals] /\
  ref_update_pivot no_overrides [fectxt_vals] = inr [fectxt_dated_vals] /\
  ref_create_moves [fectxt_dated_vals] false =
    ([], inl (UserError (NotBalancedLastLine (-100)))) /\
  ((@nil event = [] /\
    (UserError (NotBalancedLastLine (-100)) = KeyError "journal" \/
     UserError (NotBalancedLastLine (-100)) =
       AssertionError "move should have more than 1 line" \/
     exists msg, UserError (NotBalancedLastLine (-100)) = UserError msg /\
                 import_message msg = true)) \/
   (exists m, In (EvCreate m) [] /\
              ref_create m = inl (UserError (NotBalancedLastLine (-100)))) \/
   (exists ids, In (EvPost ids) [] /\
                ref_post ids = inl (UserError (NotBalancedLastLine (-100))))).
Proof.
  assert (H : decoder_output ref_float ref_int ref_strptime ref_repr [fectxt_vals]).
  { right. right. left. exists (PStr "pipe"), fectxt_rows. by_evaluation. }
  assert (Hu : ref_update_pivot no_overrides [fectxt_vals] = inr [fectxt_dated_vals])
    by by_evaluation.
  assert (Hc : ref_create_moves [fectxt_dated_vals] false =
               ([], inl (UserError (NotBalancedLastLine (-100))))) by by_evaluation.
  split; [exact H|]. split; [exact Hu|]. split; [exact Hc|].
  exact (decoded_import_errors ref_float ref_int ref_strptime ref_repr
           ref_match ref_match ref_match ref_match ref_fz 0.01%float ref_create ref_post
           ref_date_to_string no_overrides _ _ false _ _ H Hu Hc).
Defined.

(** [fectxt_label_is_the_entry_label] on [fectxt_rows]. *)
Lemma fectxt_label_witness :
  fectxt2pivot ref_float ref_strptime (PStr "pipe") fectxt_rows = inr [fectxt_vals] /\
  Forall (fun vals : pydict =>
            exists row, In row fectxt_rows /\
                        vals !! "name" = Some (cell row 10) /\
                        vals !! "reconcile_ref" = Some (cell row 13) /\
                        vals !! "journal" = Some (code (cell row 0)) /\
                        vals !! "account" = Some (code (cell row 4)) /\
                        vals !! "ref" = None) [fectxt_vals].
Proof.
  assert (H : fectxt2pivot ref_float ref_strptime (PStr "pipe") fectxt_rows =
              inr [fectxt_vals]) by by_evaluation.
  split; [exact H|].
  exact (fectxt_label_is_the_entry_label _ _ _ _ _ H).
Defined.
